(** * K8s management with an AI agent: the policy-gated, tool-augmented pipeline

    A shallow embedding of
      - [tools/k8s_tools.py]: the five LangChain tools and the two tool sets,
      - [deployment/llm_client/llm_client.py]: [_is_json_dict], the [/llm/ask]
        and [/llm/ask_current] endpoints,
      - [test/llm_client/llm_client_org.py]: the [/ask] endpoint with the
        translator,
      - [deployment/llm_client_history/llm_client.py]: the [/ask] endpoint with
        memory and the [/history] endpoints,
    and the properties of the specification proved (or refuted) on it.

    Python text is a sequence of Unicode code points; Python values are the
    JSON-shaped values the program handles (None, bool, int, float, str, list,
    dict); a Python call that may raise returns an [outcome]. *)

From Stdlib Require Import ZArith NArith QArith List Bool Lia.
From Stdlib Require Import DecimalString Sorted Permutation.
From stdpp Require Import base option list strings gmap.

Local Open Scope N_scope.
Import ListNotations.

(** ** Python [str] *)

(** A character is its Unicode code point. *)
Abbreviation char := N.
Abbreviation str := (list N).

(** An ASCII literal of the source, as a [str]. *)
Definition lit (s : string) : str :=
  map Ascii.N_of_ascii (String.list_ascii_of_string s).
Arguments lit s%_string.

(** [str.isspace] for one character: the code points whose bidirectional
    class is WS, B or S, or whose category is Zs. *)
Definition is_space (c : char) : bool :=
  ((9 <=? c) && (c <=? 13)) || ((28 <=? c) && (c <=? 32))
  || (c =? 133) || (c =? 160) || (c =? 5760)
  || ((8192 <=? c) && (c <=? 8202))
  || (c =? 8232) || (c =? 8233) || (c =? 8239) || (c =? 8287) || (c =? 12288).

Fixpoint lstrip (s : str) : str :=
  match s with
  | c :: t => if is_space c then lstrip t else s
  | [] => []
  end.

Definition rstrip (s : str) : str := rev (lstrip (rev s)).

(** [s.strip()] *)
Definition strip (s : str) : str := rstrip (lstrip s).

Fixpoint startswith (p s : str) : bool :=
  match p, s with
  | [], _ => true
  | _ :: _, [] => false
  | a :: p', b :: s' => (a =? b) && startswith p' s'
  end.

(** [needle in hay] for two strings. *)
Fixpoint str_in (needle hay : str) : bool :=
  startswith needle hay
  || match hay with
     | [] => false
     | _ :: t => str_in needle t
     end.

(** [s.replace(old, new)]: the occurrences of [old] are replaced from left to
    right without overlap; [skip] counts the characters of a matched
    occurrence that are still to be passed over.  With an empty [old], [new]
    is put before every character and at the end. *)
Fixpoint replace_go (old new : str) (skip : nat) (s : str) : str :=
  match s with
  | [] => []
  | c :: t =>
      match skip with
      | S k => replace_go old new k t
      | O => if startswith old s
             then new ++ replace_go old new (length old - 1) t
             else c :: replace_go old new 0 t
      end
  end.

Definition replace (old new s : str) : str :=
  match old with
  | [] => new ++ flat_map (fun c => c :: new) s
  | _ :: _ => replace_go old new 0 s
  end.

Definition ascii_upper (c : char) : char :=
  if (97 <=? c) && (c <=? 122) then c - 32 else c.

Definition ascii_lower (c : char) : char :=
  if (65 <=? c) && (c <=? 90) then c + 32 else c.

(** The case mappings of a character that is not ASCII come from the
    Unicode character database.  [to_upper] has the full upper-case mapping
    of a character (one character may map to several); [to_lower] has the
    lower-case mapping of the character at a position of a string, which may
    depend on its neighbours (final sigma). *)
Record unicode_db := {
  to_upper : char -> str;
  to_lower : str -> nat -> char -> str
}.

(** A database that leaves every character outside ASCII as it is. *)
Definition caseless_db : unicode_db :=
  {| to_upper := fun c => [c]; to_lower := fun _ _ c => [c] |}.

(** [s.upper()] *)
Definition upper (db : unicode_db) (s : str) : str :=
  flat_map (fun c => if c <? 128 then [ascii_upper c] else to_upper db c) s.

(** [s.lower()] *)
Definition lower (db : unicode_db) (s : str) : str :=
  concat (imap (fun i c => if c <? 128 then [ascii_lower c]
                           else to_lower db s i c) s).

(** ** Python values *)

(** A float is kept by its value: a finite float is a rational, and there
    are the infinities and NaN. *)
Inductive pyfloat :=
  | FFinite (q : Q)
  | FInf (negative : bool)
  | FNaN.

#[local] Set Warnings "-register-all".

(** The values the program receives from [json.loads], from
    [response.json()] and from an agent reply, and the dictionaries it
    builds.  A [dict] keeps its items in insertion order. *)
Inductive value :=
  | VNone
  | VBool (b : bool)
  | VInt (z : Z)
  | VFloat (f : pyfloat)
  | VStr (s : str)
  | VList (l : list value)
  | VDict (items : list (str * value)).

(** [a == b] for two strings. *)
Fixpoint str_eqb (a b : str) : bool :=
  match a, b with
  | [], [] => true
  | x :: a', y :: b' => (x =? y) && str_eqb a' b'
  | _, _ => false
  end.

(** [d.get(key, default)] on the items of a dict. *)
Fixpoint dict_get (items : list (str * value)) (key : str) (default : value)
  : value :=
  match items with
  | [] => default
  | (k, v) :: rest => if str_eqb k key then v else dict_get rest key default
  end.

(** [key in d] *)
Definition dict_has (items : list (str * value)) (key : str) : bool :=
  existsb (fun kv => str_eqb (fst kv) key) items.

(** [type(v).__name__] *)
Definition type_name (v : value) : str :=
  match v with
  | VNone => lit "NoneType"
  | VBool _ => lit "bool"
  | VInt _ => lit "int"
  | VFloat _ => lit "float"
  | VStr _ => lit "str"
  | VList _ => lit "list"
  | VDict _ => lit "dict"
  end.

(** [bool(v)], the test of [if v:]. *)
Definition truthy (v : value) : bool :=
  match v with
  | VNone => false
  | VBool b => b
  | VInt z => negb (z =? 0)%Z
  | VFloat (FFinite q) => negb (Qeq_bool q 0)
  | VFloat _ => true
  | VStr s => negb (Nat.eqb (length s) 0)
  | VList l => negb (Nat.eqb (length l) 0)
  | VDict items => negb (Nat.eqb (length items) 0)
  end.

(** ** Exceptions *)

Inductive exn_class :=
  | JSONDecodeError
  | ValueError
  | RecursionError
  | TypeError
  | AttributeError
  | RequestException
  | OtherException.

(** An exception has its class and [str(e)]. *)
Record exn := Exn { exn_cls : exn_class; exn_msg : str }.

(** The result of a Python call. *)
Inductive outcome (A : Type) :=
  | Return (a : A)
  | Raise (e : exn).
Arguments Return {A} a.
Arguments Raise {A} e.

Definition bind {A B} (m : outcome A) (k : A -> outcome B) : outcome B :=
  match m with
  | Return a => k a
  | Raise e => Raise e
  end.

Notation "x <- m ;; k" := (bind m (fun x => k))
  (at level 100, m at next level, right associativity).

(** [except requests.exceptions.RequestException] catches this. *)
Definition is_request_exception (e : exn) : bool :=
  match exn_cls e with RequestException => true | _ => false end.

(** [except json.JSONDecodeError] catches this. *)
Definition is_json_decode_error (e : exn) : bool :=
  match exn_cls e with JSONDecodeError => true | _ => false end.

(** [v.get(key, default)]: only a dict has the method. *)
Definition py_get (v : value) (key : str) (default : value) : outcome value :=
  match v with
  | VDict items => Return (dict_get items key default)
  | _ => Raise (Exn AttributeError
                  (lit "'" ++ type_name v ++ lit "' object has no attribute 'get'"))
  end.

(** [v.lower()]: only a str has the method. *)
Definition py_lower (db : unicode_db) (v : value) : outcome str :=
  match v with
  | VStr s => Return (lower db s)
  | _ => Raise (Exn AttributeError
                  (lit "'" ++ type_name v ++ lit "' object has no attribute 'lower'"))
  end.

(** The items a [for] loop over [v] visits: the elements of a list, the
    characters of a str (as strings of one character), the keys of a dict;
    the other values are not iterable. *)
Definition py_iter (v : value) : outcome (list value) :=
  match v with
  | VList l => Return l
  | VStr s => Return (map (fun c => VStr [c]) s)
  | VDict items => Return (map (fun kv => VStr (fst kv)) items)
  | _ => Raise (Exn TypeError
                  (lit "'" ++ type_name v ++ lit "' object is not iterable"))
  end.

(** [try: body except Exception as e: handler(e)] *)
Definition try_except {A} (body : outcome A) (handler : exn -> outcome A)
  : outcome A :=
  match body with
  | Return a => Return a
  | Raise e => handler e
  end.

(** ** tools/k8s_tools.py *)

Module Tools.

(** [Settings], loaded from [config_tools.yml]. *)
Record Settings := {
  jump_server_host : str;
  jump_server_ssh_arguments : str;
  loki_api_url : str;
  prometheus_api_url : str
}.

(** What [subprocess.run(..., capture_output=True, text=True)] returns. *)
Record CompletedProcess := {
  returncode : Z;
  stdout : str;
  stderr : str
}.

(** What [requests.get] returns: [raise_for_status()] and [json()] of the
    response. *)
Record Response := {
  raise_for_status : outcome unit;
  json : outcome value
}.

(** What a tool call meets outside the program: the jump server behind
    [subprocess.run], the HTTP services behind [requests.get] (the URL and the
    query parameters), and the clock, already formatted by
    [strftime('%Y-%m-%d %H:%M:%S')] in UTC+8. *)
Record world := {
  subprocess_run : str -> outcome CompletedProcess;
  requests_get : str -> list (str * value) -> outcome Response;
  now_utc8 : str
}.

(** The URL and the parameters of the request of [LokiLogsQueryTool._run]. *)
Definition loki_logs_url (settings : Settings) : str :=
  loki_api_url settings ++ lit "/logs".

Definition loki_logs_params (query start_time end_time : str) (limit : Z)
  : list (str * value) :=
  [(lit "query", VStr query); (lit "start_time", VStr start_time);
   (lit "end_time", VStr end_time); (lit "limit", VInt limit)].

Section Run.

Variable settings : Settings.
Variable db : unicode_db.
Variable w : world.

(** [CurrentTimeTool._run] *)
Definition CurrentTimeTool_run : outcome value :=
  let current_time := now_utc8 w in
  Return (VDict [(lit "current_time", VStr current_time)]).

(** "執行命令時發生錯誤: " *)
Definition kubectl_error_prefix : str :=
  [22519; 34892; 21629; 20196; 26178; 30332; 29983; 37679; 35492; 58; 32].

(** The command line of [KubectlTool._run]:
    [f"{settings.jump_server_ssh_arguments} {settings.jump_server_host} '{command}'"] *)
Definition ssh_command_line (command : str) : str :=
  jump_server_ssh_arguments settings ++ lit " "
  ++ jump_server_host settings ++ lit " '" ++ command ++ lit "'".

(** [KubectlTool._run] *)
Definition KubectlTool_run (command : str) : outcome value :=
  try_except
    (let base_cmd := ssh_command_line command in
     result <- subprocess_run w base_cmd ;;
     if (returncode result =? 0)%Z
     then Return (VDict [(lit "status", VStr (lit "success"));
                         (lit "output", VStr (replace (lit " ") [] (stdout result)));
                         (lit "command", VStr command)])
     else Return (VDict [(lit "status", VStr (lit "error"));
                         (lit "output", VStr (stderr result));
                         (lit "command", VStr command)]))
    (fun e =>
       Return (VDict [(lit "status", VStr (lit "error"));
                      (lit "output", VStr (kubectl_error_prefix ++ exn_msg e));
                      (lit "command", VStr command)])).

(** [LokiLabelsQueryTool._run] *)
Definition LokiLabelsQueryTool_run : outcome value :=
  try_except
    (response <- requests_get w (loki_api_url settings ++ lit "/labels") [] ;;
     _ <- raise_for_status response ;;
     labels_data <- json response ;;
     labels <- py_get labels_data (lit "labels") (VDict []) ;;
     Return (VDict [(lit "status", VStr (lit "success"));
                    (lit "labels", labels)]))
    (fun e =>
       if is_request_exception e
       then Return (VDict [(lit "status", VStr (lit "error"));
                           (lit "error",
                            VStr (lit "Loki API Request Error: " ++ exn_msg e))])
       else Return (VDict [(lit "status", VStr (lit "error"));
                           (lit "error",
                            VStr (lit "Error occurred when getting the labels: "
                                  ++ exn_msg e))])).

(** The loop of [LokiLogsQueryTool._run]: [lstTmp] collects the entries whose
    [log] text, in lower case, has no "info". *)
Fixpoint keep_non_info (logs : list value) : outcome (list value) :=
  match logs with
  | [] => Return []
  | log :: rest =>
      text <- py_get log (lit "log") (VStr []) ;;
      lowered <- py_lower db text ;;
      lstTmp <- keep_non_info rest ;;
      Return (if negb (str_in (lit "info") lowered) then log :: lstTmp else lstTmp)
  end.

(** [LokiLogsQueryTool._run]; the branch of [debug = False] has no [return]
    when [logs] is falsy, so the call returns [None] there. *)
Definition LokiLogsQueryTool_run
  (query start_time end_time : str) (limit : Z) (debug : bool) : outcome value :=
  try_except
    (let params := loki_logs_params query start_time end_time limit in
     response <- requests_get w (loki_logs_url settings) params ;;
     _ <- raise_for_status response ;;
     logs_data <- json response ;;
     if debug
     then
       target <- py_get logs_data (lit "stream") (VStr (lit "unknown")) ;;
       logs <- py_get logs_data (lit "values") (VList []) ;;
       Return (VDict [(lit "status", VStr (lit "success"));
                      (lit "target", target);
                      (lit "logs", logs)])
     else
       logs <- py_get logs_data (lit "values") (VList []) ;;
       if truthy logs
       then
         entries <- py_iter logs ;;
         lstTmp <- keep_non_info entries ;;
         target <- py_get logs_data (lit "stream") (VStr (lit "unknown")) ;;
         Return (VDict [(lit "status", VStr (lit "success"));
                        (lit "target", target);
                        (lit "logs",
                         if truthy (VList lstTmp) then VList lstTmp
                         else VList [VDict [(lit "timestamp", VStr end_time);
                                            (lit "log",
                                             VStr (lit "No critical logs found"))]])])
       else Return VNone)
    (fun e =>
       if is_request_exception e
       then Return (VDict [(lit "status", VStr (lit "error"));
                           (lit "error",
                            VStr (lit "Loki API Request Error: " ++ exn_msg e));
                           (lit "query", VStr query)])
       else Return (VDict [(lit "status", VStr (lit "error"));
                           (lit "error",
                            VStr (lit "Error occurred when querying logs: "
                                  ++ exn_msg e));
                           (lit "query", VStr query)])).

(** [PrometheusCurrentPodsMetricsTool._run] *)
Definition PrometheusCurrentPodsMetricsTool_run : outcome value :=
  try_except
    (response <- requests_get w (prometheus_api_url settings ++ lit "/pods") [] ;;
     _ <- raise_for_status response ;;
     pods_metrics <- json response ;;
     Return (VDict [(lit "status", VStr (lit "success"));
                    (lit "pods_metrics", pods_metrics)]))
    (fun e =>
       if is_request_exception e
       then Return (VDict [(lit "status", VStr (lit "error"));
                           (lit "error",
                            VStr (lit "Prometheus API Request Failed: "
                                  ++ exn_msg e))])
       else Return (VDict [(lit "status", VStr (lit "error"));
                           (lit "error",
                            VStr (lit "Error occurred when getting the metrics of the Pods: "
                                  ++ exn_msg e))])).

End Run.

(** The log text of an entry, [log.get("log", '')], where the entry is a
    dict and the text a str. *)
Definition entry_text (log : value) : option str :=
  match log with
  | VDict items =>
      match dict_get items (lit "log") (VStr []) with
      | VStr text => Some text
      | _ => None
      end
  | _ => None
  end.

(** The log text of an entry contains "info", whatever the case. *)
Definition mentions_info (db : unicode_db) (log : value) : bool :=
  match entry_text log with
  | Some text => str_in (lit "info") (lower db text)
  | None => false
  end.

(** The entry that stands for an empty selection. *)
Definition no_critical_logs (end_time : str) : value :=
  VDict [(lit "timestamp", VStr end_time);
         (lit "log", VStr (lit "No critical logs found"))].

(** The tool classes. *)
Inductive tool :=
  | CurrentTimeTool
  | KubectlTool
  | LokiLabelsQueryTool
  | LokiLogsQueryTool
  | PrometheusCurrentPodsMetricsTool.

(** The [name] attribute of a tool. *)
Definition name (t : tool) : str :=
  match t with
  | CurrentTimeTool => lit "current_time"
  | KubectlTool => lit "kubectl_command"
  | LokiLabelsQueryTool => lit "loki_labels_query"
  | LokiLogsQueryTool => lit "loki_logs_query"
  | PrometheusCurrentPodsMetricsTool => lit "prometheus_pods_metrics"
  end.

(** An argument assignment, after validation: [KubectlInput],
    [LokiLogsQueryInput], or no argument at all. *)
Inductive tool_input :=
  | NoInput
  | KubectlInput (command : str)
  | LokiLogsQueryInput (query start_time end_time : str) (limit : Z) (debug : bool).

(** The [args_schema] of a tool accepts the assignment. *)
Definition accepts (t : tool) (i : tool_input) : bool :=
  match t, i with
  | CurrentTimeTool, NoInput => true
  | KubectlTool, KubectlInput _ => true
  | LokiLabelsQueryTool, NoInput => true
  | LokiLogsQueryTool, LokiLogsQueryInput _ _ _ _ _ => true
  | PrometheusCurrentPodsMetricsTool, NoInput => true
  | _, _ => false
  end.

(** The invocation of a tool: the assignment is validated against the
    schema, then [_run] is called with it. *)
Definition invoke (settings : Settings) (db : unicode_db) (w : world)
  (t : tool) (i : tool_input) : outcome value :=
  match t, i with
  | CurrentTimeTool, NoInput => CurrentTimeTool_run w
  | KubectlTool, KubectlInput command => KubectlTool_run settings w command
  | LokiLabelsQueryTool, NoInput => LokiLabelsQueryTool_run settings w
  | LokiLogsQueryTool, LokiLogsQueryInput query start_time end_time limit debug =>
      LokiLogsQueryTool_run settings db w query start_time end_time limit debug
  | PrometheusCurrentPodsMetricsTool, NoInput =>
      PrometheusCurrentPodsMetricsTool_run settings w
  | _, _ => Raise (Exn OtherException (lit "validation error"))
  end.

Definition analysis_tools : list tool :=
  [CurrentTimeTool; KubectlTool; LokiLabelsQueryTool; LokiLogsQueryTool;
   PrometheusCurrentPodsMetricsTool].

Definition debug_tools : list tool := [KubectlTool].

End Tools.

(** ** The HTTP surface *)

(** [LLMResponse] *)
Record LLMResponse := {
  reply : value;
  is_safe : bool
}.

(** What an endpoint gives back: the body of a 200 response, or the
    [HTTPException] it raises. *)
Inductive http (A : Type) :=
  | OK (body : A)
  | HTTPException (status_code : Z) (detail : str).
Arguments OK {A} body.
Arguments HTTPException {A} status_code detail.

(** The calls an endpoint makes to the language-model services, in order. *)
Inductive call :=
  | JudgeCall (input : str)
  | AgentExecutorCall (input : str)
  | AgentAnalyzerCall (input : str).

(** [json.loads(s)]: the text of a str goes to the decoder, which returns
    the value of a JSON document or raises: a [JSONDecodeError] where the
    text is not JSON, and also a [ValueError] for an integer of more digits
    than the interpreter converts, or a [RecursionError] where the arrays and
    objects are nested too deeply.  A value of this model that is not a str
    (None, a bool, a number, a list or a dict) is refused with a
    [TypeError]; a bytes object, which [json.loads] would decode, is not
    among the values of the model. *)
Definition json_loads (decode : str -> outcome value) (s : value) : outcome value :=
  match s with
  | VStr text => decode text
  | _ => Raise (Exn TypeError
                  (lit "the JSON object must be str, bytes or bytearray, not "
                   ++ type_name s))
  end.

(** [isinstance(v, dict)] *)
Definition isinstance_dict (v : value) : bool :=
  match v with VDict _ => true | _ => false end.

(** [v.strip()]: only a str has the method. *)
Definition py_strip (v : value) : outcome str :=
  match v with
  | VStr s => Return (strip s)
  | _ => Raise (Exn AttributeError
                  (lit "'" ++ type_name v ++ lit "' object has no attribute 'strip'"))
  end.

(** ** deployment/llm_client/llm_client.py *)

Module LlmClient.

(** The language-model services of [app_state]: the judge chain has the
    [content] of its result, the agents have their reply; each may raise. *)
Record services := {
  judge_chain_ainvoke : str -> outcome value;
  agent_executor_invoke : str -> outcome value;
  agent_analyzer_ainvoke : str -> outcome value
}.

Section Endpoints.

Variable db : unicode_db.
Variable decode : str -> outcome value.
Variable app_state : services.

(** [_is_json_dict] *)
Definition _is_json_dict (s : value) : outcome bool :=
  try_except
    (result <- json_loads decode s ;;
     Return (isinstance_dict result))
    (fun e => if is_json_decode_error e then Return false else Raise e).

(** The output normalization of the endpoints:
    [json.loads(output).get("action_input", "no action_input")
       if _is_json_dict(output) else output] *)
Definition normalize_output (output : value) : outcome value :=
  is_dict <- _is_json_dict output ;;
  if is_dict
  then
    loaded <- json_loads decode output ;;
    py_get loaded (lit "action_input") (VStr (lit "no action_input"))
  else Return output.

(** The agent stage shared by the two endpoints, from the reply of the
    agent to the response. *)
Definition reply_of_agent (agent_reply : outcome value) : outcome LLMResponse :=
  agent_reply <- agent_reply ;;
  output <- py_get agent_reply (lit "output") (VStr (lit "no output")) ;;
  output <- normalize_output output ;;
  Return {| reply := VDict [(lit "output", output)]; is_safe := true |}.

Definition policy_violation_message : str :=
  lit "This query violates safety policy (e.g., attempts to change state or access sensitive data) and cannot be executed.".

Definition internal_error_message : str :=
  lit "Internal error occurred while processing the request".

(** Stage 1 of [ask_llm]: the judge is called and its text normalized. *)
Definition judge_decision (message : str) : outcome str :=
  content <- judge_chain_ainvoke app_state message ;;
  stripped <- py_strip content ;;
  Return (upper db stripped).

(** [ask_llm], the endpoint [POST /llm/ask]. *)
Definition ask_llm (message : str) : list call * http LLMResponse :=
  match judge_decision message with
  | Raise e =>
      ([JudgeCall message],
       HTTPException 503 (lit "Safety check service error: " ++ exn_msg e))
  | Return decision =>
      if str_in (lit "DENIED") decision
      then
        ([JudgeCall message],
         OK {| reply := VDict [(lit "output", VStr policy_violation_message)];
               is_safe := false |})
      else
        ([JudgeCall message; AgentExecutorCall message],
         match reply_of_agent (agent_executor_invoke app_state message) with
         | Return response => OK response
         | Raise e => HTTPException 500 internal_error_message
         end)
  end.

(** [ask_llm_current], the endpoint [POST /llm/ask_current]. *)
Definition ask_llm_current (message : str) : list call * http LLMResponse :=
  ([AgentAnalyzerCall message],
   match reply_of_agent (agent_analyzer_ainvoke app_state message) with
   | Return response => OK response
   | Raise e => HTTPException 500 internal_error_message
   end).

End Endpoints.

End LlmClient.

(** ** test/llm_client/llm_client_org.py *)

Module LlmClientOrg.

(** The services of this variant: the judge, the translator (the judge
    model under another system message) and the agent chain, which takes what
    the translator has answered. *)
Record services := {
  judge_chain_ainvoke : str -> outcome value;
  translator_chain_ainvoke : str -> outcome value;
  agent_chain_ainvoke : value -> outcome value
}.

Inductive call :=
  | JudgeCall (input : str)
  | TranslatorCall (input : str)
  | AgentChainCall (input : value).

(** "此查詢違反安全策略 (例如，嘗試更改狀態或存取敏感資料)，無法執行。" *)
Definition policy_violation_message : str :=
  [27492; 26597; 35426; 36949; 21453; 23433; 20840; 31574; 30053; 32; 40; 20363;
   22914; 65292; 22039; 35430; 26356; 25913; 29376; 24907; 25110; 23384; 21462;
   25935; 24863; 36039; 26009; 41; 65292; 28961; 27861; 22519; 34892; 12290].

(** "安全驗證服務錯誤: " *)
Definition judge_error_prefix : str :=
  [23433; 20840; 39511; 35657; 26381; 21209; 37679; 35492; 58; 32].

(** "翻譯服務錯誤: " *)
Definition translator_error_prefix : str :=
  [32763; 35695; 26381; 21209; 37679; 35492; 58; 32].

(** "處理請求時發生內部錯誤" *)
Definition internal_error_message : str :=
  [34389; 29702; 35531; 27714; 26178; 30332; 29983; 20839; 37096; 37679; 35492].

Section Endpoints.

Variable db : unicode_db.
Variable decode : str -> outcome value.
Variable app_state : services.

Definition judge_decision (message : str) : outcome str :=
  content <- judge_chain_ainvoke app_state message ;;
  stripped <- py_strip content ;;
  Return (upper db stripped).

(** [ask_llm], the endpoint [POST /ask] of this variant: between the gate
    and the agent the request is translated. *)
Definition ask_llm (message : str) : list call * http LLMResponse :=
  match judge_decision message with
  | Raise e =>
      ([JudgeCall message], HTTPException 503 (judge_error_prefix ++ exn_msg e))
  | Return decision =>
      if str_in (lit "DENIED") decision
      then
        ([JudgeCall message],
         OK {| reply := VStr policy_violation_message; is_safe := false |})
      else
        match translator_chain_ainvoke app_state message with
        | Raise e =>
            ([JudgeCall message; TranslatorCall message],
             HTTPException 503 (translator_error_prefix ++ exn_msg e))
        | Return translated_msg =>
            ([JudgeCall message; TranslatorCall message; AgentChainCall translated_msg],
             match LlmClient.reply_of_agent decode
                     (agent_chain_ainvoke app_state translated_msg) with
             | Return response => OK response
             | Raise e => HTTPException 500 internal_error_message
             end)
        end
  end.

End Endpoints.

End LlmClientOrg.

(** ** deployment/llm_client_history/llm_client.py *)

Module LlmClientHistory.

(** A stored message: its [type] ("human" or "ai") and its [content]. *)
Record message := {
  type : str;
  content : value
}.

(** The PostgreSQL connection of [app_state.postgres_conn] with the table
    [chat_history]: the messages of each session, oldest first. *)
Record database := {
  closed : bool;
  chat_history : gmap str (list message)
}.

Definition connection_closed : exn :=
  Exn OtherException (lit "the connection is closed").

(** Modelled from the spec: [PostgresChatMessageHistory] of langchain_postgres
    is not part of the sources; section 6 gives the persistence interface as
    [list(session_id)], [append(session_id, turn)] and [deleteAll(session_id)],
    and section 4.4 says that reading returns the turns in insertion order.
    An operation on a closed connection raises. *)
Definition get_messages (session_id : str) (d : database) : outcome (list message) :=
  if closed d then Raise connection_closed
  else Return (default [] (chat_history d !! session_id)).

Definition add_messages (session_id : str) (new : list message) (d : database)
  : outcome database :=
  if closed d then Raise connection_closed
  else Return {| closed := closed d;
                 chat_history :=
                   <[session_id := default [] (chat_history d !! session_id) ++ new]>
                     (chat_history d) |}.

Definition clear (session_id : str) (d : database) : outcome database :=
  if closed d then Raise connection_closed
  else Return {| closed := closed d;
                 chat_history := delete session_id (chat_history d) |}.

(** The agents with memory take the input and the stored messages. *)
Record services := {
  agent_executor_invoke : str -> list message -> outcome value;
  agent_analyzer_invoke : str -> list message -> outcome value
}.

(** [v[key]] on a dict. *)
Definition py_item (v : value) (key : str) : outcome value :=
  match v with
  | VDict items =>
      if dict_has items key then Return (dict_get items key VNone)
      else Raise (Exn OtherException (lit "'" ++ key ++ lit "'"))
  | _ => Raise (Exn TypeError
                  (lit "'" ++ type_name v ++ lit "' object is not subscriptable"))
  end.

Section Endpoints.

Variable db : unicode_db.
Variable decode : str -> outcome value.
Variable app_state : services.
(** [app_state.session_id], one for the whole process. *)
Variable session_id : str.

(** Modelled from the spec: [RunnableWithMessageHistory] of langchain_core is
    not part of the sources; by section 4.4 the stored turns are given to the
    agent, and the user turn followed by the assistant turn are appended
    after the agent has answered; a failed run appends nothing. *)
Definition invoke_with_history
  (agent : str -> list message -> outcome value) (input : str) (d : database)
  : outcome (value * database) :=
  history <- get_messages session_id d ;;
  agent_reply <- agent input history ;;
  answer <- py_item agent_reply (lit "output") ;;
  d' <- add_messages session_id
          [ {| type := lit "human"; content := VStr input |};
            {| type := lit "ai"; content := answer |} ] d ;;
  Return (agent_reply, d').

(** The body of the [try] of the two endpoints. *)
Definition reply_with_history
  (agent : str -> list message -> outcome value) (message : str) (d : database)
  : outcome (LLMResponse * database) :=
  run <- invoke_with_history agent message d ;;
  response <- LlmClient.reply_of_agent decode (Return (fst run)) ;;
  Return (response, snd run).

(** [ask_llm], the endpoint [POST /ask]: stage 1 is commented out in the
    source, so the function begins with the agent stage. *)
Definition ask_llm (message : str) (d : database)
  : database * list call * http LLMResponse :=
  match reply_with_history (agent_executor_invoke app_state) message d with
  | Return (response, d') => (d', [AgentExecutorCall message], OK response)
  | Raise e =>
      (d, [AgentExecutorCall message],
       HTTPException 500 LlmClient.internal_error_message)
  end.

(** [ask_llm_current], the endpoint [POST /ask_current]. *)
Definition ask_llm_current (message : str) (d : database)
  : database * list call * http LLMResponse :=
  match reply_with_history (agent_analyzer_invoke app_state) message d with
  | Return (response, d') => (d', [AgentAnalyzerCall message], OK response)
  | Raise e =>
      (d, [AgentAnalyzerCall message],
       HTTPException 500 LlmClient.internal_error_message)
  end.

(** [get_conversation_history], the endpoint [GET /history]. *)
Definition get_conversation_history (d : database) : http value :=
  match get_messages session_id d with
  | Return messages =>
      OK (VDict [(lit "session_id", VStr session_id);
                 (lit "message_count", VInt (Z.of_nat (length messages)));
                 (lit "messages",
                  VList (map (fun msg => VDict [(lit "type", VStr (type msg));
                                                (lit "content", content msg)])
                             messages))])
  | Raise e =>
      HTTPException 500 (lit "Error retrieving conversation history: " ++ exn_msg e)
  end.

Definition cleared_message : value :=
  VDict [(lit "message", VStr (lit "Conversation history cleared successfully"))].

(** [clear_conversation_history], the endpoint [DELETE /history]. *)
Definition clear_conversation_history (d : database) : database * http value :=
  match clear session_id d with
  | Return d' => (d', OK cleared_message)
  | Raise e =>
      (d, HTTPException 500 (lit "Error clearing conversation history: " ++ exn_msg e))
  end.

End Endpoints.

End LlmClientHistory.

(** ** The reasoning loop *)

Module ReasoningLoop.

(** What one completion call of the loop yields. *)
Inductive completion :=
  | ToolSelection (tool_name : str) (tool_input : Tools.tool_input)
  | FinalAnswer (text : str)
  | Malformed.

(** One step of a run, with its observation. *)
Inductive AgentStep :=
  | Invoked (chosen_tool : Tools.tool) (tool_input : Tools.tool_input)
            (observation : outcome value)
  | NotATool (tool_name : str)
  | ParsingError.

Inductive terminal :=
  | DONE (answer : str)
  | FAILED.

(** The tools a run has invoked, in order. *)
Definition invoked (steps : list AgentStep) : list Tools.tool :=
  omap (fun step => match step with
                    | Invoked t _ _ => Some t
                    | _ => None
                    end) steps.

(** The registry: a tool is looked up by its name. *)
Definition lookup_tool (registry : list Tools.tool) (tool_name : str)
  : option Tools.tool :=
  List.find (fun t => str_eqb (Tools.name t) tool_name) registry.

Section Loop.

Variable settings : Tools.Settings.
Variable db : unicode_db.
(** The world a tool call meets, by the number of steps made before it. *)
Variable world_at : nat -> Tools.world.
(** The model: the completion it gives after the steps made so far (the
    request, the prior turns and the system instruction are fixed in it). *)
Variable llm : list AgentStep -> completion.
Variable registry : list Tools.tool.
Variable max_retries : nat.

(** Modelled from the spec: the loop is the [AgentExecutor] of LangChain,
    which is not part of the sources; section 4.2 gives its states
    (THINKING, ACTING, OBSERVING, DONE, FAILED), the bound on the retries
    after malformed output and the bound on the think/act cycles, and
    section 9 says that a tool is looked up by name in the registry.  A tool
    error, and a name that the registry does not have, are observations;
    they do not end the run. *)
Fixpoint think (cycles retries : nat) (steps : list AgentStep)
  : terminal * list AgentStep :=
  match cycles with
  | O => (FAILED, steps)
  | S cycles' =>
      match llm steps with
      | FinalAnswer text => (DONE text, steps)
      | Malformed =>
          match retries with
          | O => (FAILED, steps)
          | S retries' => think cycles' retries' (steps ++ [ParsingError])
          end
      | ToolSelection tool_name tool_input =>
          match lookup_tool registry tool_name with
          | Some t =>
              let observation :=
                Tools.invoke settings db (world_at (length steps)) t tool_input in
              think cycles' max_retries
                    (steps ++ [Invoked t tool_input observation])
          | None => think cycles' max_retries (steps ++ [NotATool tool_name])
          end
      end
  end.

(** A run of the loop from START. *)
Definition run (max_cycles : nat) : terminal * list AgentStep :=
  think max_cycles max_retries [].

End Loop.

(** The two instantiations made by [lifespan]: [app_state.agent_executor],
    the debug agent, is built with [debug_tools]; [app_state.agent_analyzer],
    the analysis agent, is built with [analysis_tools]. *)
Definition agent_executor settings db world_at llm max_retries max_cycles :=
  run settings db world_at llm Tools.debug_tools max_retries max_cycles.

Definition agent_analyzer settings db world_at llm max_retries max_cycles :=
  run settings db world_at llm Tools.analysis_tools max_retries max_cycles.

End ReasoningLoop.

(** [str(z)] of an integer. *)
Definition str_of_Z (z : Z) : str := lit (NilZero.string_of_int (Z.to_int z)).

(** ** A JSON decoder *)

(** The endpoints are stated for any decoder.  This one follows the scanner
    of Python's [json] module (objects, arrays, strings with their escapes,
    numbers, [true], [false], [null], [NaN] and the infinities, white space
    around the tokens, nothing after the document) and is the decoder of
    the examples.  A number with a fraction or an exponent is kept by its
    decimal value, not rounded to 53 bits; it is zero or infinite where the
    rounding makes it so.  The scanner has the two limits of the
    interpreter: an integer of more than [int_max_str_digits] digits is not
    converted ([ValueError]), and an array or object at a nesting level
    beyond [max_depth] is not entered ([RecursionError]).  Where a text is
    malformed within a few levels of [max_depth], the interpreter can run
    out of stack while it builds the [JSONDecodeError] and raise a
    [RecursionError] in its place; the decoder has the [JSONDecodeError]
    there. *)
Module Json.

(** The limits of the interpreter: [sys.get_int_max_str_digits()], where 0
    is no limit, and the number of nested arrays and objects the scanner
    can enter, which is what the stack of the caller leaves of
    [sys.getrecursionlimit()]. *)
Record limits := {
  int_max_str_digits : N;
  max_depth : N
}.

(** What the scanner has at a position: a value and the text behind it, no
    value (the text is not JSON: [JSONDecodeError]), or another
    exception. *)
Inductive scanned (A : Type) :=
  | Found (a : A) (rest : str)
  | Malformed
  | Failed (e : exn).
Arguments Found {A} a rest.
Arguments Malformed {A}.
Arguments Failed {A} e.

(** The [ValueError] of [int(text)] for a text of [digits] digits. *)
Definition int_conversion_error (limit digits : N) : exn :=
  Exn ValueError
    (lit "Exceeds the limit (" ++ str_of_Z (Z.of_N limit)
     ++ lit " digits) for integer string conversion: value has "
     ++ str_of_Z (Z.of_N digits)
     ++ lit " digits; use sys.set_int_max_str_digits() to increase the limit").

(** The [RecursionError] of the scanner at an array or an object. *)
Definition recursion_error (container : string) : exn :=
  Exn RecursionError
    (lit "maximum recursion depth exceeded while decoding a JSON "
     ++ lit container ++ lit " from a unicode string").

Definition is_ws (c : char) : bool :=
  (c =? 32) || (c =? 9) || (c =? 10) || (c =? 13).

Fixpoint skip_ws (s : str) : str :=
  match s with
  | c :: t => if is_ws c then skip_ws t else s
  | [] => []
  end.

Definition is_digit (c : char) : bool := (48 <=? c) && (c <=? 57).

Definition hex_digit (c : char) : option N :=
  if is_digit c then Some (c - 48)
  else if (97 <=? c) && (c <=? 102) then Some (c - 87)
  else if (65 <=? c) && (c <=? 70) then Some (c - 55)
  else None.

Definition hex4 (a b c d : char) : option N :=
  match hex_digit a, hex_digit b, hex_digit c, hex_digit d with
  | Some x, Some y, Some z, Some u => Some (x * 4096 + y * 256 + z * 16 + u)
  | _, _, _, _ => None
  end.

(** The character of a one-letter escape. *)
Definition escape (c : char) : option char :=
  if c =? 34 then Some 34          (* the quote *)
  else if c =? 92 then Some 92     (* the backslash *)
  else if c =? 47 then Some 47     (* the slash *)
  else if c =? 98 then Some 8      (* b: backspace *)
  else if c =? 102 then Some 12    (* f: form feed *)
  else if c =? 110 then Some 10    (* n: line feed *)
  else if c =? 114 then Some 13    (* r: carriage return *)
  else if c =? 116 then Some 9     (* t: tab *)
  else None.

Definition is_high_surrogate (c : char) : bool := (55296 <=? c) && (c <=? 56319).
Definition is_low_surrogate (c : char) : bool := (56320 <=? c) && (c <=? 57343).
Definition join_surrogates (hi lo : char) : char :=
  65536 + (hi - 55296) * 1024 + (lo - 56320).

Definition push (c : char) (r : option (str * str)) : option (str * str) :=
  match r with
  | Some (text, rest) => Some (c :: text, rest)
  | None => None
  end.

(** The text of a string, read from behind its opening quote, and what
    follows its closing quote. *)
Fixpoint scanstring (s : str) : option (str * str) :=
  match s with
  | [] => None
  | c :: rest =>
      if c =? 34 then Some ([], rest)
      else if c =? 92 then
        match rest with
        | [] => None
        | e :: rest1 =>
            if e =? 117 then
              match rest1 with
              | a :: b :: c1 :: d :: rest2 =>
                  match hex4 a b c1 d with
                  | None => None
                  | Some hi =>
                      match rest2 with
                      | b1 :: u1 :: a2 :: b2 :: c2 :: d2 :: rest3 =>
                          match hex4 a2 b2 c2 d2 with
                          | Some lo =>
                              if is_high_surrogate hi && (b1 =? 92) && (u1 =? 117)
                                 && is_low_surrogate lo
                              then push (join_surrogates hi lo) (scanstring rest3)
                              else push hi (scanstring rest2)
                          | None => push hi (scanstring rest2)
                          end
                      | _ => push hi (scanstring rest2)
                      end
                  end
              | _ => None
              end
            else
              match escape e with
              | Some c' => push c' (scanstring rest1)
              | None => None
              end
        end
      else if c <? 32 then None
      else push c (scanstring rest)
  end.

Fixpoint span_digits (s : str) : str * str :=
  match s with
  | c :: t => if is_digit c
              then let (ds, rest) := span_digits t in (c :: ds, rest)
              else ([], s)
  | [] => ([], [])
  end.

Definition digits_value (ds : str) : Z :=
  fold_left (fun acc c => (acc * 10 + Z.of_N (c - 48))%Z) ds 0%Z.

(** [float(text)] of a number with the digits [m] scaled by [10^e]. *)
Definition make_float (negative : bool) (m e : Z) : pyfloat :=
  let q := (inject_Z m * Qpower (inject_Z 10) e)%Q in
  if (m =? 0)%Z then FFinite 0
  else if Qle_bool (inject_Z (2 ^ 1024 - 2 ^ 970)) q then FInf negative
  else if Qle_bool q (Qpower (inject_Z 2) (-1075)) then FFinite 0
  else FFinite (if negative then Qopp q else q).

(** A number at the head of [s]: the integer part, then a fraction and an
    exponent where they are complete. *)
Definition match_number (l : limits) (s : str) : scanned value :=
  let (negative, s1) :=
    match s with
    | c :: t => if c =? 45 then (true, t) else (false, s)
    | [] => (false, s)
    end in
  match s1 with
  | [] => Malformed
  | c :: t =>
      if negb (is_digit c) then Malformed
      else
        let (int_digits, rest) :=
          if c =? 48 then ([c], t) else span_digits s1 in
        let (frac_digits, rest1) :=
          match rest with
          | p :: r =>
              if p =? 46 then
                let (fd, r') := span_digits r in
                match fd with [] => ([], rest) | _ => (fd, r') end
              else ([], rest)
          | [] => ([], rest)
          end in
        let (exponent, rest2) :=
          match rest1 with
          | x :: r =>
              if (x =? 101) || (x =? 69) then
                let (minus, r1) :=
                  match r with
                  | g :: r0 => if g =? 45 then (true, r0)
                               else if g =? 43 then (false, r0)
                               else (false, r)
                  | [] => (false, r)
                  end in
                let (ed, r2) := span_digits r1 in
                match ed with
                | [] => (None, rest1)
                | _ => (Some (if minus then (- digits_value ed)%Z
                              else digits_value ed), r2)
                end
              else (None, rest1)
          | [] => (None, rest1)
          end in
        match frac_digits, exponent with
        | [], None =>
            let digits := N.of_nat (length int_digits) in
            if negb (int_max_str_digits l =? 0) && (int_max_str_digits l <? digits)
            then Failed (int_conversion_error (int_max_str_digits l) digits)
            else
              Found (VInt (if negative then (- digits_value int_digits)%Z
                           else digits_value int_digits)) rest2
        | _, _ =>
            Found (VFloat (make_float negative
                             (digits_value (int_digits ++ frac_digits))
                             (default 0%Z exponent - Z.of_nat (length frac_digits))))
                  rest2
        end
  end.

(** [s] begins with the ASCII word [word]: what follows it. *)
Definition after (word : string) (s : str) : option str :=
  if startswith (lit word) s then Some (drop (length (lit word)) s) else None.

(** [d[key] = v] while a dict is built. *)
Fixpoint dict_set (items : list (str * value)) (key : str) (v : value)
  : list (str * value) :=
  match items with
  | [] => [(key, v)]
  | (k, v0) :: rest =>
      if str_eqb k key then (k, v) :: rest else (k, v0) :: dict_set rest key v
  end.

(** The scanner: the value at the head of [s] and what follows it, with
    [depth] arrays and objects open around it.  Every call passes on less
    fuel and, from one value to the next, a shorter text. *)
Fixpoint scan_once (l : limits) (fuel : nat) (depth : N) (s : str) {struct fuel}
  : scanned value :=
  match fuel with
  | O => Malformed
  | S fuel' =>
      match s with
      | [] => Malformed
      | c :: rest =>
          if c =? 34 then
            match scanstring rest with
            | Some (text, r) => Found (VStr text) r
            | None => Malformed
            end
          else if c =? 123 then
            if max_depth l <=? depth then Failed (recursion_error "object")
            else
              match skip_ws rest with
              | c1 :: r1 =>
                  if c1 =? 125 then Found (VDict []) r1
                  else if c1 =? 34 then
                    match object_items l fuel' (depth + 1) r1 [] with
                    | Found items r => Found (VDict items) r
                    | Malformed => Malformed
                    | Failed e => Failed e
                    end
                  else Malformed
              | [] => Malformed
              end
          else if c =? 91 then
            if max_depth l <=? depth then Failed (recursion_error "array")
            else
              match skip_ws rest with
              | c1 :: r1 =>
                  if c1 =? 93 then Found (VList []) r1
                  else
                    match array_elements l fuel' (depth + 1) (c1 :: r1) [] with
                    | Found elements r => Found (VList elements) r
                    | Malformed => Malformed
                    | Failed e => Failed e
                    end
              | [] => Malformed
              end
          else
            match after "null" s, after "true" s, after "false" s with
            | Some r, _, _ => Found VNone r
            | _, Some r, _ => Found (VBool true) r
            | _, _, Some r => Found (VBool false) r
            | None, None, None =>
                match match_number l s with
                | Found number r => Found number r
                | Failed e => Failed e
                | Malformed =>
                    match after "NaN" s, after "Infinity" s, after "-Infinity" s with
                    | Some r, _, _ => Found (VFloat FNaN) r
                    | _, Some r, _ => Found (VFloat (FInf false)) r
                    | _, _, Some r => Found (VFloat (FInf true)) r
                    | None, None, None => Malformed
                    end
                end
            end
      end
  end
with array_elements (l : limits) (fuel : nat) (depth : N) (s : str)
       (acc : list value) {struct fuel} : scanned (list value) :=
  match fuel with
  | O => Malformed
  | S fuel' =>
      match scan_once l fuel' depth s with
      | Malformed => Malformed
      | Failed e => Failed e
      | Found v r =>
          match skip_ws r with
          | c :: r1 =>
              if c =? 93 then Found (rev (v :: acc)) r1
              else if c =? 44
                   then array_elements l fuel' depth (skip_ws r1) (v :: acc)
              else Malformed
          | [] => Malformed
          end
      end
  end
with object_items (l : limits) (fuel : nat) (depth : N) (s : str)
       (acc : list (str * value)) {struct fuel} : scanned (list (str * value)) :=
  match fuel with
  | O => Malformed
  | S fuel' =>
      match scanstring s with
      | None => Malformed
      | Some (key, r) =>
          match skip_ws r with
          | c :: r1 =>
              if negb (c =? 58) then Malformed
              else
                match scan_once l fuel' depth (skip_ws r1) with
                | Malformed => Malformed
                | Failed e => Failed e
                | Found v r2 =>
                    let acc' := dict_set acc key v in
                    match skip_ws r2 with
                    | c2 :: r3 =>
                        if c2 =? 125 then Found acc' r3
                        else if c2 =? 44 then
                          match skip_ws r3 with
                          | c3 :: r4 =>
                              if c3 =? 34 then object_items l fuel' depth r4 acc'
                              else Malformed
                          | [] => Malformed
                          end
                        else Malformed
                    | [] => Malformed
                    end
                end
          | [] => Malformed
          end
      end
  end.

(** [JSONDecoder.decode]: one document, white space around it allowed. *)
Definition decode (l : limits) (s : str) : outcome value :=
  if startswith [65279] s
  then Raise (Exn JSONDecodeError
                (lit "Unexpected UTF-8 BOM (decode using utf-8-sig)"))
  else
    match scan_once l (2 * length s + 2) 0 (skip_ws s) with
    | Found v rest =>
        match skip_ws rest with
        | [] => Return v
        | _ :: _ => Raise (Exn JSONDecodeError (lit "Extra data"))
        end
    | Malformed => Raise (Exn JSONDecodeError (lit "Expecting value"))
    | Failed e => Raise e
    end.

End Json.

(** ** test/mcp/mcp_server.py *)

Module McpServer.

Record Settings := {
  prometheus_url : str;
  jump_server_host : str;
  jump_server_ssh_arguments : str
}.

Section Tools.

Variable settings : Settings.
(** [subprocess.run(base_cmd, shell=True, capture_output=True, text=True,
    timeout=3)] *)
Variable subprocess_run : str -> outcome Tools.CompletedProcess.

(** [remote_cmd], the tool [ssh_exec]: the command is put behind the ssh
    arguments and the host as it is, without quotes; the result is an error
    as soon as the command has written to stderr. *)
Definition remote_cmd (cmd : str) : outcome value :=
  try_except
    (let base_cmd :=
       jump_server_ssh_arguments settings ++ lit " "
       ++ jump_server_host settings ++ lit " " ++ cmd in
     result <- subprocess_run base_cmd ;;
     let rslt :=
       if truthy (VStr (Tools.stderr result))
       then VDict [(lit "return_state", VStr (lit "Error"));
                   (lit "detail", VStr (replace (lit " ") [] (Tools.stderr result)))]
       else VDict [(lit "return_state", VStr (lit "OK"));
                   (lit "detail", VStr (replace (lit " ") [] (Tools.stdout result)))] in
     Return rslt)
    (fun e =>
       Return (VDict [(lit "return_state", VStr (lit "Error"));
                      (lit "detail",
                       VStr (lit "Command: " ++ cmd ++ lit ", Exception: " ++ exn_msg e))])).

End Tools.

End McpServer.

(** ** test/mcp/mcp_client.py *)

Module McpClient.

(** [LLMResponse] of this client has the field [details]. *)
Record LLMResponse := {
  reply : value;
  is_safe : bool;
  details : option str
}.

Record services := {
  judge_chain_ainvoke : str -> outcome value;
  agent_chain_ainvoke : str -> outcome value
}.

Definition policy_violation_message : str :=
  lit "This query violates security policies (e.g., attempts state change or sensitive data access) and cannot be executed.".

Definition denial_details : str :=
  lit "LLM judge determined the command as unauthorized based on security policy.".

Section Endpoints.

Variable db : unicode_db.
(** The validation of the field [reply: str | dict] for a value that is
    neither: what pydantic makes of it, or the error it raises. *)
Variable validate_reply : value -> outcome value.
Variable app_state : services.

Definition judge_decision (message : str) : outcome str :=
  content <- judge_chain_ainvoke app_state message ;;
  stripped <- py_strip content ;;
  Return (upper db stripped).

(** [LLMResponse(reply=agent_reply, is_safe=True)] *)
Definition approved_response (agent_reply : value) : outcome LLMResponse :=
  reply <- match agent_reply with
           | VStr _ | VDict _ => Return agent_reply
           | _ => validate_reply agent_reply
           end ;;
  Return {| reply := reply; is_safe := true; details := None |}.

(** [ask_llm], the endpoint [POST /ask] of the MCP client: the reply of
    the agent goes into the response as it is. *)
Definition ask_llm (message : str) : list call * http LLMResponse :=
  match judge_decision message with
  | Raise e =>
      ([JudgeCall message],
       HTTPException 503 (lit "Security validation service error: " ++ exn_msg e))
  | Return decision =>
      if str_in (lit "DENIED") decision
      then
        ([JudgeCall message],
         OK {| reply := VStr policy_violation_message;
               is_safe := false;
               details := Some denial_details |})
      else
        ([JudgeCall message; AgentExecutorCall message],
         match (agent_reply <- agent_chain_ainvoke app_state message ;;
                approved_response agent_reply) with
         | Return response => OK response
         | Raise e =>
             HTTPException 500
               (lit "Internal error processing the request: " ++ exn_msg e)
         end)
  end.

End Endpoints.

End McpClient.

(** ** Python lists and numbers *)

(** [sorted(l, key=key, reverse=True)] for integer keys: the greatest key
    first; the sort is stable, elements of equal key keep their order. *)
Fixpoint insert_desc {A} (key : A -> Z) (x : A) (l : list A) : list A :=
  match l with
  | [] => [x]
  | y :: rest =>
      if (key y <=? key x)%Z then x :: l else y :: insert_desc key x rest
  end.

Definition sorted_reverse {A} (key : A -> Z) (l : list A) : list A :=
  foldr (insert_desc key) [] l.

(** [l[:stop]]: the first [stop] elements, or, for a negative [stop], all
    but the last [-stop]. *)
Definition slice_to {A} (stop : Z) (l : list A) : list A :=
  if (0 <=? stop)%Z then take (Z.to_nat stop) l
  else take (length l - Z.to_nat (- stop)) l.

(** A call for every element of a list, from left to right, up to the
    first that raises. *)
Fixpoint for_each {A B} (f : A -> outcome B) (l : list A) : outcome (list B) :=
  match l with
  | [] => Return []
  | x :: rest =>
      y <- f x ;;
      ys <- for_each f rest ;;
      Return (y :: ys)
  end.

(** ** test/api/postgres_utils/record_crud.py *)

Module RecordCrud.

(** A row of the table [dialog_records]: the [timestamp] is the primary
    key; [user_id] and the two messages may be null. *)
Record DialogRecord := {
  timestamp : Z;
  session_id : str;
  user_id : option Z;
  user_message : option str;
  system_message : option str
}.

Definition nullable_int (o : option Z) : value :=
  match o with Some z => VInt z | None => VNone end.

Definition nullable_text (o : option str) : value :=
  match o with Some s => VStr s | None => VNone end.

(** [DialogRecord.to_dict] *)
Definition to_dict (self : DialogRecord) : value :=
  VDict [(lit "timestamp", VInt (timestamp self));
         (lit "id", nullable_int (user_id self));
         (lit "session_id", VStr (session_id self));
         (lit "user_message", nullable_text (user_message self));
         (lit "system_message", nullable_text (system_message self))].

(** The database as a [RecordAPI] meets it: whether [__connect] succeeds,
    and what
    [db_session.query(DialogRecord).filter(DialogRecord.user_id == user_id).all()]
    gives. *)
Record database := {
  connect : bool;
  query_all : Z -> outcome (list DialogRecord)
}.

(** [RecordAPI.get_records_by_userid] *)
Definition get_records_by_userid (d : database) (user_id : Z)
  : option (list value) :=
  if connect d then
    match query_all d user_id with
    | Return records =>
        if truthy (VList (map to_dict records))
        then Some (map to_dict records)
        else None
    | Raise _ => None
    end
  else None.

End RecordCrud.

(** ** test/api/dialog_postgres_api.py *)

Module DialogApi.

(** The key of the sort, [x.get('timestamp')]; the timestamps of the
    records are the integers of the primary key, and a key that is not an
    integer is refused. *)
Definition timestamp_key (x : value) : outcome Z :=
  key <- py_get x (lit "timestamp") VNone ;;
  match key with
  | VInt z => Return z
  | _ => Raise (Exn TypeError
                  (lit "'<' not supported between instances of '"
                   ++ type_name key ++ lit "' and '" ++ type_name key ++ lit "'"))
  end.

(** [get_dialogs], the endpoint [GET /dialogs/{user_id}] *)
Definition get_dialogs (d : RecordCrud.database) (user_id limit : Z) : http value :=
  match RecordCrud.get_records_by_userid d user_id with
  | None | Some [] =>
      HTTPException 404 (lit "No records found for user ID: " ++ str_of_Z user_id)
  | Some records =>
      match for_each (fun x => key <- timestamp_key x ;; Return (key, x)) records with
      | Return keyed =>
          let sorted_records := slice_to limit (map snd (sorted_reverse fst keyed)) in
          OK (VList sorted_records)
      | Raise e => HTTPException 500 (lit "Internal server error: " ++ exn_msg e)
      end
  end.

End DialogApi.

(** ** test/api/loki_api.py *)

(** [v == text] for a string [text]. *)
Definition py_eq_str (v : value) (text : str) : bool :=
  match v with
  | VStr s => str_eqb s text
  | _ => false
  end.

(** [v[key]] for a string [key] (a plain word): the item of a dict; a list
    and a str take integers only; messages as of Python 3.11. *)
Definition py_getitem (v : value) (key : str) : outcome value :=
  match v with
  | VDict items =>
      if dict_has items key then Return (dict_get items key VNone)
      else Raise (Exn OtherException (lit "'" ++ key ++ lit "'"))
  | VList _ =>
      Raise (Exn TypeError (lit "list indices must be integers or slices, not str"))
  | VStr _ =>
      Raise (Exn TypeError (lit "string indices must be integers, not 'str'"))
  | _ => Raise (Exn TypeError
                  (lit "'" ++ type_name v ++ lit "' object is not subscriptable"))
  end.

(** [v[i]] for an integer [i]: an element of a list or a character of a
    str, counted from the end when [i] is negative; a dict of this model has
    string keys only. *)
Definition py_index (v : value) (i : Z) : outcome value :=
  match v with
  | VList l =>
      let n := Z.of_nat (length l) in
      let j := if (i <? 0)%Z then (i + n)%Z else i in
      if ((0 <=? j) && (j <? n))%Z
      then match l !! Z.to_nat j with
           | Some x => Return x
           | None => Raise (Exn OtherException (lit "list index out of range"))
           end
      else Raise (Exn OtherException (lit "list index out of range"))
  | VStr s =>
      let n := Z.of_nat (length s) in
      let j := if (i <? 0)%Z then (i + n)%Z else i in
      if ((0 <=? j) && (j <? n))%Z
      then match s !! Z.to_nat j with
           | Some c => Return (VStr [c])
           | None => Raise (Exn OtherException (lit "string index out of range"))
           end
      else Raise (Exn OtherException (lit "string index out of range"))
  | VDict _ => Raise (Exn OtherException (str_of_Z i))
  | _ => Raise (Exn TypeError
                  (lit "'" ++ type_name v ++ lit "' object is not subscriptable"))
  end.

Module LokiApi.

Record Settings := { loki_url : str }.

(** What the server meets outside: Loki behind [requests.get]; the clock
    arithmetic of [datetime], with a moment kept as an integer:
    [strptime(text, "%Y-%m-%d %H:%M:%S") - timedelta(hours=8)],
    [int(moment.timestamp() * 1e9)] and
    [datetime.fromtimestamp(ns / 1e9).isoformat()]; the conversion [int(v)];
    and the validation of the logs by the model [LogQueryResponse]. *)
Record world := {
  requests_get : str -> list (str * value) -> outcome Tools.Response;
  strptime_minus_8h : str -> outcome Z;
  nanoseconds : Z -> outcome Z;
  isoformat_of_ns : Z -> outcome str;
  py_int : value -> outcome Z;
  LogQueryResponse : value -> outcome value
}.

(** The answer of an endpoint: a JSON body, or an error with its detail. *)
Inductive answer :=
  | Json (body : value)
  | Error (status_code : Z) (detail : value).

Section Server.

Variable settings : Settings.
Variable w : world.

(** The body of the inner loop of [_query_loki_logs]: one entry of a
    stream, a pair of a timestamp in nanoseconds and a log line. *)
Definition format_entry (entry : value) : outcome value :=
  first <- py_index entry 0 ;;
  timestamp_ns <- py_int w first ;;
  log_line <- py_index entry 1 ;;
  timestamp <- isoformat_of_ns w timestamp_ns ;;
  Return (VDict [(lit "timestamp", VStr timestamp); (lit "log", log_line)]).

(** The body of the outer loop: the labels of a stream and its entries. *)
Definition format_result (result : value) : outcome (value * value) :=
  stream_labels <- py_get result (lit "stream") VNone ;;
  raw_values <- py_get result (lit "values") VNone ;;
  entries <- py_iter raw_values ;;
  values <- for_each format_entry entries ;;
  Return (stream_labels, VList values).

(** The outer loop: every stream updates the same two keys of
    [formatted_results]. *)
Fixpoint format_results (results : list value) (formatted_results : list (str * value))
  : outcome (list (str * value)) :=
  match results with
  | [] => Return formatted_results
  | result :: rest =>
      formatted <- format_result result ;;
      format_results rest
        (Json.dict_set (Json.dict_set formatted_results (lit "stream") (fst formatted))
           (lit "values") (snd formatted))
  end.

(** The request of [_query_loki_logs], from the two times to the JSON of
    the answer of Loki. *)
Definition query_range (query start_time_str end_time_str : str) (limit : Z)
  : outcome value :=
  start_time <- strptime_minus_8h w start_time_str ;;
  end_time <- strptime_minus_8h w end_time_str ;;
  start <- nanoseconds w start_time ;;
  end_ <- nanoseconds w end_time ;;
  let params := [(lit "query", VStr query); (lit "start", VInt start);
                 (lit "end", VInt end_); (lit "limit", VInt limit)] in
  response <- requests_get w (loki_url settings ++ lit "/loki/api/v1/query_range")
                params ;;
  _ <- Tools.raise_for_status response ;;
  Tools.json response.

(** [_query_loki_logs]: the pair of the logs and of the error. *)
Definition _query_loki_logs (query start_time_str end_time_str : str) (limit : Z)
  : value * value :=
  match
    (data <- query_range query start_time_str end_time_str limit ;;
     status <- py_get data (lit "status") VNone ;;
     if py_eq_str status (lit "success")
     then
       inner <- py_get data (lit "data") (VStr []) ;;
       result_type <- py_get inner (lit "resultType") (VStr []) ;;
       formatted_results <-
         (if py_eq_str result_type (lit "streams")
          then
            inner <- py_get data (lit "data") (VStr []) ;;
            results <- py_get inner (lit "result") (VStr []) ;;
            results <- py_iter results ;;
            format_results results []
          else Return []) ;;
       Return (VDict formatted_results, VNone)
     else
       error <- py_get data (lit "error") (VStr (lit "Unknown error")) ;;
       status <- py_getitem data (lit "status") ;;
       Return (VDict [], VDict [(lit "error", error); (lit "status", status)]))
  with
  | Return r => r
  | Raise e =>
      (VDict [],
       VDict [(lit "error", VStr (lit "An unexpected error occurred: " ++ exn_msg e));
              (lit "status", VStr (lit "unknown_error"))])
  end.

(** [get_logs], the endpoint [GET /logs]; an exception of the validation
    leaves the endpoint and the framework answers 500. *)
Definition get_logs (query start_time end_time : str) (limit : Z) : answer :=
  let '(logs, error) := _query_loki_logs query start_time end_time limit in
  if truthy error then Error 500 error
  else if truthy logs
       then match LogQueryResponse w logs with
            | Return body => Json body
            | Raise _ => Error 500 (VStr (lit "Internal Server Error"))
            end
       else Json (VDict []).

End Server.

End LokiApi.

(** ** deployment/prom/prometheus_api.py *)

(** [len(v)] *)
Definition py_len (v : value) : outcome Z :=
  match v with
  | VStr s => Return (Z.of_nat (length s))
  | VList l => Return (Z.of_nat (length l))
  | VDict items => Return (Z.of_nat (length items))
  | _ => Raise (Exn TypeError
                  (lit "object of type '" ++ type_name v ++ lit "' has no len()"))
  end.

(** [text in v] for a string [text]: a key of a dict, a part of a str, an
    element of a list. *)
Definition py_contains_str (text : str) (v : value) : outcome bool :=
  match v with
  | VDict items => Return (dict_has items text)
  | VStr s => Return (str_in text s)
  | VList l => Return (existsb (fun x => py_eq_str x text) l)
  | _ => Raise (Exn TypeError
                  (lit "argument of type '" ++ type_name v ++ lit "' is not iterable"))
  end.

(** [template.replace(old, new)] where [new] is any value. *)
Definition py_replace (template old : str) (new : value) : outcome str :=
  match new with
  | VStr text => Return (replace old text template)
  | VNone => Raise (Exn TypeError (lit "replace() argument 2 must be str, not None"))
  | _ => Raise (Exn TypeError
                  (lit "replace() argument 2 must be str, not " ++ type_name new))
  end.

(** A key of a dict must be hashable: a list and a dict are not. *)
Definition py_hash (v : value) : outcome unit :=
  match v with
  | VList _ | VDict _ =>
      Raise (Exn TypeError (lit "unhashable type: '" ++ type_name v ++ lit "'"))
  | _ => Return tt
  end.

Module PrometheusApi.

(** What the server meets outside: Prometheus behind
    [PrometheusConnect.custom_query_range] for the time range of the request
    and the step "30s"; the conversion [float(v)]; and the equality of two
    hashable values as keys of a dict. *)
Record world := {
  custom_query_range : str -> outcome value;
  py_float : value -> outcome value;
  same_key : value -> value -> bool
}.

(** [grouped_by_namespace]: a dict whose keys are the namespaces, in the
    order of their insertion, each with its list of pods. *)
Abbreviation groups := (list (value * list value)).

(** The templates of [query_conditions], in their order; a quote is the
    character 34. *)
Definition query_conditions : list (str * str) :=
  [(lit "cpu",
    lit "sum(rate(container_cpu_usage_seconds_total{pod=" ++ [34] ++ lit "***"
    ++ [34] ++ lit "}[1m])) by (pod)");
   (lit "mem",
    lit "sum(rate(container_memory_working_set_bytes{pod=" ++ [34] ++ lit "***"
    ++ [34] ++ lit "}[1m])) by (pod)");
   (lit "net_in",
    lit "sum(rate(container_network_receive_bytes_total{pod=" ++ [34] ++ lit "***"
    ++ [34] ++ lit "}[1m])) by (pod)");
   (lit "net_out",
    lit "sum(rate(container_network_transmit_bytes_total{pod=" ++ [34] ++ lit "***"
    ++ [34] ++ lit "}[1m])) by (pod, namespace)");
   (lit "pod_status",
    lit "kube_pod_status_phase{pod=" ++ [34] ++ lit "***" ++ [34] ++ lit ", phase="
    ++ [34] ++ lit "Running" ++ [34] ++ lit "}")].

Section Server.

Variable w : world.

(** [_query_metrics_timeframe]: the result of the query, or a dict with the
    error. *)
Definition _query_metrics_timeframe (promql_query : str) : value :=
  match custom_query_range w promql_query with
  | Return query_results => query_results
  | Raise e => VDict [(lit "error", VStr (exn_msg e))]
  end.

(** [i.get('metric', 'lost metric').get(label, default)] *)
Definition label_of (i : value) (label default : str) : outcome value :=
  metric <- py_get i (lit "metric") (VStr (lit "lost metric")) ;;
  py_get metric label (VStr default).

(** Step 1, the body of the loop: the dict of a pod. *)
Definition pod_info_of (i : value) : outcome value :=
  namespace <- label_of i (lit "namespace") (lit "lost ns") ;;
  service <- label_of i (lit "service") (lit "lost svc") ;;
  pod <- label_of i (lit "pod") (lit "lost pod") ;;
  node <- label_of i (lit "node") (lit "lost node") ;;
  Return (VDict [(lit "namespace", namespace); (lit "service", service);
                 (lit "pod", pod); (lit "node", node)]).

(** [grouped_by_namespace[namespace].append(item)] *)
Fixpoint append_to_group (grouped : groups) (namespace item : value) : groups :=
  match grouped with
  | [] => [(namespace, [item])]
  | (key, members) :: rest =>
      if same_key w key namespace
      then (key, members ++ [item]) :: rest
      else (key, members) :: append_to_group rest namespace item
  end.

(** Step 2: the pods are grouped by their namespace. *)
Fixpoint group_by_namespace (items : list value) (grouped : groups) : outcome groups :=
  match items with
  | [] => Return grouped
  | item :: rest =>
      namespace <- py_get item (lit "namespace") (VStr (lit "unknown")) ;;
      _ <- py_hash namespace ;;
      group_by_namespace rest (append_to_group grouped namespace item)
  end.

(** The values of a metric, from the result of its query: the last element
    of every sample of the first series, as a float. *)
Definition metric_values (rslt : value) : outcome value :=
  has_values <-
    (if truthy rslt
     then
       n <- py_len rslt ;;
       if (0 <? n)%Z
       then first <- py_index rslt 0 ;; py_contains_str (lit "values") first
       else Return false
     else Return false) ;;
  if has_values : bool
  then
    first <- py_index rslt 0 ;;
    samples <- py_get first (lit "values") VNone ;;
    samples <- py_iter samples ;;
    value <- for_each (fun sublist => last <- py_index sublist (-1) ;; py_float w last)
               samples ;;
    Return (VList value)
  else Return (VList []).

(** The loop over [query_conditions] for one pod. *)
Fixpoint add_metrics (conditions : list (str * str)) (podname : value) (pod_info : value)
  : outcome value :=
  match conditions with
  | [] => Return pod_info
  | (key, template) :: rest =>
      query_string <- py_replace template (lit "***") podname ;;
      let rslt := _query_metrics_timeframe query_string in
      value <- metric_values rslt ;;
      updated <- match pod_info with
                 | VDict items => Return (VDict (Json.dict_set items key value))
                 | _ => Raise (Exn AttributeError
                                 (lit "'" ++ type_name pod_info
                                  ++ lit "' object has no attribute 'update'"))
                 end ;;
      add_metrics rest podname updated
  end.

(** Step 4, the body of the loop over the pods. *)
Definition pod_metrics (pod_info : value) : outcome value :=
  podname <- py_get pod_info (lit "pod") VNone ;;
  add_metrics query_conditions podname pod_info.

(** [get_pods_metrics], the endpoint [GET /prom/pods] *)
Definition get_pods_metrics : outcome groups :=
  let query := _query_metrics_timeframe (lit "kube_pod_info") in
  series <- py_iter query ;;
  lstTmp <- for_each pod_info_of series ;;
  grouped_by_namespace <- group_by_namespace lstTmp [] ;;
  for_each (fun group : value * list value =>
              members <- for_each pod_metrics (snd group) ;;
              Return (fst group, members))
           grouped_by_namespace.

End Server.

End PrometheusApi.

(** ** The statements about the tools *)

(** A tool is in one of the two tool sets. *)
Definition registered (t : Tools.tool) : Prop :=
  In t Tools.analysis_tools \/ In t Tools.debug_tools.

(** The result is a dict whose [status] is "success" or "error". *)
Definition has_status (r : outcome value) : Prop :=
  exists items,
    r = Return (VDict items)
    /\ (dict_get items (lit "status") VNone = VStr (lit "success")
        \/ dict_get items (lit "status") VNone = VStr (lit "error")).

(** The contract of section 6 of the specification for the tools. *)
Definition tool_contract : Prop :=
  forall settings db w t i,
    registered t -> Tools.accepts t i = true ->
    has_status (Tools.invoke settings db w t i).

(** The Loki query is made without [debug], succeeds, and the [values] of
    its result are falsy (an empty list, or no [values] at all). *)
Definition loki_values_falsy (settings : Tools.Settings) (w : Tools.world)
  (i : Tools.tool_input) : bool :=
  match i with
  | Tools.LokiLogsQueryInput query start_time end_time limit false =>
      match (response <- Tools.requests_get w (Tools.loki_logs_url settings)
                           (Tools.loki_logs_params query start_time end_time limit) ;;
             _ <- Tools.raise_for_status response ;;
             logs_data <- Tools.json response ;;
             py_get logs_data (lit "values") (VList []))
      with
      | Return logs => negb (truthy logs)
      | Raise _ => false
      end
  | _ => false
  end.

(** ** Examples of the outside world *)

(** The limits of an interpreter with its defaults: 4300 digits, and a
    recursion limit of 1000 of which the caller has used 6. *)
Definition example_limits : Json.limits :=
  {| Json.int_max_str_digits := 4300; Json.max_depth := 994 |}.

Definition example_decode : str -> outcome value := Json.decode example_limits.

(** An integer of 5000 digits: JSON, and not an object. *)
Definition long_number : str := repeat 49 (N.to_nat 5000).

Definition example_settings : Tools.Settings :=
  {| Tools.jump_server_host := lit "jump";
     Tools.jump_server_ssh_arguments := lit "ssh -i key";
     Tools.loki_api_url := lit "http://loki:8000";
     Tools.prometheus_api_url := lit "http://prom:8000" |}.

Definition example_logs : list value :=
  [VDict [(lit "timestamp", VStr (lit "2025-07-15 13:20:01"));
          (lit "log", VStr (lit "level=INFO msg=started"))];
   VDict [(lit "timestamp", VStr (lit "2025-07-15 13:20:02"));
          (lit "log", VStr (lit "level=error msg=disk full"))]].

(** The jump server answers every command with exit code 0, Loki has two
    log entries. *)
Definition example_world : Tools.world :=
  {| Tools.subprocess_run := fun _ =>
       Return {| Tools.returncode := 0;
                 Tools.stdout := lit "NAME   STATUS";
                 Tools.stderr := [] |};
     Tools.requests_get := fun _ _ =>
       Return {| Tools.raise_for_status := Return tt;
                 Tools.json :=
                   Return (VDict [(lit "stream", VDict [(lit "app", VStr (lit "grafana"))]);
                                  (lit "values", VList example_logs)]) |};
     Tools.now_utc8 := lit "2025-07-15 13:24:00" |}.

(** Loki answers with an empty object, as its API does when a query has no
    result. *)
Definition empty_loki_world : Tools.world :=
  {| Tools.subprocess_run := Tools.subprocess_run example_world;
     Tools.requests_get := fun _ _ =>
       Return {| Tools.raise_for_status := Return tt;
                 Tools.json := Return (VDict []) |};
     Tools.now_utc8 := Tools.now_utc8 example_world |}.

(** The judge answers every request with [judge_text]; the agents answer
    with [agent_output] as their final text. *)
Definition example_services (judge_text agent_output : str) : LlmClient.services :=
  {| LlmClient.judge_chain_ainvoke := fun _ => Return (VStr judge_text);
     LlmClient.agent_executor_invoke := fun input =>
       Return (VDict [(lit "input", VStr input); (lit "output", VStr agent_output)]);
     LlmClient.agent_analyzer_ainvoke := fun input =>
       Return (VDict [(lit "input", VStr input); (lit "output", VStr agent_output)]) |}.

(** The judge service cannot be reached. *)
Definition unreachable_judge : LlmClient.services :=
  {| LlmClient.judge_chain_ainvoke := fun _ =>
       Raise (Exn OtherException (lit "Connection error."));
     LlmClient.agent_executor_invoke :=
       LlmClient.agent_executor_invoke (example_services [] (lit "3 pods running"));
     LlmClient.agent_analyzer_ainvoke :=
       LlmClient.agent_analyzer_ainvoke (example_services [] (lit "3 pods running")) |}.

(** The final text of the scenario of section 8:
    [{"action_input": "3 pods running"}] *)
Definition action_input_text : str :=
  [123] ++ [34] ++ lit "action_input" ++ [34] ++ lit ": "
  ++ [34] ++ lit "3 pods running" ++ [34] ++ [125].

(** An agent with memory that carries out what it is asked. *)
Definition obedient_agents : LlmClientHistory.services :=
  {| LlmClientHistory.agent_executor_invoke := fun input _ =>
       Return (VDict [(lit "input", VStr input);
                      (lit "output", VStr (lit "All pods were deleted."))]);
     LlmClientHistory.agent_analyzer_invoke := fun input _ =>
       Return (VDict [(lit "input", VStr input);
                      (lit "output", VStr (lit "The cluster is healthy."))]) |}.

Definition example_session_id : str := lit "6f1c2a9e-3b7d-4c55-9e0a-2d4f8b1a7c33".

(** An open connection and an empty table. *)
Definition empty_database : LlmClientHistory.database :=
  {| LlmClientHistory.closed := false; LlmClientHistory.chat_history := ∅ |}.

(** An open connection with one exchange stored for the session. *)
Definition example_database : LlmClientHistory.database :=
  {| LlmClientHistory.closed := false;
     LlmClientHistory.chat_history :=
       {[ example_session_id :=
            [ {| LlmClientHistory.type := lit "human";
                 LlmClientHistory.content := VStr (lit "list namespaces") |};
              {| LlmClientHistory.type := lit "ai";
                 LlmClientHistory.content := VStr (lit "default, kube-system") |} ] ]} |}.

(** A model that asks for two tools by name, one of them unknown to the
    debug agent, and then answers. *)
Definition example_llm (steps : list ReasoningLoop.AgentStep) : ReasoningLoop.completion :=
  match length steps with
  | 0%nat => ReasoningLoop.ToolSelection (lit "kubectl_command")
               (Tools.KubectlInput (lit "kubectl get ns"))
  | 1%nat => ReasoningLoop.ToolSelection (lit "prometheus_pods_metrics") Tools.NoInput
  | 2%nat => ReasoningLoop.Malformed
  | _ => ReasoningLoop.FinalAnswer (lit "done")
  end.

(** The services of the variant with the translator: the judge answers
    with [judge_text], the translator with [translation]; the agent repeats
    what it is given. *)
Definition example_org_services (judge_text : str) (translation : outcome value)
  : LlmClientOrg.services :=
  {| LlmClientOrg.judge_chain_ainvoke := fun _ => Return (VStr judge_text);
     LlmClientOrg.translator_chain_ainvoke := fun _ => translation;
     LlmClientOrg.agent_chain_ainvoke := fun input =>
       Return (VDict [(lit "input", input); (lit "output", input)]) |}.

(** The analysis agent answers with a structured final answer, as the
    structured-chat agent does when the action input of its final answer is
    an object. *)
Definition structured_answer_services : LlmClient.services :=
  {| LlmClient.judge_chain_ainvoke := fun _ => Return (VStr (lit "APPROVED"));
     LlmClient.agent_executor_invoke := fun input =>
       Return (VDict [(lit "input", VStr input)]);
     LlmClient.agent_analyzer_ainvoke := fun input =>
       Return (VDict [(lit "input", VStr input);
                      (lit "output", VDict [(lit "pods", VInt 3)])]) |}.

(** The jump server of the MCP server: the command exits with [code] and
    has written [out] and [err]. *)
Definition completed (code : Z) (out err : str) : str -> outcome Tools.CompletedProcess :=
  fun _ => Return {| Tools.returncode := code; Tools.stdout := out; Tools.stderr := err |}.

Definition example_mcp_settings : McpServer.Settings :=
  {| McpServer.prometheus_url := lit "http://prom:9090";
     McpServer.jump_server_host := lit "jump";
     McpServer.jump_server_ssh_arguments := lit "ssh -i key" |}.

Definition example_mcp_services (judge_text : str) : McpClient.services :=
  {| McpClient.judge_chain_ainvoke := fun _ => Return (VStr judge_text);
     McpClient.agent_chain_ainvoke := fun input =>
       Return (VDict [(lit "input", VStr input);
                      (lit "output", VStr action_input_text)]) |}.

Definition dialog (ts user : Z) (text : string) : RecordCrud.DialogRecord :=
  {| RecordCrud.timestamp := ts;
     RecordCrud.session_id := lit "session-123";
     RecordCrud.user_id := Some user;
     RecordCrud.user_message := Some (lit text);
     RecordCrud.system_message := None |}.

(** A database with three dialogs of user 2, returned in no particular
    order. *)
Definition example_dialogs : list RecordCrud.DialogRecord :=
  [dialog 1721758867 2 "What services do you offer?";
   dialog 1721858867 2 "Hello, how can you help me?";
   dialog 1721658867 2 "Good morning"].

Definition example_dialog_database : RecordCrud.database :=
  {| RecordCrud.connect := true;
     RecordCrud.query_all := fun _ => Return example_dialogs |}.

Definition unreachable_dialog_database : RecordCrud.database :=
  {| RecordCrud.connect := true;
     RecordCrud.query_all := fun _ =>
       Raise (Exn OtherException (lit "connection refused")) |}.

Definition example_loki_settings : LokiApi.Settings :=
  {| LokiApi.loki_url := lit "http://loki:3100" |}.

(** A server whose Loki answers every query with [body]; the clock
    arithmetic is the identity on a count of seconds written in decimal, and
    the validation accepts what it is given. *)
Definition loki_answering (body : value) : LokiApi.world :=
  {| LokiApi.requests_get := fun _ _ =>
       Return {| Tools.raise_for_status := Return tt; Tools.json := Return body |};
     LokiApi.strptime_minus_8h := fun _ => Return 1752556800%Z;
     LokiApi.nanoseconds := fun t => Return (t * 1000000000)%Z;
     LokiApi.isoformat_of_ns := fun ns => Return (str_of_Z ns);
     LokiApi.py_int := fun v =>
       match v with
       | VInt z => Return z
       | _ => Raise (Exn OtherException (lit "invalid literal for int()"))
       end;
     LokiApi.LogQueryResponse := fun logs => Return logs |}.

(** An answer of Loki with two streams. *)
Definition two_streams : value :=
  VDict [(lit "status", VStr (lit "success"));
         (lit "data",
          VDict [(lit "resultType", VStr (lit "streams"));
                 (lit "result",
                  VList [VDict [(lit "stream", VDict [(lit "pod", VStr (lit "a"))]);
                                (lit "values",
                                 VList [VList [VInt 1; VStr (lit "first of a")]])];
                         VDict [(lit "stream", VDict [(lit "pod", VStr (lit "b"))]);
                                (lit "values",
                                 VList [VList [VInt 2; VStr (lit "first of b")];
                                        VList [VInt 3; VStr (lit "second of b")]])]])])].

(** An answer of Loki without any stream. *)
Definition no_stream : value :=
  VDict [(lit "status", VStr (lit "success"));
         (lit "data",
          VDict [(lit "resultType", VStr (lit "streams"));
                 (lit "result", VList [])])].

(** The labels of a series of [kube_pod_info]. *)
Definition pod_series (namespace pod : string) : value :=
  VDict [(lit "metric",
          VDict [(lit "__name__", VStr (lit "kube_pod_info"));
                 (lit "namespace", VStr (lit namespace));
                 (lit "pod", VStr (lit pod));
                 (lit "node", VStr (lit "node-1"))]);
         (lit "values", VList [VList [VInt 1752556800; VStr (lit "1")]])].

(** [float(v)] on the numbers and the plain decimal texts of the examples. *)
Definition example_float (v : value) : outcome value :=
  match v with
  | VInt z => Return (VFloat (FFinite (inject_Z z)))
  | VFloat _ => Return v
  | VStr s =>
      match example_decode s with
      | Return (VInt z) => Return (VFloat (FFinite (inject_Z z)))
      | Return (VFloat f) => Return (VFloat f)
      | _ => Raise (Exn OtherException (lit "could not convert string to float"))
      end
  | _ => Raise (Exn TypeError
                  (lit "float() argument must be a string or a real number"))
  end.

(** Two strings, or two integers, are the same key when they are equal. *)
Definition example_same_key (a b : value) : bool :=
  match a, b with
  | VStr s, VStr t => str_eqb s t
  | VInt x, VInt y => (x =? y)%Z
  | _, _ => false
  end.

(** The three series of the example; they have no label [service]. *)
Definition example_series : list value :=
  [pod_series "default" "web-1";
   pod_series "kube-system" "dns-1";
   pod_series "default" "web-2"].

(** A Prometheus with three pods in two namespaces; every other query is
    answered by [metric]. *)
Definition example_prometheus (metric : str -> outcome value) : PrometheusApi.world :=
  {| PrometheusApi.custom_query_range := fun promql_query =>
       if str_eqb promql_query (lit "kube_pod_info")
       then Return (VList example_series)
       else metric promql_query;
     PrometheusApi.py_float := example_float;
     PrometheusApi.same_key := example_same_key |}.

(** A Prometheus that answers every metric query with two series of two
    samples. *)
Definition two_samples : str -> outcome value :=
  fun _ =>
    Return (VList [VDict [(lit "metric", VDict []);
                          (lit "values",
                           VList [VList [VInt 1752556800; VStr (lit "0.5")];
                                  VList [VInt 1752556830; VStr (lit "0.25")]])];
                   VDict [(lit "metric", VDict []);
                          (lit "values",
                           VList [VList [VInt 1752556800; VStr (lit "7")]])]]).

(** The dicts of the pods of the example. *)
Definition example_pod_fields (namespace pod : string) : list (str * value) :=
  [(lit "namespace", VStr (lit namespace));
   (lit "service", VStr (lit "lost svc"));
   (lit "pod", VStr (lit pod));
   (lit "node", VStr (lit "node-1"))].

Definition example_pods : list value :=
  [VDict (example_pod_fields "default" "web-1");
   VDict (example_pod_fields "kube-system" "dns-1");
   VDict (example_pod_fields "default" "web-2")].

(** The dict of a pod with its metrics in the world [w], or the dict as it
    is when they cannot be collected. *)
Definition with_metrics (w : PrometheusApi.world) (pod : value) : value :=
  match PrometheusApi.pod_metrics w pod with
  | Return annotated => annotated
  | Raise _ => pod
  end.

(** A Prometheus that fails on every query. *)
Definition unreachable_prometheus : PrometheusApi.world :=
  {| PrometheusApi.custom_query_range := fun _ =>
       Raise (Exn RequestException (lit "connection refused"));
     PrometheusApi.py_float := example_float;
     PrometheusApi.same_key := example_same_key |}.

(** ** Statements about the pod metrics *)

(** The namespace under which a pod is grouped, when it is a string. *)
Definition namespace_of (pod : value) : str :=
  match pod with
  | VDict items =>
      match dict_get items (lit "namespace") (VStr (lit "unknown")) with
      | VStr ns => ns
      | _ => []
      end
  | _ => []
  end.

(** A pod whose namespace is a string. *)
Definition string_namespaced (pod : value) : Prop :=
  exists items ns,
    pod = VDict items
    /\ dict_get items (lit "namespace") (VStr (lit "unknown")) = VStr ns.

Definition in_namespace (ns : str) (pod : value) : bool :=
  str_eqb (namespace_of pod) ns.

(** The keys of [query_conditions]. *)
Definition metric_keys : list str := map fst PrometheusApi.query_conditions.

(** The dict keys of the world are compared as Python compares two
    strings. *)
Definition string_keys (w : PrometheusApi.world) : Prop :=
  forall s t, PrometheusApi.same_key w (VStr s) (VStr t) = str_eqb s t.

(** What a group is after the pods [seen]: the pods of its namespace, in
    their order, and at least one. *)
Definition group_of (seen : list value) (group : value * list value) : Prop :=
  exists ns,
    fst group = VStr ns
    /\ snd group <> []
    /\ snd group = List.filter (in_namespace ns) seen.

(** The state of the grouping loop after the pods [seen]. *)
Definition grouping (seen : list value) (grouped : PrometheusApi.groups) : Prop :=
  List.Forall (group_of seen) grouped
  /\ List.NoDup (map fst grouped)
  /\ (forall pod, In pod seen -> In (VStr (namespace_of pod)) (map fst grouped)).

(** The query of the CPU usage of a pod, once its name is in the place of
    the three stars. *)
Definition cpu_query (podname : str) : str :=
  lit "sum(rate(container_cpu_usage_seconds_total{pod=" ++ [34] ++ podname
  ++ [34] ++ lit "}[1m])) by (pod)".

(** ** Statements about the JSON guard *)


(** ** Statements about the case mapping *)

(** The case mapping leaves the white space outside ASCII as it is, as
    Unicode's does. *)
Definition keeps_spaces (db : unicode_db) : Prop :=
  forall c, is_space c = true -> 128 <= c -> to_upper db c = [c].

(** * Properties *)

(** ** Strings *)

Lemma startswith_spec (p s : str) :
  startswith p s = true <-> exists r, s = p ++ r.
Proof.
  revert s. induction p as [|a p IH]; intros s; simpl.
  - split; [intros _; exists s; reflexivity | reflexivity].
  - destruct s as [|b s].
    + split; [discriminate | intros [r Hr]; discriminate].
    + rewrite andb_true_iff, N.eqb_eq, IH. split.
      * intros [-> [r ->]]. exists r. reflexivity.
      * intros [r Hr]. injection Hr as -> ->. split; [reflexivity | exists r; reflexivity].
Qed.

(** [str_in] is the substring test. *)
Lemma str_in_spec (needle hay : str) :
  str_in needle hay = true <-> exists l r, hay = l ++ needle ++ r.
Proof.
  induction hay as [|c hay IH]; simpl; rewrite orb_true_iff, startswith_spec.
  - split.
    + intros [[r Hr] | H]; [| discriminate]. exists [], r. exact Hr.
    + intros [l [r H]]. left. destruct l as [|x l]; [| discriminate].
      exists r. exact H.
  - rewrite IH. split.
    + intros [[r Hr] | [l [r Hr]]].
      * exists [], r. exact Hr.
      * exists (c :: l), r. simpl. rewrite Hr. reflexivity.
    + intros [l [r H]]. destruct l as [|x l].
      * left. exists r. exact H.
      * right. injection H as -> ->. exists l, r. reflexivity.
Qed.

(** Replacing a character by nothing removes its occurrences. *)
Lemma replace_char_by_nothing (c : char) (s : str) :
  replace [c] [] s = List.filter (fun x => negb (x =? c)) s.
Proof.
  unfold replace. induction s as [|x s IH]; [reflexivity |].
  cbn [replace_go startswith length Nat.sub app List.filter].
  rewrite andb_true_r, N.eqb_sym.
  destruct (x =? c); simpl; rewrite IH; reflexivity.
Qed.

Lemma filter_removes_char (c : char) (s : str) :
  ~ In c (List.filter (fun x => negb (x =? c)) s).
Proof.
  rewrite filter_In. intros [_ H]. rewrite N.eqb_refl in H. discriminate.
Qed.

(** ** The kubectl tool *)

(** C8: when the remote command exits with code 0 the tool returns the
    status "success" and, as output, the stdout of the command with every
    space removed; on any other exit code it returns the status "error" and
    the stderr as it is. *)
Theorem KubectlTool_run_by_exit_code
  (settings : Tools.Settings) (w : Tools.world) (command : str)
  (result : Tools.CompletedProcess) :
  Tools.subprocess_run w (Tools.ssh_command_line settings command) = Return result ->
  (Tools.returncode result = 0%Z ->
   Tools.KubectlTool_run settings w command =
     Return (VDict [(lit "status", VStr (lit "success"));
                    (lit "output",
                     VStr (List.filter (fun c => negb (c =? 32)) (Tools.stdout result)));
                    (lit "command", VStr command)])
   /\ ~ In 32 (List.filter (fun c => negb (c =? 32)) (Tools.stdout result)))
  /\ (Tools.returncode result <> 0%Z ->
      Tools.KubectlTool_run settings w command =
        Return (VDict [(lit "status", VStr (lit "error"));
                       (lit "output", VStr (Tools.stderr result));
                       (lit "command", VStr command)])).
Proof.
  intros Hrun. unfold Tools.KubectlTool_run. rewrite Hrun.
  cbn [bind try_except]. split.
  - intros ->. split; [| apply filter_removes_char].
    change (lit " ") with [32]. rewrite replace_char_by_nothing. reflexivity.
  - intros Hne. destruct (Z.eqb_spec (Tools.returncode result) 0) as [H0 | _].
    + contradiction.
    + reflexivity.
Qed.

(** ** The Loki log-range query *)

Lemma keep_non_info_well_formed (db : unicode_db) (entries : list value) :
  Forall (fun log => is_Some (Tools.entry_text log)) entries ->
  Tools.keep_non_info db entries =
    Return (List.filter (fun log => negb (Tools.mentions_info db log)) entries).
Proof.
  induction 1 as [|log rest [text Htext] _ IH]; [reflexivity |].
  cbn [Tools.keep_non_info List.filter].
  unfold Tools.mentions_info. rewrite Htext.
  unfold Tools.entry_text in Htext.
  destruct log as [| | | | |  |items]; try discriminate.
  cbn [py_get bind].
  destruct (dict_get items (lit "log") (VStr [])); try discriminate.
  injection Htext as ->. cbn [py_lower bind]. rewrite IH. cbn [bind].
  destruct (str_in (lit "info") (lower db text)); reflexivity.
Qed.

Lemma keep_non_info_ill_formed (db : unicode_db) (entries : list value) :
  Exists (fun log => Tools.entry_text log = None) entries ->
  exists e, Tools.keep_non_info db entries = Raise e
            /\ exn_cls e = AttributeError.
Proof.
  induction 1 as [log rest Hbad | log rest _ IH].
  - cbn [Tools.keep_non_info]. unfold Tools.entry_text in Hbad.
    destruct log as [| | | | |  |items];
      try (eexists; split; [reflexivity | reflexivity]).
    cbn [py_get bind].
    destruct (dict_get items (lit "log") (VStr []));
      try discriminate; eexists; split; reflexivity.
  - cbn [Tools.keep_non_info].
    destruct (py_get log (lit "log") (VStr [])) as [text | e] eqn:Hget.
    + cbn [bind]. destruct (py_lower db text) as [lowered | e] eqn:Hlow.
      * cbn [bind]. destruct IH as [e [-> He]]. exists e. split; [reflexivity | exact He].
      * exists e. split; [reflexivity |].
        destruct text; try discriminate; injection Hlow as <-; reflexivity.
    + exists e. split; [reflexivity |].
      destruct log; try discriminate; injection Hget as <-; reflexivity.
Qed.

(** C9: without [debug] and with a non-empty list of log entries, the
    success result has exactly the entries whose log text does not contain
    "info" in any case, in their order; when none is left, it has the single
    entry "No critical logs found" with the end time of the query as its
    timestamp.  The result is a success when every entry is a dict whose log
    text is a str. *)
Theorem LokiLogsQueryTool_run_filters_info
  (settings : Tools.Settings) (db : unicode_db) (w : Tools.world)
  (query start_time end_time : str) (limit : Z)
  (response : Tools.Response) (data : list (str * value)) (entries : list value) :
  Tools.requests_get w (Tools.loki_logs_url settings)
    (Tools.loki_logs_params query start_time end_time limit) = Return response ->
  Tools.raise_for_status response = Return tt ->
  Tools.json response = Return (VDict data) ->
  dict_get data (lit "values") (VList []) = VList entries ->
  entries <> [] ->
  Forall (fun log => is_Some (Tools.entry_text log)) entries ->
  Tools.LokiLogsQueryTool_run settings db w query start_time end_time limit false =
    Return (VDict
      [(lit "status", VStr (lit "success"));
       (lit "target", dict_get data (lit "stream") (VStr (lit "unknown")));
       (lit "logs",
        VList (match List.filter (fun log => negb (Tools.mentions_info db log)) entries with
               | [] => [Tools.no_critical_logs end_time]
               | kept => kept
               end))]).
Proof.
  intros Hget Hstatus Hjson Hvalues Hne Hwf.
  unfold Tools.LokiLogsQueryTool_run.
  cbv zeta. rewrite Hget. cbn [bind]. rewrite Hstatus. cbn [bind].
  rewrite Hjson. cbn [bind py_get]. rewrite Hvalues.
  destruct entries as [|log rest]; [contradiction |].
  cbn [truthy length Nat.eqb negb py_iter bind].
  rewrite (keep_non_info_well_formed db _ Hwf). cbn [bind try_except].
  destruct (List.filter _ (log :: rest)); reflexivity.
Qed.

(** The slip of the branch without [debug]: when Loki has no entry for the
    query the call returns [None], not a dict. *)
Lemma LokiLogsQueryTool_run_empty_is_None :
  Tools.LokiLogsQueryTool_run example_settings caseless_db empty_loki_world
    (lit "{app=x}") (lit "2025-07-15 13:20:00") (lit "2025-07-15 13:24:00")
    1000 false
  = Return VNone.
Proof. reflexivity. Qed.

Lemma LokiLogsQueryTool_run_example :
  Tools.LokiLogsQueryTool_run example_settings caseless_db example_world
    (lit "{app=grafana}") (lit "2025-07-15 13:20:00") (lit "2025-07-15 13:24:00")
    1000 false
  = Return (VDict
      [(lit "status", VStr (lit "success"));
       (lit "target", VDict [(lit "app", VStr (lit "grafana"))]);
       (lit "logs",
        VList [VDict [(lit "timestamp", VStr (lit "2025-07-15 13:20:02"));
                      (lit "log", VStr (lit "level=error msg=disk full"))]])]).
Proof. reflexivity. Qed.

(** An entry that is not a dict, or whose log text is not a str, makes the
    query end with the status "error". *)
Lemma LokiLogsQueryTool_run_ill_formed_entry
  settings db w query start_time end_time limit response data entries :
  Tools.requests_get w (Tools.loki_logs_url settings)
    (Tools.loki_logs_params query start_time end_time limit) = Return response ->
  Tools.raise_for_status response = Return tt ->
  Tools.json response = Return (VDict data) ->
  dict_get data (lit "values") (VList []) = VList entries ->
  Exists (fun log => Tools.entry_text log = None) entries ->
  exists msg,
    Tools.LokiLogsQueryTool_run settings db w query start_time end_time limit false =
      Return (VDict [(lit "status", VStr (lit "error"));
                     (lit "error",
                      VStr (lit "Error occurred when querying logs: " ++ msg));
                     (lit "query", VStr query)]).
Proof.
  intros Hget Hstatus Hjson Hvalues Hbad.
  destruct (keep_non_info_ill_formed db entries Hbad) as [e [Hkeep Hcls]].
  exists (exn_msg e). unfold Tools.LokiLogsQueryTool_run.
  cbv zeta. rewrite Hget. cbn [bind]. rewrite Hstatus. cbn [bind].
  rewrite Hjson. cbn [bind py_get]. rewrite Hvalues.
  destruct entries as [|log rest]; [inversion Hbad |].
  cbn [truthy length Nat.eqb negb py_iter bind].
  rewrite Hkeep. cbn [bind try_except]. unfold is_request_exception.
  rewrite Hcls. reflexivity.
Qed.

(** ** The contract of the tools *)

Ltac status_is :=
  eexists; split; [reflexivity | first [left; reflexivity | right; reflexivity]].

Lemma KubectlTool_run_has_status settings w command :
  has_status (Tools.KubectlTool_run settings w command).
Proof.
  unfold Tools.KubectlTool_run. cbv zeta.
  destruct (Tools.subprocess_run w _) as [result | e]; cbn [bind try_except].
  - destruct (Tools.returncode result =? 0)%Z; status_is.
  - status_is.
Qed.

Lemma LokiLabelsQueryTool_run_has_status settings w :
  has_status (Tools.LokiLabelsQueryTool_run settings w).
Proof.
  unfold Tools.LokiLabelsQueryTool_run.
  destruct (Tools.requests_get w _ _) as [response | e]; cbn [bind try_except].
  2: destruct (is_request_exception e); status_is.
  destruct (Tools.raise_for_status response) as [[] | e]; cbn [bind try_except].
  2: destruct (is_request_exception e); status_is.
  destruct (Tools.json response) as [labels_data | e]; cbn [bind try_except].
  2: destruct (is_request_exception e); status_is.
  destruct (py_get labels_data _ _) as [labels | e]; cbn [bind try_except].
  2: destruct (is_request_exception e); status_is.
  status_is.
Qed.

Lemma PrometheusCurrentPodsMetricsTool_run_has_status settings w :
  has_status (Tools.PrometheusCurrentPodsMetricsTool_run settings w).
Proof.
  unfold Tools.PrometheusCurrentPodsMetricsTool_run.
  destruct (Tools.requests_get w _ _) as [response | e]; cbn [bind try_except].
  2: destruct (is_request_exception e); status_is.
  destruct (Tools.raise_for_status response) as [[] | e]; cbn [bind try_except].
  2: destruct (is_request_exception e); status_is.
  destruct (Tools.json response) as [pods_metrics | e]; cbn [bind try_except].
  2: destruct (is_request_exception e); status_is.
  status_is.
Qed.

(** The Loki query returns a dict with a status, or [None]; it returns
    [None] exactly when the query is made without [debug], succeeds, and has
    falsy [values]. *)
Lemma LokiLogsQueryTool_run_cases settings db w query start_time end_time limit debug :
  let i := Tools.LokiLogsQueryInput query start_time end_time limit debug in
  let r := Tools.LokiLogsQueryTool_run settings db w query start_time end_time limit debug in
  if loki_values_falsy settings w i then r = Return VNone else has_status r.
Proof.
  cbv zeta. unfold loki_values_falsy, Tools.LokiLogsQueryTool_run. cbv zeta.
  destruct (Tools.requests_get w _ _) as [response | e]; cbn [bind try_except].
  2: destruct debug, (is_request_exception e); status_is.
  destruct (Tools.raise_for_status response) as [[] | e]; cbn [bind try_except].
  2: destruct debug, (is_request_exception e); status_is.
  destruct (Tools.json response) as [logs_data | e]; cbn [bind try_except].
  2: destruct debug, (is_request_exception e); status_is.
  destruct debug.
  - destruct (py_get logs_data (lit "stream") _) as [target | e]; cbn [bind try_except].
    2: destruct (is_request_exception e); status_is.
    destruct (py_get logs_data (lit "values") _) as [logs | e]; cbn [bind try_except].
    2: destruct (is_request_exception e); status_is.
    status_is.
  - destruct (py_get logs_data (lit "values") _) as [logs | e]; cbn [bind try_except].
    2: destruct (is_request_exception e); status_is.
    destruct (truthy logs); cbn [negb]; [| reflexivity].
    destruct (py_iter logs) as [entries | e]; cbn [bind try_except].
    2: destruct (is_request_exception e); status_is.
    destruct (Tools.keep_non_info db entries) as [lstTmp | e]; cbn [bind try_except].
    2: destruct (is_request_exception e); status_is.
    destruct (py_get logs_data (lit "stream") _) as [target | e]; cbn [bind try_except].
    2: destruct (is_request_exception e); status_is.
    status_is.
Qed.

(** C3, as the specification has it, fails: the current-time tool is in the
    analysis tool set and its result has no status. *)
Lemma tool_contract_fails_for_current_time : ~ tool_contract.
Proof.
  intros H.
  destruct (H example_settings caseless_db example_world
              Tools.CurrentTimeTool Tools.NoInput) as [items [Hr Hs]].
  - left. simpl. auto.
  - reflexivity.
  - injection Hr as <-. destruct Hs as [Hs | Hs]; discriminate Hs.
Qed.

(** C3, amended: no invocation of a registered tool with an accepted
    argument assignment raises; the current-time tool returns a dict with
    the single key [current_time]; every other tool returns a dict whose
    status is "success" or "error", the Loki query whenever [debug] is set,
    the request fails, or the returned [values] are not falsy. *)
Theorem registered_tools_return_status
  (settings : Tools.Settings) (db : unicode_db) (w : Tools.world)
  (t : Tools.tool) (i : Tools.tool_input) :
  registered t ->
  Tools.accepts t i = true ->
  (exists v, Tools.invoke settings db w t i = Return v)
  /\ (t = Tools.CurrentTimeTool ->
      Tools.invoke settings db w t i =
        Return (VDict [(lit "current_time", VStr (Tools.now_utc8 w))]))
  /\ (t <> Tools.CurrentTimeTool ->
      loki_values_falsy settings w i = false ->
      has_status (Tools.invoke settings db w t i)).
Proof.
  intros _ Hacc.
  assert (Hval : forall r, has_status r -> exists v : value, r = Return v).
  { intros r [items [-> _]]. eauto. }
  destruct t, i; try discriminate Hacc; cbn [Tools.invoke].
  - split; [eexists; reflexivity |]. split; [reflexivity | congruence].
  - pose proof (KubectlTool_run_has_status settings w command) as H.
    split; [auto |]. split; [discriminate | auto].
  - pose proof (LokiLabelsQueryTool_run_has_status settings w) as H.
    split; [auto |]. split; [discriminate | auto].
  - pose proof (LokiLogsQueryTool_run_cases settings db w query start_time
                  end_time limit debug) as H. cbv zeta in H.
    destruct (loki_values_falsy settings w _).
    + split; [eauto |]. split; [discriminate | discriminate].
    + split; [auto |]. split; [discriminate | auto].
  - pose proof (PrometheusCurrentPodsMetricsTool_run_has_status settings w) as H.
    split; [auto |]. split; [discriminate | auto].
Qed.

Lemma registered_tools_return_status_witness :
  has_status (Tools.invoke example_settings caseless_db example_world
                Tools.LokiLogsQueryTool
                (Tools.LokiLogsQueryInput (lit "{app=grafana}")
                   (lit "2025-07-15 13:20:00") (lit "2025-07-15 13:24:00")
                   1000 false)).
Proof.
  apply (registered_tools_return_status example_settings caseless_db example_world
           Tools.LokiLogsQueryTool).
  - left. simpl. auto.
  - reflexivity.
  - discriminate.
  - reflexivity.
Defined.

Lemma KubectlTool_run_by_exit_code_witness :
  Tools.KubectlTool_run example_settings example_world (lit "kubectl get ns") =
    Return (VDict [(lit "status", VStr (lit "success"));
                   (lit "output", VStr (lit "NAMESTATUS"));
                   (lit "command", VStr (lit "kubectl get ns"))]).
Proof.
  destruct (KubectlTool_run_by_exit_code example_settings example_world
              (lit "kubectl get ns")
              {| Tools.returncode := 0; Tools.stdout := lit "NAME   STATUS";
                 Tools.stderr := [] |} eq_refl) as [Hzero _].
  destruct (Hzero eq_refl) as [Hrun _]. exact Hrun.
Defined.

Lemma LokiLogsQueryTool_run_filters_info_witness :
  Tools.LokiLogsQueryTool_run example_settings caseless_db example_world
    (lit "{app=grafana}") (lit "2025-07-15 13:20:00") (lit "2025-07-15 13:24:00")
    1000 false
  = Return (VDict
      [(lit "status", VStr (lit "success"));
       (lit "target", VDict [(lit "app", VStr (lit "grafana"))]);
       (lit "logs",
        VList [VDict [(lit "timestamp", VStr (lit "2025-07-15 13:20:02"));
                      (lit "log", VStr (lit "level=error msg=disk full"))]])]).
Proof.
  apply (LokiLogsQueryTool_run_filters_info example_settings caseless_db
           example_world (lit "{app=grafana}") (lit "2025-07-15 13:20:00")
           (lit "2025-07-15 13:24:00") 1000
           {| Tools.raise_for_status := Return tt;
              Tools.json :=
                Return (VDict [(lit "stream", VDict [(lit "app", VStr (lit "grafana"))]);
                               (lit "values", VList example_logs)]) |}
           [(lit "stream", VDict [(lit "app", VStr (lit "grafana"))]);
            (lit "values", VList example_logs)]
           example_logs).
  - reflexivity.
  - reflexivity.
  - reflexivity.
  - reflexivity.
  - discriminate.
  - repeat constructor; eexists; reflexivity.
Defined.

(** ** The output normalization *)

Lemma _is_json_dict_of_string decode (s : str) :
  LlmClient._is_json_dict decode (VStr s) =
    match decode s with
    | Return result => Return (isinstance_dict result)
    | Raise e => if is_json_decode_error e then Return false else Raise e
    end.
Proof.
  unfold LlmClient._is_json_dict, json_loads.
  destruct (decode s) as [result | e]; reflexivity.
Qed.

Lemma normalize_output_of_string decode (raw_output : str) :
  LlmClient.normalize_output decode (VStr raw_output) =
    match decode raw_output with
    | Return (VDict items) =>
        Return (dict_get items (lit "action_input") (VStr (lit "no action_input")))
    | Return _ => Return (VStr raw_output)
    | Raise e => if is_json_decode_error e then Return (VStr raw_output) else Raise e
    end.
Proof.
  unfold LlmClient.normalize_output. rewrite _is_json_dict_of_string.
  unfold json_loads.
  destruct (decode raw_output) as [result | e].
  - destruct result; reflexivity.
  - destruct (is_json_decode_error e); reflexivity.
Qed.

Lemma is_json_decode_error_spec (e : exn) :
  is_json_decode_error e = true <-> exn_cls e = JSONDecodeError.
Proof.
  unfold is_json_decode_error. destruct (exn_cls e); split; congruence.
Qed.

(** What the normalization does with a string: a JSON object is replaced by
    the value of its "action_input" field, or by "no action_input" when it
    has no such key; any other JSON value, and a text on which the decoder
    raises [JSONDecodeError], is returned unchanged; any other exception of
    the decoder leaves the normalization. *)
Lemma normalize_output_cases decode (raw_output : str) :
  (forall items, decode raw_output = Return (VDict items) ->
     LlmClient.normalize_output decode (VStr raw_output) =
       Return (dict_get items (lit "action_input") (VStr (lit "no action_input"))))
  /\ (forall v, decode raw_output = Return v -> isinstance_dict v = false ->
      LlmClient.normalize_output decode (VStr raw_output) = Return (VStr raw_output))
  /\ (forall e, decode raw_output = Raise e ->
      LlmClient.normalize_output decode (VStr raw_output) =
        if is_json_decode_error e then Return (VStr raw_output) else Raise e)
  /\ (forall reply_items output,
        dict_get reply_items (lit "output") (VStr (lit "no output")) = VStr raw_output ->
        LlmClient.normalize_output decode (VStr raw_output) = Return output ->
        LlmClient.reply_of_agent decode (Return (VDict reply_items)) =
          Return {| reply := VDict [(lit "output", output)]; is_safe := true |}).
Proof.
  split; [| split; [| split]].
  - intros items H. rewrite normalize_output_of_string, H. reflexivity.
  - intros v H Hv. rewrite normalize_output_of_string, H.
    destruct v; try reflexivity. discriminate Hv.
  - intros e H. rewrite normalize_output_of_string, H. reflexivity.
  - intros reply_items output Hout Hnorm.
    unfold LlmClient.reply_of_agent.
    cbn [bind py_get]. rewrite Hout, Hnorm. reflexivity.
Qed.

(** The scenario of the specification: the model emits an object with the
    field "action_input", and its value is the [output] of the reply. *)
Lemma normalize_output_examples :
  LlmClient.normalize_output example_decode (VStr action_input_text) =
    Return (VStr (lit "3 pods running"))
  /\ LlmClient.normalize_output example_decode (VStr (lit "[1, 2]")) =
       Return (VStr (lit "[1, 2]"))
  /\ LlmClient.normalize_output example_decode (VStr (lit "3 pods running")) =
       Return (VStr (lit "3 pods running"))
  /\ snd (LlmClient.ask_llm caseless_db example_decode
            (example_services (lit "APPROVED") action_input_text)
            (lit "how many pods are running"))
     = OK {| reply := VDict [(lit "output", VStr (lit "3 pods running"))];
             is_safe := true |}.
Proof. repeat split; vm_compute; reflexivity. Qed.

(** C4 at its failing input: the agent answers with an integer of 5000
    digits, which is JSON and not an object.  [json.loads] raises a
    [ValueError], which is no [JSONDecodeError]: [_is_json_dict] does not
    catch it, the output is not returned unchanged, and the endpoint answers
    500. *)
Theorem normalize_output_fails_on_long_number :
  example_decode long_number = Raise (Json.int_conversion_error 4300 5000)
  /\ is_json_decode_error (Json.int_conversion_error 4300 5000) = false
  /\ LlmClient.normalize_output example_decode (VStr long_number)
     = Raise (Json.int_conversion_error 4300 5000)
  /\ LlmClient.ask_llm caseless_db example_decode
       (example_services (lit "APPROVED") long_number)
       (lit "how many pods are running")
     = ([JudgeCall (lit "how many pods are running");
         AgentExecutorCall (lit "how many pods are running")],
        HTTPException 500 LlmClient.internal_error_message).
Proof. repeat split; vm_compute; reflexivity. Qed.




Lemma _is_json_dict_examples :
  LlmClient._is_json_dict example_decode (VStr action_input_text) = Return true
  /\ LlmClient._is_json_dict example_decode (VStr (lit "[1, 2]")) = Return false
  /\ LlmClient._is_json_dict example_decode (VStr (lit "3 pods running")) = Return false
  /\ LlmClient._is_json_dict example_decode (VStr []) = Return false.
Proof. repeat split; vm_compute; reflexivity. Qed.

(** ** The policy gate *)

Lemma reply_of_agent_is_safe decode agent_reply response :
  LlmClient.reply_of_agent decode agent_reply = Return response ->
  is_safe response = true.
Proof.
  unfold LlmClient.reply_of_agent.
  destruct agent_reply as [r | e]; [| discriminate]. cbn [bind].
  destruct (py_get r _ _) as [output | e]; [| discriminate]. cbn [bind].
  destruct (LlmClient.normalize_output decode output) as [o | e]; [| discriminate].
  cbn [bind]. intros H. injection H as <-. reflexivity.
Qed.

(** The response of a denied request. *)
Lemma ask_llm_cases db decode app_state message :
  let result := LlmClient.ask_llm db decode app_state message in
  match LlmClient.judge_decision db app_state message with
  | Raise e =>
      result = ([JudgeCall message],
                HTTPException 503 (lit "Safety check service error: " ++ exn_msg e))
  | Return decision =>
      if str_in (lit "DENIED") decision
      then result =
             ([JudgeCall message],
              OK {| reply := VDict [(lit "output",
                                     VStr LlmClient.policy_violation_message)];
                    is_safe := false |})
      else fst result = [JudgeCall message; AgentExecutorCall message]
           /\ forall response, snd result = OK response -> is_safe response = true
  end.
Proof.
  cbv zeta. unfold LlmClient.ask_llm.
  destruct (LlmClient.judge_decision db app_state message) as [decision | e];
    [| reflexivity].
  destruct (str_in (lit "DENIED") decision); [reflexivity |].
  split; [reflexivity |]. cbn [snd]. intros response.
  destruct (LlmClient.reply_of_agent decode _) as [r | e] eqn:Hr; [| discriminate].
  intros H. injection H as <-. eapply reply_of_agent_is_safe. exact Hr.
Qed.

(** C1: the text of the judge is trimmed and put in upper case, and the
    request is denied if and only if the normalized text contains "DENIED";
    with any other text, empty or ambiguous, the request is approved and goes
    on to the agent. *)
Theorem ask_llm_denies_iff_DENIED
  (db : unicode_db) (decode : str -> outcome value)
  (app_state : LlmClient.services) (message text : str) :
  LlmClient.judge_chain_ainvoke app_state message = Return (VStr text) ->
  let decision := upper db (strip text) in
  let result := LlmClient.ask_llm db decode app_state message in
  (str_in (lit "DENIED") decision = true ->
   result = ([JudgeCall message],
             OK {| reply := VDict [(lit "output",
                                    VStr LlmClient.policy_violation_message)];
                   is_safe := false |}))
  /\ (str_in (lit "DENIED") decision = false ->
      result = ([JudgeCall message; AgentExecutorCall message],
                match LlmClient.reply_of_agent decode
                        (LlmClient.agent_executor_invoke app_state message) with
                | Return response => OK response
                | Raise _ => HTTPException 500 LlmClient.internal_error_message
                end))
  /\ ((exists response, snd result = OK response /\ is_safe response = false)
      <-> str_in (lit "DENIED") decision = true).
Proof.
  intros Hjudge. cbv zeta.
  assert (Hdec : LlmClient.judge_decision db app_state message
                 = Return (upper db (strip text))).
  { unfold LlmClient.judge_decision. rewrite Hjudge. reflexivity. }
  pose proof (ask_llm_cases db decode app_state message) as Hcases.
  cbv zeta in Hcases. rewrite Hdec in Hcases.
  unfold LlmClient.ask_llm in *. rewrite Hdec in *.
  destruct (str_in (lit "DENIED") (upper db (strip text))).
  - split; [reflexivity |]. split; [discriminate |].
    split; [reflexivity |]. intros _. eexists. split; reflexivity.
  - split; [discriminate |]. split; [reflexivity |].
    split; [| discriminate].
    intros [response [Hok Hsafe]]. destruct Hcases as [_ Hcases].
    rewrite (Hcases response Hok) in Hsafe. discriminate Hsafe.
Qed.

Lemma ask_llm_denies_iff_DENIED_witness :
  LlmClient.ask_llm caseless_db example_decode
    (example_services (lit " denied: it deletes pods ") (lit "3 pods running"))
    (lit "delete all pods")
  = ([JudgeCall (lit "delete all pods")],
     OK {| reply := VDict [(lit "output", VStr LlmClient.policy_violation_message)];
           is_safe := false |})
  /\ LlmClient.ask_llm caseless_db example_decode
       (example_services [] (lit "3 pods running")) (lit "list namespaces")
     = ([JudgeCall (lit "list namespaces"); AgentExecutorCall (lit "list namespaces")],
        OK {| reply := VDict [(lit "output", VStr (lit "3 pods running"))];
              is_safe := true |}).
Proof.
  split.
  - apply (ask_llm_denies_iff_DENIED caseless_db example_decode
             (example_services (lit " denied: it deletes pods ") (lit "3 pods running"))
             (lit "delete all pods") (lit " denied: it deletes pods ") eq_refl).
    vm_compute. reflexivity.
  - destruct (ask_llm_denies_iff_DENIED caseless_db example_decode
                (example_services [] (lit "3 pods running"))
                (lit "list namespaces") [] eq_refl) as [_ [Happroved _]].
    rewrite Happroved; [| vm_compute; reflexivity].
    vm_compute. reflexivity.
Defined.

(** X10: the variant [llm_client_org.py] has the same rule of decision. *)
Lemma org_ask_llm_denies_iff_DENIED db decode app_state message text :
  LlmClientOrg.judge_chain_ainvoke app_state message = Return (VStr text) ->
  let result := LlmClientOrg.ask_llm db decode app_state message in
  (exists response, snd result = OK response /\ is_safe response = false)
  <-> str_in (lit "DENIED") (upper db (strip text)) = true.
Proof.
  intros Hjudge. cbv zeta.
  unfold LlmClientOrg.ask_llm, LlmClientOrg.judge_decision. rewrite Hjudge.
  cbn [bind py_strip].
  destruct (str_in (lit "DENIED") (upper db (strip text))).
  - split; [reflexivity |]. intros _. eexists. split; reflexivity.
  - split; [| discriminate]. intros [response [Hok Hsafe]].
    destruct (LlmClientOrg.translator_chain_ainvoke app_state message)
      as [translated_msg | e]; [| discriminate Hok].
    cbn [snd] in Hok.
    destruct (LlmClient.reply_of_agent decode _) as [r | e] eqn:Hr;
      [| discriminate Hok].
    injection Hok as <-.
    rewrite (reply_of_agent_is_safe _ _ _ Hr) in Hsafe. discriminate Hsafe.
Qed.

(** C5: when the call of the judge raises, the endpoint answers with the
    error 503 and no response is produced; a response with [is_safe] false
    is returned only after the judge has answered with a text whose
    normalized form contains "DENIED". *)
Theorem ask_llm_judge_failure_is_503
  (db : unicode_db) (decode : str -> outcome value)
  (app_state : LlmClient.services) (message : str) :
  (forall e, LlmClient.judge_chain_ainvoke app_state message = Raise e ->
     LlmClient.ask_llm db decode app_state message =
       ([JudgeCall message],
        HTTPException 503 (lit "Safety check service error: " ++ exn_msg e)))
  /\ (forall response,
        snd (LlmClient.ask_llm db decode app_state message) = OK response ->
        is_safe response = false ->
        exists text,
          LlmClient.judge_chain_ainvoke app_state message = Return (VStr text)
          /\ str_in (lit "DENIED") (upper db (strip text)) = true).
Proof.
  split.
  - intros e He. unfold LlmClient.ask_llm, LlmClient.judge_decision.
    rewrite He. reflexivity.
  - intros response Hok Hsafe.
    pose proof (ask_llm_cases db decode app_state message) as Hcases.
    cbv zeta in Hcases. unfold LlmClient.judge_decision in Hcases.
    destruct (LlmClient.judge_chain_ainvoke app_state message) as [content | e].
    + destruct content as [| | | |text| |];
        try (cbn in Hcases; rewrite Hcases in Hok; discriminate Hok).
      cbn [bind py_strip] in Hcases. exists text. split; [reflexivity |].
      destruct (str_in (lit "DENIED") (upper db (strip text))); [reflexivity |].
      destruct Hcases as [_ Hcases].
      rewrite (Hcases response Hok) in Hsafe. discriminate Hsafe.
    + cbn [bind] in Hcases. rewrite Hcases in Hok. discriminate Hok.
Qed.

Lemma ask_llm_judge_failure_is_503_witness :
  LlmClient.ask_llm caseless_db example_decode unreachable_judge (lit "delete all pods")
  = ([JudgeCall (lit "delete all pods")],
     HTTPException 503 (lit "Safety check service error: Connection error.")).
Proof.
  destruct (ask_llm_judge_failure_is_503 caseless_db example_decode unreachable_judge
              (lit "delete all pods")) as [Hraise _].
  apply (Hraise (Exn OtherException (lit "Connection error."))). reflexivity.
Defined.

(** ** The endpoint with memory *)

(** The endpoint [/ask] of the client with memory makes no call to the
    judge and never answers with [is_safe] false. *)
Lemma history_ask_llm_never_denies decode app_state session_id message d :
  let result := LlmClientHistory.ask_llm decode app_state session_id message d in
  snd (fst result) = [AgentExecutorCall message]
  /\ forall response, snd result = OK response -> is_safe response = true.
Proof.
  cbv zeta. unfold LlmClientHistory.ask_llm.
  destruct (LlmClientHistory.reply_with_history decode session_id _ message d)
    as [[response d'] | e] eqn:Hrun; cbn [fst snd].
  - split; [reflexivity |]. intros r H. injection H as <-.
    unfold LlmClientHistory.reply_with_history in Hrun.
    destruct (LlmClientHistory.invoke_with_history session_id _ message d)
      as [run | e]; [| discriminate]. cbn [bind] in Hrun.
    destruct (LlmClient.reply_of_agent decode (Return (fst run))) as [r | e] eqn:Hr;
      [| discriminate].
    cbn [bind] in Hrun. injection Hrun as <- _.
    eapply reply_of_agent_is_safe. exact Hr.
  - split; [reflexivity | discriminate].
Qed.

(** C2 at its failing input: the request "delete all pods" sent to [/ask]
    of the client with memory reaches the agent without any call to the
    judge, and the response has [is_safe] true. *)
Theorem history_ask_llm_skips_policy_gate :
  let result := LlmClientHistory.ask_llm example_decode obedient_agents
                  example_session_id (lit "delete all pods") example_database in
  snd (fst result) = [AgentExecutorCall (lit "delete all pods")]
  /\ snd result = OK {| reply := VDict [(lit "output",
                                         VStr (lit "All pods were deleted."))];
                        is_safe := true |}.
Proof. cbv zeta. split; vm_compute; reflexivity. Qed.

(** ** The conversation history *)

Lemma clear_twice session_id d :
  LlmClientHistory.closed d = false ->
  exists d1,
    LlmClientHistory.clear session_id d = Return d1
    /\ LlmClientHistory.clear session_id d1 = Return d1
    /\ LlmClientHistory.get_messages session_id d1 = Return [].
Proof.
  intros Hopen. unfold LlmClientHistory.clear, LlmClientHistory.get_messages.
  rewrite Hopen. eexists. split; [reflexivity |].
  cbn [LlmClientHistory.closed LlmClientHistory.chat_history].
  rewrite delete_delete_eq, lookup_delete_eq. split; reflexivity.
Qed.

(** C6: on an open connection, [DELETE /history] called twice in succession
    answers with the success message both times and leaves the messages of
    the session empty after each call; the second call clears a session that
    is already empty, and changes nothing. *)
Theorem clear_conversation_history_idempotent
  (session_id : str) (d : LlmClientHistory.database) :
  LlmClientHistory.closed d = false ->
  let first := LlmClientHistory.clear_conversation_history session_id d in
  let second := LlmClientHistory.clear_conversation_history session_id (fst first) in
  snd first = OK LlmClientHistory.cleared_message
  /\ LlmClientHistory.get_messages session_id (fst first) = Return []
  /\ snd second = OK LlmClientHistory.cleared_message
  /\ LlmClientHistory.get_messages session_id (fst second) = Return []
  /\ fst second = fst first.
Proof.
  intros Hopen. cbv zeta. unfold LlmClientHistory.clear_conversation_history.
  destruct (clear_twice session_id d Hopen) as [d1 [H1 [H2 Hget]]].
  rewrite H1. cbn [fst snd]. rewrite H2. cbn [fst snd]. auto.
Qed.

Lemma clear_conversation_history_idempotent_witness :
  let first := LlmClientHistory.clear_conversation_history example_session_id
                 example_database in
  let second := LlmClientHistory.clear_conversation_history example_session_id
                  (fst first) in
  snd first = OK LlmClientHistory.cleared_message
  /\ LlmClientHistory.get_messages example_session_id (fst first) = Return []
  /\ snd second = OK LlmClientHistory.cleared_message
  /\ LlmClientHistory.get_messages example_session_id (fst second) = Return []
  /\ fst second = fst first.
Proof.
  apply (clear_conversation_history_idempotent example_session_id example_database).
  reflexivity.
Defined.

(** On a closed connection the endpoint answers with the error 500 and
    changes nothing. *)
Lemma clear_conversation_history_closed session_id d :
  LlmClientHistory.closed d = true ->
  LlmClientHistory.clear_conversation_history session_id d =
    (d, HTTPException 500
          (lit "Error clearing conversation history: the connection is closed")).
Proof.
  intros Hclosed. unfold LlmClientHistory.clear_conversation_history,
    LlmClientHistory.clear. rewrite Hclosed. reflexivity.
Qed.

(** After the history is cleared, [GET /history] has no message. *)
Lemma get_conversation_history_after_clear session_id d :
  LlmClientHistory.closed d = false ->
  LlmClientHistory.get_conversation_history session_id
    (fst (LlmClientHistory.clear_conversation_history session_id d))
  = OK (VDict [(lit "session_id", VStr session_id);
               (lit "message_count", VInt 0);
               (lit "messages", VList [])]).
Proof.
  intros Hopen. unfold LlmClientHistory.clear_conversation_history,
    LlmClientHistory.get_conversation_history.
  destruct (clear_twice session_id d Hopen) as [d1 [H1 [_ Hget]]].
  rewrite H1. cbn [fst]. rewrite Hget. reflexivity.
Qed.

(** ** The reasoning loop *)

Lemma lookup_tool_registered registry tool_name t :
  ReasoningLoop.lookup_tool registry tool_name = Some t -> In t registry.
Proof.
  unfold ReasoningLoop.lookup_tool. intros H.
  apply find_some in H. tauto.
Qed.

Lemma invoked_app steps step :
  ReasoningLoop.invoked (steps ++ [step]) =
    ReasoningLoop.invoked steps ++ ReasoningLoop.invoked [step].
Proof. unfold ReasoningLoop.invoked. apply omap_app. Qed.

(** The loop keeps the invoked tools inside its registry. *)
Lemma think_invokes_registered settings db world_at llm registry max_retries :
  forall cycles retries steps,
    Forall (fun t => In t registry) (ReasoningLoop.invoked steps) ->
    Forall (fun t => In t registry)
      (ReasoningLoop.invoked
         (snd (ReasoningLoop.think settings db world_at llm registry max_retries
                 cycles retries steps))).
Proof.
  induction cycles as [|cycles IH]; intros retries steps Hinv; [exact Hinv |].
  cbn [ReasoningLoop.think].
  destruct (llm steps) as [tool_name tool_input | text |].
  - destruct (ReasoningLoop.lookup_tool registry tool_name) as [t |] eqn:Hfind.
    + apply IH. rewrite invoked_app. apply Forall_app. split; [exact Hinv |].
      repeat constructor. eapply lookup_tool_registered. exact Hfind.
    + apply IH. rewrite invoked_app. apply Forall_app. split; [exact Hinv |].
      constructor.
  - exact Hinv.
  - destruct retries as [|retries]; [exact Hinv |].
    apply IH. rewrite invoked_app. apply Forall_app. split; [exact Hinv |].
    constructor.
Qed.

(** C7: whatever the model selects, a run of the debug agent invokes only
    the kubectl command tool, and a run of the analysis agent only the five
    tools of the catalogue: current time, kubectl command, Loki labels, Loki
    logs and Prometheus pod metrics. *)
Theorem agents_invoke_registered_tools_only
  (settings : Tools.Settings) (db : unicode_db)
  (world_at : nat -> Tools.world)
  (llm : list ReasoningLoop.AgentStep -> ReasoningLoop.completion)
  (max_retries max_cycles : nat) :
  Forall (fun t => Tools.name t = lit "kubectl_command")
    (ReasoningLoop.invoked
       (snd (ReasoningLoop.agent_executor settings db world_at llm max_retries max_cycles)))
  /\ Forall (fun t => In (Tools.name t)
                        [lit "current_time"; lit "kubectl_command";
                         lit "loki_labels_query"; lit "loki_logs_query";
                         lit "prometheus_pods_metrics"])
       (ReasoningLoop.invoked
          (snd (ReasoningLoop.agent_analyzer settings db world_at llm max_retries
                  max_cycles))).
Proof.
  split.
  - unfold ReasoningLoop.agent_executor, ReasoningLoop.run.
    pose proof (think_invokes_registered settings db world_at llm
                  Tools.debug_tools max_retries max_cycles max_retries []
                  (List.Forall_nil _)) as H.
    eapply Forall_impl; [exact H |].
    intros t [<- | []]. reflexivity.
  - unfold ReasoningLoop.agent_analyzer, ReasoningLoop.run.
    pose proof (think_invokes_registered settings db world_at llm
                  Tools.analysis_tools max_retries max_cycles max_retries []
                  (List.Forall_nil _)) as H.
    eapply Forall_impl; [exact H |].
    intros t Ht. change (In (Tools.name t) (map Tools.name Tools.analysis_tools)).
    apply in_map. exact Ht.
Qed.

(** A run of the debug agent: the selection of a tool of the other tool set
    is answered, the tool is not invoked. *)
Lemma agent_executor_example :
  let r := ReasoningLoop.agent_executor example_settings caseless_db
             (fun _ => example_world) example_llm 2 15 in
  fst r = ReasoningLoop.DONE (lit "done")
  /\ ReasoningLoop.invoked (snd r) = [Tools.KubectlTool]
  /\ length (snd r) = 3%nat.
Proof. cbv zeta. repeat split; vm_compute; reflexivity. Qed.

(** * Further properties of the code *)

(** ** The tools *)

Ltac not_success H Hs :=
  injection H as <-; vm_compute in Hs; discriminate Hs.

(** X1: without [debug] the Loki query returns [None] exactly when the request
    succeeds and the [values] of the answer are falsy (an empty list, or no
    [values] key, whose default is the empty list); with [debug] it never
    returns [None]. *)
Theorem LokiLogsQueryTool_run_None_iff
  (settings : Tools.Settings) (db : unicode_db) (w : Tools.world)
  (query start_time end_time : str) (limit : Z) (debug : bool) :
  Tools.LokiLogsQueryTool_run settings db w query start_time end_time limit debug
    = Return VNone
  <-> debug = false
      /\ exists response logs_data logs,
           Tools.requests_get w (Tools.loki_logs_url settings)
             (Tools.loki_logs_params query start_time end_time limit) = Return response
           /\ Tools.raise_for_status response = Return tt
           /\ Tools.json response = Return logs_data
           /\ py_get logs_data (lit "values") (VList []) = Return logs
           /\ truthy logs = false.
Proof.
  pose proof (LokiLogsQueryTool_run_cases settings db w query start_time
                end_time limit debug) as Hcases.
  cbv zeta in Hcases. unfold loki_values_falsy in Hcases.
  split.
  - intros Hnone. destruct debug.
    + rewrite Hnone in Hcases. destruct Hcases as [items [H _]]. discriminate H.
    + split; [reflexivity |].
      destruct (Tools.requests_get w _ _) as [response | e] eqn:Hget;
        cbn [bind] in Hcases.
      2: { rewrite Hnone in Hcases. destruct Hcases as [items [H _]]. discriminate H. }
      destruct (Tools.raise_for_status response) as [[] | e] eqn:Hst;
        cbn [bind] in Hcases.
      2: { rewrite Hnone in Hcases. destruct Hcases as [items [H _]]. discriminate H. }
      destruct (Tools.json response) as [logs_data | e] eqn:Hjson;
        cbn [bind] in Hcases.
      2: { rewrite Hnone in Hcases. destruct Hcases as [items [H _]]. discriminate H. }
      destruct (py_get logs_data (lit "values") (VList [])) as [logs | e] eqn:Hlogs.
      2: { rewrite Hnone in Hcases. destruct Hcases as [items [H _]]. discriminate H. }
      destruct (truthy logs) eqn:Htruthy; cbn [negb] in Hcases.
      { rewrite Hnone in Hcases. destruct Hcases as [items [H _]]. discriminate H. }
      exists response, logs_data, logs. auto.
  - intros [-> [response [logs_data [logs [Hget [Hst [Hjson [Hlogs Htruthy]]]]]]]].
    rewrite Hget in Hcases. cbn [bind] in Hcases.
    rewrite Hst in Hcases. cbn [bind] in Hcases.
    rewrite Hjson in Hcases. cbn [bind] in Hcases.
    rewrite Hlogs, Htruthy in Hcases. exact Hcases.
Qed.

Lemma LokiLogsQueryTool_run_None_iff_witness :
  Tools.LokiLogsQueryTool_run example_settings caseless_db empty_loki_world
    (lit "{app=x}") (lit "2025-07-15 13:20:00") (lit "2025-07-15 13:24:00")
    1000 false
  = Return VNone.
Proof.
  apply (LokiLogsQueryTool_run_None_iff example_settings caseless_db
           empty_loki_world).
  split; [reflexivity |].
  exists {| Tools.raise_for_status := Return tt; Tools.json := Return (VDict []) |},
         (VDict []), (VList []).
  repeat split; reflexivity.
Defined.

(** X2: a success of the Loki query without [debug] always has at least one
    entry in [logs]: the kept entries, or the placeholder. *)
Theorem LokiLogsQueryTool_run_logs_never_empty
  (settings : Tools.Settings) (db : unicode_db) (w : Tools.world)
  (query start_time end_time : str) (limit : Z) (items : list (str * value)) :
  Tools.LokiLogsQueryTool_run settings db w query start_time end_time limit false
    = Return (VDict items) ->
  dict_get items (lit "status") VNone = VStr (lit "success") ->
  exists first rest, dict_get items (lit "logs") VNone = VList (first :: rest).
Proof.
  unfold Tools.LokiLogsQueryTool_run. cbv zeta.
  destruct (Tools.requests_get w _ _) as [response | e]; cbn [bind try_except].
  2: { destruct (is_request_exception e); intros H Hs; not_success H Hs. }
  destruct (Tools.raise_for_status response) as [[] | e]; cbn [bind try_except].
  2: { destruct (is_request_exception e); intros H Hs; not_success H Hs. }
  destruct (Tools.json response) as [logs_data | e]; cbn [bind try_except].
  2: { destruct (is_request_exception e); intros H Hs; not_success H Hs. }
  destruct (py_get logs_data (lit "values") _) as [logs | e]; cbn [bind try_except].
  2: { destruct (is_request_exception e); intros H Hs; not_success H Hs. }
  destruct (truthy logs); [| discriminate].
  destruct (py_iter logs) as [entries | e]; cbn [bind try_except].
  2: { destruct (is_request_exception e); intros H Hs; not_success H Hs. }
  destruct (Tools.keep_non_info db entries) as [lstTmp | e]; cbn [bind try_except].
  2: { destruct (is_request_exception e); intros H Hs; not_success H Hs. }
  destruct (py_get logs_data (lit "stream") _) as [target | e]; cbn [bind try_except].
  2: { destruct (is_request_exception e); intros H Hs; not_success H Hs. }
  intros H _. injection H as <-.
  destruct lstTmp as [|first rest]; eexists _, _; reflexivity.
Qed.

Lemma LokiLogsQueryTool_run_logs_never_empty_witness :
  exists first rest,
    dict_get
      [(lit "status", VStr (lit "success"));
       (lit "target", VDict [(lit "app", VStr (lit "grafana"))]);
       (lit "logs",
        VList [VDict [(lit "timestamp", VStr (lit "2025-07-15 13:20:02"));
                      (lit "log", VStr (lit "level=error msg=disk full"))]])]
      (lit "logs") VNone = VList (first :: rest).
Proof.
  apply (LokiLogsQueryTool_run_logs_never_empty example_settings caseless_db
           example_world (lit "{app=grafana}") (lit "2025-07-15 13:20:00")
           (lit "2025-07-15 13:24:00") 1000).
  - reflexivity.
  - reflexivity.
Defined.

(** X3: with [debug] the Loki query does not filter: whenever the answer is a
    JSON object, the result is a success whose [logs] are the [values] of the
    answer as they are (the empty list when there are none) and whose
    [target] is its [stream] ("unknown" when there is none). *)
Theorem LokiLogsQueryTool_run_debug_is_verbatim
  (settings : Tools.Settings) (db : unicode_db) (w : Tools.world)
  (query start_time end_time : str) (limit : Z)
  (response : Tools.Response) (data : list (str * value)) :
  Tools.requests_get w (Tools.loki_logs_url settings)
    (Tools.loki_logs_params query start_time end_time limit) = Return response ->
  Tools.raise_for_status response = Return tt ->
  Tools.json response = Return (VDict data) ->
  Tools.LokiLogsQueryTool_run settings db w query start_time end_time limit true =
    Return (VDict
      [(lit "status", VStr (lit "success"));
       (lit "target", dict_get data (lit "stream") (VStr (lit "unknown")));
       (lit "logs", dict_get data (lit "values") (VList []))])
  /\ (dict_has data (lit "values") = false ->
      dict_get data (lit "values") (VList []) = VList []).
Proof.
  intros Hget Hst Hjson. split.
  - unfold Tools.LokiLogsQueryTool_run. cbv zeta.
    rewrite Hget. cbn [bind]. rewrite Hst. cbn [bind]. rewrite Hjson. reflexivity.
  - clear. induction data as [|[k v] rest IH]; [reflexivity |].
    unfold dict_has. cbn [existsb fst dict_get].
    destruct (str_eqb k (lit "values")); [discriminate |]. exact IH.
Qed.

Lemma LokiLogsQueryTool_run_debug_is_verbatim_witness :
  Tools.LokiLogsQueryTool_run example_settings caseless_db example_world
    (lit "{app=grafana}") (lit "2025-07-15 13:20:00") (lit "2025-07-15 13:24:00")
    1000 true
  = Return (VDict
      [(lit "status", VStr (lit "success"));
       (lit "target", VDict [(lit "app", VStr (lit "grafana"))]);
       (lit "logs", VList example_logs)]).
Proof.
  apply (LokiLogsQueryTool_run_debug_is_verbatim example_settings caseless_db
           example_world (lit "{app=grafana}") (lit "2025-07-15 13:20:00")
           (lit "2025-07-15 13:24:00") 1000
           {| Tools.raise_for_status := Return tt;
              Tools.json :=
                Return (VDict [(lit "stream", VDict [(lit "app", VStr (lit "grafana"))]);
                               (lit "values", VList example_logs)]) |}
           [(lit "stream", VDict [(lit "app", VStr (lit "grafana"))]);
            (lit "values", VList example_logs)]);
    reflexivity.
Defined.

(** X4: the labels query succeeds exactly when the request succeeds and the
    answer is a JSON object; the result then has the [labels] of the answer,
    or an empty object when the answer has none.  An answer that is JSON but
    not an object gives the status "error". *)
Theorem LokiLabelsQueryTool_run_success_iff
  (settings : Tools.Settings) (w : Tools.world) :
  exists items,
    Tools.LokiLabelsQueryTool_run settings w = Return (VDict items)
    /\ (dict_get items (lit "status") VNone = VStr (lit "success")
        <-> exists response data,
              Tools.requests_get w (Tools.loki_api_url settings ++ lit "/labels") []
                = Return response
              /\ Tools.raise_for_status response = Return tt
              /\ Tools.json response = Return (VDict data)
              /\ items = [(lit "status", VStr (lit "success"));
                          (lit "labels", dict_get data (lit "labels") (VDict []))]).
Proof.
  unfold Tools.LokiLabelsQueryTool_run.
  destruct (Tools.requests_get w _ _) as [response | e]; cbn [bind try_except].
  2: { destruct (is_request_exception e); eexists; (split; [reflexivity |]);
       (split; [intros Hs; vm_compute in Hs; discriminate Hs
               | intros [r [d [H _]]]; discriminate H]). }
  destruct (Tools.raise_for_status response) as [[] | e] eqn:Hst;
    cbn [bind try_except].
  2: { destruct (is_request_exception e); eexists; (split; [reflexivity |]);
       (split; [intros Hs; vm_compute in Hs; discriminate Hs
               | intros [r [d [H [H1 _]]]]; injection H as <-;
                 rewrite Hst in H1; discriminate H1]). }
  destruct (Tools.json response) as [labels_data | e] eqn:Hjson;
    cbn [bind try_except].
  2: { destruct (is_request_exception e); eexists; (split; [reflexivity |]);
       (split; [intros Hs; vm_compute in Hs; discriminate Hs
               | intros [r [d [H [_ [H2 _]]]]]; injection H as <-;
                 rewrite Hjson in H2; discriminate H2]). }
  destruct labels_data as [| | | | | |data];
    try (cbn [py_get bind try_except is_request_exception exn_cls];
         eexists; (split; [reflexivity |]);
         (split; [intros Hs; vm_compute in Hs; discriminate Hs
                 | intros [r [d [H [_ [H2 _]]]]]; injection H as <-;
                   rewrite Hjson in H2; discriminate H2])).
  cbn [py_get bind try_except]. eexists. split; [reflexivity |].
  split; [| reflexivity].
  intros _. exists response, data. auto.
Qed.

(** X5: whatever happens to the remote command, the kubectl tool returns a
    dict with the three keys [status], [output] and [command], and [command]
    is the command it was given; when the call itself raises (a timeout, for
    one), the status is "error" and the output is the text of the exception
    behind a fixed prefix. *)
Theorem KubectlTool_run_shape
  (settings : Tools.Settings) (w : Tools.world) (command : str) :
  exists status output,
    Tools.KubectlTool_run settings w command =
      Return (VDict [(lit "status", VStr status);
                     (lit "output", VStr output);
                     (lit "command", VStr command)])
    /\ (status = lit "success" \/ status = lit "error")
    /\ (forall e,
          Tools.subprocess_run w (Tools.ssh_command_line settings command) = Raise e ->
          status = lit "error" /\ output = Tools.kubectl_error_prefix ++ exn_msg e).
Proof.
  unfold Tools.KubectlTool_run. cbv zeta.
  destruct (Tools.subprocess_run w _) as [result | e]; cbn [bind try_except].
  - destruct (Tools.returncode result =? 0)%Z; eexists _, _;
      (split; [reflexivity |]); (split; [auto | discriminate]).
  - eexists _, _. split; [reflexivity |]. split; [auto |].
    intros e' H. injection H as <-. auto.
Qed.

(** ** The endpoint [/llm/ask_current] *)

(** X6: the endpoint calls the analysis agent only, never the judge.  It
    answers 200 exactly when the agent returns a dict whose [output] is a
    string (the default "no output" when the key is missing) on which
    [json.loads] returns a value or raises the JSON decode error; the reply
    is then the normalized output (the "action_input" of a JSON object, the
    string itself otherwise) and [is_safe] is true.  In every other case (the
    agent raises, its reply is not a dict, the output is not a string, or
    [json.loads] raises another exception on it) it answers 500 with the
    fixed message. *)
Theorem ask_llm_current_answers
  (decode : str -> outcome value) (app_state : LlmClient.services) (message : str) :
  let result := LlmClient.ask_llm_current decode app_state message in
  fst result = [AgentAnalyzerCall message]
  /\ (forall response,
        snd result = OK response
        <-> exists reply_items raw_output output,
              LlmClient.agent_analyzer_ainvoke app_state message
                = Return (VDict reply_items)
              /\ dict_get reply_items (lit "output") (VStr (lit "no output"))
                 = VStr raw_output
              /\ ((exists items,
                     decode raw_output = Return (VDict items)
                     /\ output = dict_get items (lit "action_input")
                                   (VStr (lit "no action_input")))
                  \/ (exists v,
                        decode raw_output = Return v
                        /\ isinstance_dict v = false
                        /\ output = VStr raw_output)
                  \/ (exists e,
                        decode raw_output = Raise e
                        /\ exn_cls e = JSONDecodeError
                        /\ output = VStr raw_output))
              /\ response =
                   {| reply := VDict [(lit "output", output)]; is_safe := true |})
  /\ ((forall response, snd result <> OK response) ->
      snd result = HTTPException 500 LlmClient.internal_error_message).
Proof.
  cbv zeta. unfold LlmClient.ask_llm_current. cbn [fst snd].
  split; [reflexivity |].
  unfold LlmClient.reply_of_agent.
  destruct (LlmClient.agent_analyzer_ainvoke app_state message)
    as [agent_reply | e]; cbn [bind].
  2: { split; [| reflexivity]. intros response. split; [discriminate |].
       intros [ri [ro [o [H _]]]]. discriminate H. }
  destruct agent_reply as [| | | | | |reply_items];
    try (cbn [py_get bind]; split; [| reflexivity]; intros response;
         split; [discriminate | intros [ri [ro [o [H _]]]]; discriminate H]).
  cbn [py_get bind].
  destruct (dict_get reply_items (lit "output") (VStr (lit "no output")))
    as [| | | |raw_output| |] eqn:Hout;
    try (unfold LlmClient.normalize_output, LlmClient._is_json_dict;
         cbn [json_loads try_except bind is_json_decode_error exn_cls];
         split; [| reflexivity]; intros response;
         split; [discriminate
                | intros [ri [ro [o [H [H1 _]]]]]; injection H as <-;
                  rewrite Hout in H1; discriminate H1]).
  rewrite normalize_output_of_string.
  destruct (decode raw_output) as [v | e] eqn:Hd.
  - assert (Hcase :
      exists output,
        match v with
        | VDict items =>
            Return (dict_get items (lit "action_input") (VStr (lit "no action_input")))
        | _ => Return (VStr raw_output)
        end = Return output
        /\ ((exists items, v = VDict items
                           /\ output = dict_get items (lit "action_input")
                                         (VStr (lit "no action_input")))
            \/ (isinstance_dict v = false /\ output = VStr raw_output))).
    { destruct v; eexists; (split; [reflexivity |]); eauto. }
    destruct Hcase as (output & -> & Hcase). cbn [bind]. split.
    + intros response. split.
      * intros H. injection H as <-. exists reply_items, raw_output, output.
        split; [reflexivity |]. split; [exact Hout |]. split; [| reflexivity].
        destruct Hcase as [(items & -> & ->) | (Hv & ->)].
        -- left. eauto.
        -- right. left. eauto.
      * intros (ri & ro & o & Ha & Ho & Hdec & ->).
        injection Ha as <-. rewrite Hout in Ho. injection Ho as <-.
        rewrite Hd in Hdec.
        destruct Hdec as [(items & Hv & ->) | [(v' & Hv & Hnd & ->) | (e & He & _)]];
          [| | discriminate He]; injection Hv as Hv; subst v.
        -- destruct Hcase as [(items' & Heq & ->) | (Hnd & _)].
           ++ injection Heq as <-. reflexivity.
           ++ discriminate Hnd.
        -- destruct Hcase as [(items' & -> & _) | (_ & ->)].
           ++ discriminate Hnd.
           ++ reflexivity.
    + intros H. exfalso. eapply H. reflexivity.
  - destruct (is_json_decode_error e) eqn:He; cbn [bind].
    + split.
      * intros response. split.
        -- intros H. injection H as <-. exists reply_items, raw_output, (VStr raw_output).
           split; [reflexivity |]. split; [exact Hout |]. split; [| reflexivity].
           right. right. exists e. apply is_json_decode_error_spec in He. auto.
        -- intros (ri & ro & o & Ha & Ho & Hdec & ->).
           injection Ha as <-. rewrite Hout in Ho. injection Ho as <-.
           rewrite Hd in Hdec.
           destruct Hdec as [(items & Hv & _) | [(v' & Hv & _) | (e' & _ & _ & ->)]];
             [discriminate Hv | discriminate Hv | reflexivity].
      * intros H. exfalso. eapply H. reflexivity.
    + split; [| reflexivity]. intros response. split; [discriminate |].
      intros (ri & ro & o & Ha & Ho & Hdec & _).
      injection Ha as <-. rewrite Hout in Ho. injection Ho as <-.
      rewrite Hd in Hdec.
      destruct Hdec as [(items & Hv & _) | [(v' & Hv & _) | (e' & He' & Hcls & _)]];
        [discriminate Hv | discriminate Hv |].
      injection He' as <-. apply is_json_decode_error_spec in Hcls. congruence.
Qed.

(** The three answers of the endpoint to a string output: an object, a
    text that is not JSON, and an integer that [json.loads] does not
    convert. *)
Lemma ask_llm_current_examples :
  snd (LlmClient.ask_llm_current example_decode
         (example_services (lit "APPROVED") action_input_text)
         (lit "how many pods are running"))
  = OK {| reply := VDict [(lit "output", VStr (lit "3 pods running"))];
          is_safe := true |}
  /\ snd (LlmClient.ask_llm_current example_decode
            (example_services (lit "APPROVED") (lit "3 pods running"))
            (lit "how many pods are running"))
     = OK {| reply := VDict [(lit "output", VStr (lit "3 pods running"))];
             is_safe := true |}
  /\ snd (LlmClient.ask_llm_current example_decode
            (example_services (lit "APPROVED") long_number)
            (lit "how many pods are running"))
     = HTTPException 500 LlmClient.internal_error_message.
Proof. repeat split; vm_compute; reflexivity. Qed.

(** X7: a structured final answer of the agent, a dict instead of a string, is
    not passed through: [json.loads] refuses it with a [TypeError] that
    [_is_json_dict] does not catch, and the endpoint answers 500. *)
Theorem ask_llm_current_structured_output_is_500
  (decode : str -> outcome value) (app_state : LlmClient.services) (message : str)
  (reply_items : list (str * value)) (output : value) :
  LlmClient.agent_analyzer_ainvoke app_state message = Return (VDict reply_items) ->
  dict_get reply_items (lit "output") (VStr (lit "no output")) = output ->
  (forall s, output <> VStr s) ->
  LlmClient.ask_llm_current decode app_state message =
    ([AgentAnalyzerCall message],
     HTTPException 500 LlmClient.internal_error_message).
Proof.
  intros Hagent Hout Hnot. unfold LlmClient.ask_llm_current.
  unfold LlmClient.reply_of_agent. rewrite Hagent. cbn [bind py_get].
  rewrite Hout.
  destruct output; try reflexivity. exfalso. eapply Hnot. reflexivity.
Qed.

Lemma ask_llm_current_structured_output_is_500_witness :
  LlmClient.ask_llm_current example_decode structured_answer_services
    (lit "how many pods are running")
  = ([AgentAnalyzerCall (lit "how many pods are running")],
     HTTPException 500 LlmClient.internal_error_message).
Proof.
  apply (ask_llm_current_structured_output_is_500 example_decode
           structured_answer_services (lit "how many pods are running")
           [(lit "input", VStr (lit "how many pods are running"));
            (lit "output", VDict [(lit "pods", VInt 3)])]
           (VDict [(lit "pods", VInt 3)])).
  - reflexivity.
  - reflexivity.
  - intros s. discriminate.
Defined.

(** ** The decision of the policy gate *)

Lemma str_in_rev (w s : str) : str_in (rev w) (rev s) = str_in w s.
Proof.
  apply eq_true_iff_eq. rewrite !str_in_spec. split.
  - intros [l [r H]]. exists (rev r), (rev l).
    apply (f_equal (@rev N)) in H.
    rewrite rev_involutive, !rev_app_distr, rev_involutive in H.
    rewrite H, app_assoc. reflexivity.
  - intros [l [r ->]]. exists (rev r), (rev l).
    rewrite !rev_app_distr, app_assoc. reflexivity.
Qed.

(** White space in front of a text hides no occurrence of a word that
    begins with another character. *)
Lemma str_in_after_spaces (a : char) (w ws x : str) :
  is_space a = false ->
  Forall (fun c => is_space c = true) ws ->
  str_in (a :: w) (ws ++ x) = str_in (a :: w) x.
Proof.
  intros Ha. induction 1 as [|c ws Hc _ IH]; [reflexivity |].
  cbn [app str_in startswith].
  destruct (N.eqb_spec a c) as [-> | _]; [congruence |]. exact IH.
Qed.

Lemma str_in_between_spaces (w ws x ws' : str) :
  (exists a w', w = a :: w' /\ is_space a = false) ->
  (exists b w', rev w = b :: w' /\ is_space b = false) ->
  Forall (fun c => is_space c = true) ws ->
  Forall (fun c => is_space c = true) ws' ->
  str_in w (ws ++ x ++ ws') = str_in w x.
Proof.
  intros [a [w1 [-> Ha]]] [b [w2 [Hrev Hb]]] Hws Hws'.
  rewrite (str_in_after_spaces a w1 ws _ Ha Hws).
  rewrite <- (str_in_rev (a :: w1) (x ++ ws')), rev_app_distr, Hrev.
  rewrite (str_in_after_spaces b w2 (rev ws') _ Hb).
  - rewrite <- Hrev. apply str_in_rev.
  - apply List.Forall_rev. exact Hws'.
Qed.

Lemma lstrip_split (s : str) :
  exists ws, s = ws ++ lstrip s /\ Forall (fun c => is_space c = true) ws.
Proof.
  induction s as [|c s [ws [IH Hws]]].
  - exists []. split; [reflexivity | constructor].
  - cbn [lstrip]. destruct (is_space c) eqn:Hc.
    + exists (c :: ws). split; [cbn; rewrite <- IH; reflexivity |].
      constructor; assumption.
    + exists []. split; [reflexivity | constructor].
Qed.

(** A text is its stripped text between two runs of white space. *)
Lemma strip_split (s : str) :
  exists ws ws',
    s = ws ++ strip s ++ ws'
    /\ Forall (fun c => is_space c = true) ws
    /\ Forall (fun c => is_space c = true) ws'.
Proof.
  destruct (lstrip_split s) as [ws [Hs Hws]].
  destruct (lstrip_split (rev (lstrip s))) as [ws' [Hr Hws']].
  exists ws, (rev ws'). split; [| split].
  - unfold strip, rstrip. rewrite <- rev_app_distr, <- Hr, rev_involutive.
    exact Hs.
  - exact Hws.
  - apply List.Forall_rev. exact Hws'.
Qed.

Lemma ascii_upper_space (c : char) : is_space c = true -> ascii_upper c = c.
Proof.
  unfold is_space, ascii_upper. intros H.
  destruct ((97 <=? c) && (c <=? 122)) eqn:E; [| reflexivity].
  apply andb_true_iff in E. destruct E as [E1 E2].
  apply N.leb_le in E1, E2.
  repeat rewrite orb_true_iff in H. repeat rewrite andb_true_iff in H.
  repeat rewrite N.leb_le in H. repeat rewrite N.eqb_eq in H. lia.
Qed.

Lemma upper_app (db : unicode_db) (a b : str) :
  upper db (a ++ b) = upper db a ++ upper db b.
Proof. unfold upper. apply flat_map_app. Qed.

Lemma upper_spaces (db : unicode_db) (ws : str) :
  keeps_spaces db ->
  Forall (fun c => is_space c = true) ws ->
  upper db ws = ws.
Proof.
  intros Hdb. induction 1 as [|c ws Hc _ IH]; [reflexivity |].
  change (upper db (c :: ws)) with
    ((if c <? 128 then [ascii_upper c] else to_upper db c) ++ upper db ws).
  rewrite IH. destruct (N.ltb_spec c 128) as [Hlt | Hge].
  - rewrite (ascii_upper_space c Hc). reflexivity.
  - rewrite (Hdb c Hc Hge). reflexivity.
Qed.

Lemma DENIED_decision_without_strip (db : unicode_db) (text : str) :
  keeps_spaces db ->
  str_in (lit "DENIED") (upper db (strip text)) = str_in (lit "DENIED") (upper db text).
Proof.
  intros Hdb. destruct (strip_split text) as [ws [ws' [Hs [Hws Hws']]]].
  rewrite Hs at 2. rewrite !upper_app.
  rewrite (upper_spaces db ws Hdb Hws), (upper_spaces db ws' Hdb Hws').
  symmetry. apply str_in_between_spaces; auto.
  - eexists _, _. split; reflexivity.
  - eexists _, _. split; reflexivity.
Qed.

(** X8: the trimming of the judge's text has no effect on the decision: with a
    case mapping that leaves white space alone, as Unicode's does, a request
    is denied if and only if the upper-cased text of the judge, untrimmed,
    contains "DENIED". *)
Theorem ask_llm_decision_ignores_strip
  (db : unicode_db) (decode : str -> outcome value)
  (app_state : LlmClient.services) (message text : str) :
  keeps_spaces db ->
  LlmClient.judge_chain_ainvoke app_state message = Return (VStr text) ->
  (exists response,
     snd (LlmClient.ask_llm db decode app_state message) = OK response
     /\ is_safe response = false)
  <-> str_in (lit "DENIED") (upper db text) = true.
Proof.
  intros Hdb Hjudge.
  rewrite <- (DENIED_decision_without_strip db text Hdb).
  pose proof (ask_llm_cases db decode app_state message) as Hcases.
  cbv zeta in Hcases. unfold LlmClient.judge_decision in Hcases.
  rewrite Hjudge in Hcases. cbn [bind py_strip] in Hcases.
  destruct (str_in (lit "DENIED") (upper db (strip text))).
  - rewrite Hcases. split; [reflexivity |]. intros _.
    eexists. split; reflexivity.
  - split; [| discriminate]. intros [response [Hok Hsafe]].
    destruct Hcases as [_ Hcases].
    rewrite (Hcases response Hok) in Hsafe. discriminate Hsafe.
Qed.

Lemma caseless_db_keeps_spaces : keeps_spaces caseless_db.
Proof. intros c _ _. reflexivity. Qed.

Lemma ask_llm_decision_ignores_strip_witness :
  exists response,
    snd (LlmClient.ask_llm caseless_db example_decode
           (example_services (lit " denied: it deletes pods ") (lit "3 pods running"))
           (lit "delete all pods")) = OK response
    /\ is_safe response = false.
Proof.
  apply (ask_llm_decision_ignores_strip caseless_db example_decode
           (example_services (lit " denied: it deletes pods ") (lit "3 pods running"))
           (lit "delete all pods") (lit " denied: it deletes pods ")).
  - exact caseless_db_keeps_spaces.
  - reflexivity.
  - vm_compute. reflexivity.
Defined.

Lemma upper_of_ascii (db : unicode_db) (text : str) :
  Forall (fun c => c < 128) text -> upper db text = map ascii_upper text.
Proof.
  induction 1 as [|c text Hc _ IH]; [reflexivity |].
  change (upper db (c :: text)) with
    ((if c <? 128 then [ascii_upper c] else to_upper db c) ++ upper db text).
  rewrite IH. destruct (N.ltb_spec c 128); [reflexivity | lia].
Qed.

Lemma map_ascii_upper_spaces (ws : str) :
  Forall (fun c => is_space c = true) ws -> map ascii_upper ws = ws.
Proof.
  induction 1 as [|c ws Hc _ IH]; [reflexivity |].
  cbn [map]. rewrite IH, (ascii_upper_space c Hc). reflexivity.
Qed.

(** X9: for a judge's text in ASCII the decision is blind to the letter case
    and to the context: the request is denied if and only if the text has,
    anywhere, six consecutive letters that spell "denied" in any mix of upper
    and lower case; "It is not denied." and "undenied" deny as well. *)
Theorem ask_llm_denies_any_letter_case
  (db : unicode_db) (decode : str -> outcome value)
  (app_state : LlmClient.services) (message text : str) :
  Forall (fun c => c < 128) text ->
  LlmClient.judge_chain_ainvoke app_state message = Return (VStr text) ->
  (exists response,
     snd (LlmClient.ask_llm db decode app_state message) = OK response
     /\ is_safe response = false)
  <-> exists l w r, text = l ++ w ++ r /\ map ascii_upper w = lit "DENIED".
Proof.
  intros Hascii Hjudge.
  destruct (strip_split text) as [ws [ws' [Hs [Hws Hws']]]].
  assert (Hstrip : Forall (fun c => c < 128) (strip text)).
  { rewrite Hs in Hascii. apply Forall_app in Hascii. destruct Hascii as [_ H].
    apply Forall_app in H. tauto. }
  assert (Hdec : str_in (lit "DENIED") (upper db (strip text)) = true
                 <-> exists l w r, text = l ++ w ++ r
                                   /\ map ascii_upper w = lit "DENIED").
  { rewrite (upper_of_ascii db _ Hstrip).
    replace (str_in (lit "DENIED") (map ascii_upper (strip text)))
      with (str_in (lit "DENIED") (map ascii_upper text)).
    2: { rewrite Hs at 1. rewrite !map_app.
         rewrite (map_ascii_upper_spaces ws Hws), (map_ascii_upper_spaces ws' Hws').
         apply str_in_between_spaces; auto.
         - eexists _, _. split; reflexivity.
         - eexists _, _. split; reflexivity. }
    rewrite str_in_spec. split.
    - intros [l' [r' H]].
      apply map_eq_app in H. destruct H as [l [rest [-> [_ H]]]].
      apply map_eq_app in H. destruct H as [w [r [-> [Hw _]]]].
      exists l, w, r. auto.
    - intros [l [w [r [-> Hw]]]].
      exists (map ascii_upper l), (map ascii_upper r).
      rewrite !map_app, Hw. reflexivity. }
  rewrite <- Hdec.
  pose proof (ask_llm_cases db decode app_state message) as Hcases.
  cbv zeta in Hcases. unfold LlmClient.judge_decision in Hcases.
  rewrite Hjudge in Hcases. cbn [bind py_strip] in Hcases.
  destruct (str_in (lit "DENIED") (upper db (strip text))).
  - rewrite Hcases. split; [reflexivity |]. intros _.
    eexists. split; reflexivity.
  - split; [| discriminate]. intros [response [Hok Hsafe]].
    destruct Hcases as [_ Hcases].
    rewrite (Hcases response Hok) in Hsafe. discriminate Hsafe.
Qed.

Lemma ask_llm_denies_any_letter_case_witness :
  exists response,
    snd (LlmClient.ask_llm caseless_db example_decode
           (example_services (lit "It is not Denied.") (lit "3 pods running"))
           (lit "list namespaces")) = OK response
    /\ is_safe response = false.
Proof.
  apply (ask_llm_denies_any_letter_case caseless_db example_decode
           (example_services (lit "It is not Denied.") (lit "3 pods running"))
           (lit "list namespaces") (lit "It is not Denied.")).
  - repeat constructor.
  - reflexivity.
  - exists (lit "It is not "), (lit "Denied"), (lit "."). split; reflexivity.
Defined.

(** ** The variant with the translator *)

Lemma org_ask_llm_denies_iff_DENIED_witness :
  exists response,
    snd (LlmClientOrg.ask_llm caseless_db example_decode
           (example_org_services (lit "denied") (Return (VStr (lit "delete all pods"))))
           (lit "delete all pods")) = OK response
    /\ is_safe response = false.
Proof.
  apply (org_ask_llm_denies_iff_DENIED caseless_db example_decode
           (example_org_services (lit "denied") (Return (VStr (lit "delete all pods"))))
           (lit "delete all pods") (lit "denied")).
  - reflexivity.
  - vm_compute. reflexivity.
Defined.

(** X11: after an approval the request is translated: when the translator
    raises, the endpoint answers 503 and the agent is not called; otherwise
    the agent is called with the translation, not with the request. *)
Theorem org_ask_llm_translates_before_agent
  (db : unicode_db) (decode : str -> outcome value)
  (app_state : LlmClientOrg.services) (message text : str) :
  LlmClientOrg.judge_chain_ainvoke app_state message = Return (VStr text) ->
  str_in (lit "DENIED") (upper db (strip text)) = false ->
  let result := LlmClientOrg.ask_llm db decode app_state message in
  (forall e,
     LlmClientOrg.translator_chain_ainvoke app_state message = Raise e ->
     result = ([LlmClientOrg.JudgeCall message; LlmClientOrg.TranslatorCall message],
               HTTPException 503 (LlmClientOrg.translator_error_prefix ++ exn_msg e)))
  /\ (forall translated_msg,
        LlmClientOrg.translator_chain_ainvoke app_state message = Return translated_msg ->
        fst result = [LlmClientOrg.JudgeCall message;
                      LlmClientOrg.TranslatorCall message;
                      LlmClientOrg.AgentChainCall translated_msg]
        /\ forall response, snd result = OK response -> is_safe response = true).
Proof.
  intros Hjudge Happroved. cbv zeta.
  unfold LlmClientOrg.ask_llm, LlmClientOrg.judge_decision.
  rewrite Hjudge. cbn [bind py_strip]. rewrite Happroved. split.
  - intros e ->. reflexivity.
  - intros translated_msg ->. cbn [fst snd]. split; [reflexivity |].
    intros response.
    destruct (LlmClient.reply_of_agent decode _) as [r | e] eqn:Hr; [| discriminate].
    intros H. injection H as <-. eapply reply_of_agent_is_safe. exact Hr.
Qed.

Lemma org_ask_llm_translates_before_agent_witness :
  LlmClientOrg.ask_llm caseless_db example_decode
    (example_org_services (lit "APPROVED")
       (Raise (Exn OtherException (lit "Connection error."))))
    (lit "list namespaces")
  = ([LlmClientOrg.JudgeCall (lit "list namespaces");
      LlmClientOrg.TranslatorCall (lit "list namespaces")],
     HTTPException 503
       (LlmClientOrg.translator_error_prefix ++ lit "Connection error.")).
Proof.
  destruct (org_ask_llm_translates_before_agent caseless_db example_decode
              (example_org_services (lit "APPROVED")
                 (Raise (Exn OtherException (lit "Connection error."))))
              (lit "list namespaces") (lit "APPROVED") eq_refl eq_refl)
    as [Hraise _].
  apply (Hraise (Exn OtherException (lit "Connection error."))). reflexivity.
Defined.

(** ** The MCP server and client *)

(** X12: [remote_cmd] decides by stderr alone and never looks at the exit code:
    the state is "OK" exactly when the command has written nothing to stderr,
    the detail is then its stdout, otherwise its stderr, in both cases with
    every space removed.  So a command that fails silently is reported "OK"
    and a command that succeeds with a warning is reported "Error", its
    stdout lost. *)
Theorem remote_cmd_decides_by_stderr
  (settings : McpServer.Settings)
  (subprocess_run : str -> outcome Tools.CompletedProcess)
  (cmd : str) (result : Tools.CompletedProcess) :
  subprocess_run (McpServer.jump_server_ssh_arguments settings ++ lit " "
                  ++ McpServer.jump_server_host settings ++ lit " " ++ cmd)
    = Return result ->
  McpServer.remote_cmd settings subprocess_run cmd =
    Return (VDict
      [(lit "return_state",
        VStr (match Tools.stderr result with [] => lit "OK" | _ => lit "Error" end));
       (lit "detail",
        VStr (List.filter (fun c => negb (c =? 32))
                (match Tools.stderr result with
                 | [] => Tools.stdout result
                 | _ => Tools.stderr result
                 end)))]).
Proof.
  intros Hrun. unfold McpServer.remote_cmd. cbv zeta. rewrite Hrun.
  cbn [bind try_except]. change (lit " ") with [32].
  rewrite !replace_char_by_nothing.
  destruct (Tools.stderr result); reflexivity.
Qed.

Lemma remote_cmd_decides_by_stderr_witness :
  McpServer.remote_cmd example_mcp_settings
    (completed 1 (lit "partial output") []) (lit "kubectl get ns")
  = Return (VDict [(lit "return_state", VStr (lit "OK"));
                   (lit "detail", VStr (lit "partialoutput"))])
  /\ McpServer.remote_cmd example_mcp_settings
       (completed 0 (lit "NAME STATUS") (lit "Warning: deprecated")) (lit "kubectl get ns")
     = Return (VDict [(lit "return_state", VStr (lit "Error"));
                      (lit "detail", VStr (lit "Warning:deprecated"))]).
Proof.
  split.
  - apply (remote_cmd_decides_by_stderr example_mcp_settings
             (completed 1 (lit "partial output") []) (lit "kubectl get ns")
             {| Tools.returncode := 1; Tools.stdout := lit "partial output";
                Tools.stderr := [] |}).
    reflexivity.
  - apply (remote_cmd_decides_by_stderr example_mcp_settings
             (completed 0 (lit "NAME STATUS") (lit "Warning: deprecated"))
             (lit "kubectl get ns")
             {| Tools.returncode := 0; Tools.stdout := lit "NAME STATUS";
                Tools.stderr := lit "Warning: deprecated" |}).
    reflexivity.
Defined.

(** X13: the MCP client has the same gate, and after an approval it hands the
    reply of the agent on as it is: a request is denied, with the fixed reply
    and no call of the agent, if and only if the normalized text of the judge
    contains "DENIED"; otherwise a reply of the agent that is a dict or a
    string is the [reply] of the response, unchanged. *)
Theorem mcp_ask_llm_gate_and_reply
  (db : unicode_db) (validate_reply : value -> outcome value)
  (app_state : McpClient.services) (message text : str) :
  McpClient.judge_chain_ainvoke app_state message = Return (VStr text) ->
  let result := McpClient.ask_llm db validate_reply app_state message in
  (str_in (lit "DENIED") (upper db (strip text)) = true ->
   result = ([JudgeCall message],
             OK {| McpClient.reply := VStr McpClient.policy_violation_message;
                   McpClient.is_safe := false;
                   McpClient.details := Some McpClient.denial_details |}))
  /\ (str_in (lit "DENIED") (upper db (strip text)) = false ->
      forall agent_reply,
        McpClient.agent_chain_ainvoke app_state message = Return agent_reply ->
        (isinstance_dict agent_reply = true \/ exists s, agent_reply = VStr s) ->
        result = ([JudgeCall message; AgentExecutorCall message],
                  OK {| McpClient.reply := agent_reply;
                        McpClient.is_safe := true;
                        McpClient.details := None |}))
  /\ ((exists response, snd result = OK response
                        /\ McpClient.is_safe response = false)
      <-> str_in (lit "DENIED") (upper db (strip text)) = true).
Proof.
  intros Hjudge. cbv zeta. unfold McpClient.ask_llm, McpClient.judge_decision.
  rewrite Hjudge. cbn [bind py_strip].
  destruct (str_in (lit "DENIED") (upper db (strip text))).
  - split; [reflexivity |]. split; [discriminate |].
    split; [reflexivity |]. intros _. eexists. split; reflexivity.
  - split; [discriminate |]. split.
    + intros _ agent_reply -> Hshape. cbn [bind].
      destruct Hshape as [Hd | [s ->]]; [| reflexivity].
      destruct agent_reply; try discriminate Hd. reflexivity.
    + split; [| discriminate]. intros [response [Hok Hsafe]]. cbn [snd] in Hok.
      destruct (McpClient.agent_chain_ainvoke app_state message) as [r | e];
        [| discriminate Hok].
      cbn [bind] in Hok. unfold McpClient.approved_response in Hok.
      destruct (match r with
                | VStr _ | VDict _ => Return r
                | _ => validate_reply r
                end) as [v | e]; [| discriminate Hok].
      cbn [bind] in Hok. injection Hok as <-. discriminate Hsafe.
Qed.

Lemma mcp_ask_llm_gate_and_reply_witness :
  McpClient.ask_llm caseless_db (fun v => Return v)
    (example_mcp_services (lit "APPROVED")) (lit "list namespaces")
  = ([JudgeCall (lit "list namespaces"); AgentExecutorCall (lit "list namespaces")],
     OK {| McpClient.reply :=
             VDict [(lit "input", VStr (lit "list namespaces"));
                    (lit "output", VStr action_input_text)];
           McpClient.is_safe := true;
           McpClient.details := None |}).
Proof.
  destruct (mcp_ask_llm_gate_and_reply caseless_db (fun v => Return v)
              (example_mcp_services (lit "APPROVED")) (lit "list namespaces")
              (lit "APPROVED") eq_refl) as [_ [Happroved _]].
  apply Happroved.
  - vm_compute. reflexivity.
  - reflexivity.
  - left. reflexivity.
Defined.

(** ** The dialog API *)

Lemma insert_desc_perm {A} (key : A -> Z) (x : A) (l : list A) :
  Permutation (insert_desc key x l) (x :: l).
Proof.
  induction l as [|y rest IH]; [reflexivity |]. cbn [insert_desc].
  destruct (key y <=? key x)%Z; [reflexivity |].
  rewrite IH. apply perm_swap.
Qed.

Lemma sorted_reverse_perm {A} (key : A -> Z) (l : list A) :
  Permutation (sorted_reverse key l) l.
Proof.
  induction l as [|x l IH]; [reflexivity |].
  cbn [sorted_reverse foldr]. fold (sorted_reverse key l).
  rewrite insert_desc_perm, IH. reflexivity.
Qed.

Lemma insert_desc_sorted {A} (key : A -> Z) (x : A) (l : list A) :
  StronglySorted (fun a b => (key b <= key a)%Z) l ->
  StronglySorted (fun a b => (key b <= key a)%Z) (insert_desc key x l).
Proof.
  induction 1 as [|y rest Hrest IH Hy]; cbn [insert_desc].
  - repeat constructor.
  - destruct (Z.leb_spec (key y) (key x)) as [Hle | Hlt].
    + constructor; [constructor; assumption |].
      constructor; [exact Hle |].
      eapply List.Forall_impl; [| exact Hy]. cbn. intros z Hz. lia.
    + constructor; [exact IH |].
      eapply Permutation_Forall; [symmetry; apply insert_desc_perm |].
      constructor; [lia | exact Hy].
Qed.

Lemma sorted_reverse_sorted {A} (key : A -> Z) (l : list A) :
  StronglySorted (fun a b => (key b <= key a)%Z) (sorted_reverse key l).
Proof.
  induction l as [|x l IH]; [constructor |].
  cbn [sorted_reverse foldr]. apply insert_desc_sorted. exact IH.
Qed.

Lemma insert_desc_map {A B} (f : A -> B) (key : B -> Z) (x : A) (l : list A) :
  insert_desc key (f x) (map f l) = map f (insert_desc (fun a => key (f a)) x l).
Proof.
  induction l as [|y rest IH]; [reflexivity |]. cbn [map insert_desc].
  destruct (key (f y) <=? key (f x))%Z; [reflexivity |].
  rewrite IH. reflexivity.
Qed.

Lemma sorted_reverse_map {A B} (f : A -> B) (key : B -> Z) (l : list A) :
  sorted_reverse key (map f l) = map f (sorted_reverse (fun a => key (f a)) l).
Proof.
  induction l as [|x l IH]; [reflexivity |].
  cbn [map sorted_reverse foldr].
  fold (sorted_reverse key (map f l)).
  fold (sorted_reverse (fun a => key (f a)) l).
  rewrite IH. apply insert_desc_map.
Qed.

Lemma slice_to_map {A B} (f : A -> B) (stop : Z) (l : list A) :
  slice_to stop (map f l) = map f (slice_to stop l).
Proof.
  unfold slice_to. rewrite length_map.
  destruct (0 <=? stop)%Z; apply firstn_map.
Qed.

Lemma keyed_dicts (records : list RecordCrud.DialogRecord) :
  for_each (fun x => key <- DialogApi.timestamp_key x ;; Return (key, x))
    (map RecordCrud.to_dict records)
  = Return (map (fun r => (RecordCrud.timestamp r, RecordCrud.to_dict r)) records).
Proof.
  induction records as [|r records IH]; [reflexivity |].
  cbn [map for_each]. rewrite IH. reflexivity.
Qed.

(** What the endpoint answers when the database has rows for the user. *)
Lemma get_dialogs_of_rows d user_id limit r records :
  RecordCrud.connect d = true ->
  RecordCrud.query_all d user_id = Return (r :: records) ->
  DialogApi.get_dialogs d user_id limit =
    OK (VList (map RecordCrud.to_dict
                 (slice_to limit (sorted_reverse RecordCrud.timestamp (r :: records))))).
Proof.
  intros Hconn Hquery.
  unfold DialogApi.get_dialogs, RecordCrud.get_records_by_userid.
  rewrite Hconn, Hquery.
  cbn [map truthy length Nat.eqb negb].
  change (RecordCrud.to_dict r :: map RecordCrud.to_dict records)
    with (map RecordCrud.to_dict (r :: records)).
  rewrite keyed_dicts. cbv zeta.
  rewrite (sorted_reverse_map
             (fun r => (RecordCrud.timestamp r, RecordCrud.to_dict r)) fst).
  rewrite map_map. cbn [snd fst].
  rewrite <- slice_to_map. reflexivity.
Qed.

(** X14: the endpoint returns the newest dialogs of the user, newest first: the
    records it shows, followed by those it leaves out, are the rows of the
    database in descending order of their timestamps.  With a [limit] that is
    not negative it shows [limit] records, or all when there are fewer; a
    negative [limit] is not refused: it leaves out the [-limit] oldest. *)
Theorem get_dialogs_newest_first
  (d : RecordCrud.database) (user_id limit : Z)
  (records : list RecordCrud.DialogRecord) :
  RecordCrud.connect d = true ->
  RecordCrud.query_all d user_id = Return records ->
  records <> [] ->
  exists shown hidden,
    DialogApi.get_dialogs d user_id limit = OK (VList (map RecordCrud.to_dict shown))
    /\ Permutation (shown ++ hidden) records
    /\ StronglySorted
         (fun a b => (RecordCrud.timestamp b <= RecordCrud.timestamp a)%Z)
         (shown ++ hidden)
    /\ ((0 <= limit)%Z -> length shown = Nat.min (Z.to_nat limit) (length records))
    /\ ((limit < 0)%Z -> length shown = (length records - Z.to_nat (- limit))%nat).
Proof.
  intros Hconn Hquery Hne.
  destruct records as [|r records]; [contradiction |].
  set (sorted := sorted_reverse RecordCrud.timestamp (r :: records)).
  assert (Hlen : length sorted = length (r :: records)).
  { apply Permutation_length, sorted_reverse_perm. }
  unfold slice_to in *.
  destruct (Z.leb_spec 0 limit) as [Hpos | Hneg].
  - exists (take (Z.to_nat limit) sorted), (drop (Z.to_nat limit) sorted).
    split; [| split; [| split; [| split]]].
    + rewrite (get_dialogs_of_rows d user_id limit r records Hconn Hquery).
      unfold slice_to. destruct (Z.leb_spec 0 limit); [reflexivity | lia].
    + rewrite take_drop. apply sorted_reverse_perm.
    + rewrite take_drop. apply sorted_reverse_sorted.
    + intros _. rewrite length_take, Hlen. reflexivity.
    + lia.
  - set (n := (length sorted - Z.to_nat (- limit))%nat).
    exists (take n sorted), (drop n sorted).
    split; [| split; [| split; [| split]]].
    + rewrite (get_dialogs_of_rows d user_id limit r records Hconn Hquery).
      unfold slice_to. destruct (Z.leb_spec 0 limit); [lia | reflexivity].
    + rewrite take_drop. apply sorted_reverse_perm.
    + rewrite take_drop. apply sorted_reverse_sorted.
    + lia.
    + intros _. rewrite length_take. subst n. rewrite Hlen. lia.
Qed.

Lemma get_dialogs_newest_first_witness :
  exists shown hidden,
    DialogApi.get_dialogs example_dialog_database 2 2
      = OK (VList (map RecordCrud.to_dict shown))
    /\ Permutation (shown ++ hidden) example_dialogs
    /\ StronglySorted
         (fun a b => (RecordCrud.timestamp b <= RecordCrud.timestamp a)%Z)
         (shown ++ hidden)
    /\ ((0 <= 2)%Z -> length shown = Nat.min (Z.to_nat 2) (length example_dialogs))
    /\ ((2 < 0)%Z -> length shown = (length example_dialogs - Z.to_nat (- 2))%nat).
Proof.
  apply (get_dialogs_newest_first example_dialog_database 2 2 example_dialogs).
  - reflexivity.
  - reflexivity.
  - discriminate.
Defined.

Lemma get_dialogs_examples :
  DialogApi.get_dialogs example_dialog_database 2 2 =
    OK (VList (map RecordCrud.to_dict
                 [dialog 1721858867 2 "Hello, how can you help me?";
                  dialog 1721758867 2 "What services do you offer?"]))
  /\ DialogApi.get_dialogs example_dialog_database 2 (-1) =
       OK (VList (map RecordCrud.to_dict
                    [dialog 1721858867 2 "Hello, how can you help me?";
                     dialog 1721758867 2 "What services do you offer?"]))
  /\ DialogApi.get_dialogs example_dialog_database 2 0 = OK (VList []).
Proof. repeat split; vm_compute; reflexivity. Qed.

(** Two lists in strictly descending order of their keys that have the
    same elements are equal. *)
Lemma strictly_sorted_perm_unique {A} (key : A -> Z) (l1 l2 : list A) :
  StronglySorted (fun a b => (key b < key a)%Z) l1 ->
  StronglySorted (fun a b => (key b < key a)%Z) l2 ->
  Permutation l1 l2 ->
  l1 = l2.
Proof.
  intros H1. revert l2.
  induction H1 as [|a t1 Ht1 IH Ha]; intros l2 H2 Hperm.
  - apply Permutation_nil in Hperm. congruence.
  - destruct H2 as [|b t2 Ht2 Hb].
    + symmetry in Hperm. apply Permutation_nil in Hperm. discriminate.
    + assert (Hab : a = b).
      { assert (Hin1 : In a (b :: t2)).
        { eapply Permutation_in; [exact Hperm | left; reflexivity]. }
        assert (Hin2 : In b (a :: t1)).
        { eapply Permutation_in; [symmetry; exact Hperm | left; reflexivity]. }
        destruct Hin1 as [-> | Hin1]; [reflexivity |].
        destruct Hin2 as [-> | Hin2]; [reflexivity |].
        rewrite List.Forall_forall in Ha, Hb.
        specialize (Ha b Hin2). specialize (Hb a Hin1). lia. }
      subst b. f_equal. apply IH; [exact Ht2 |].
      eapply Permutation_cons_inv. exact Hperm.
Qed.

Lemma sorted_distinct_is_strict {A} (key : A -> Z) (l : list A) :
  List.NoDup (map key l) ->
  StronglySorted (fun a b => (key b <= key a)%Z) l ->
  StronglySorted (fun a b => (key b < key a)%Z) l.
Proof.
  induction 2 as [|a t Ht IH Ha]; [constructor |].
  cbn [map] in H. apply NoDup_cons_iff in H. destruct H as [Hnotin Hnodup].
  constructor; [apply IH; exact Hnodup |].
  rewrite List.Forall_forall in *. intros b Hb.
  specialize (Ha b Hb). cbn in Ha.
  assert (key b <> key a).
  { intros Heq. apply Hnotin. rewrite <- Heq. apply in_map. exact Hb. }
  lia.
Qed.

Lemma NoDup_map_perm {A} (key : A -> Z) (l l' : list A) :
  Permutation l l' -> List.NoDup (map key l) -> List.NoDup (map key l').
Proof.
  intros Hperm. apply Permutation_NoDup. apply Permutation_map. exact Hperm.
Qed.

(** X15: the order in which the database returns the rows does not matter: the
    timestamp is the primary key, so the rows have distinct timestamps, and
    two answers of the database with the same rows give the same response. *)
Theorem get_dialogs_ignores_row_order
  (d d' : RecordCrud.database) (user_id limit : Z)
  (records records' : list RecordCrud.DialogRecord) :
  RecordCrud.connect d = true ->
  RecordCrud.connect d' = true ->
  RecordCrud.query_all d user_id = Return records ->
  RecordCrud.query_all d' user_id = Return records' ->
  Permutation records records' ->
  List.NoDup (map RecordCrud.timestamp records) ->
  DialogApi.get_dialogs d user_id limit = DialogApi.get_dialogs d' user_id limit.
Proof.
  intros Hc Hc' Hq Hq' Hperm Hnodup.
  destruct records as [|r records].
  - apply Permutation_nil in Hperm. subst records'.
    unfold DialogApi.get_dialogs, RecordCrud.get_records_by_userid.
    rewrite Hc, Hc', Hq, Hq'. reflexivity.
  - destruct records' as [|r' records'].
    + symmetry in Hperm. apply Permutation_nil in Hperm. discriminate.
    + rewrite (get_dialogs_of_rows d user_id limit r records Hc Hq).
      rewrite (get_dialogs_of_rows d' user_id limit r' records' Hc' Hq').
      enough (sorted_reverse RecordCrud.timestamp (r :: records)
              = sorted_reverse RecordCrud.timestamp (r' :: records')) as ->
        by reflexivity.
      apply (strictly_sorted_perm_unique RecordCrud.timestamp).
      * apply sorted_distinct_is_strict; [| apply sorted_reverse_sorted].
        eapply NoDup_map_perm; [| exact Hnodup].
        symmetry. apply sorted_reverse_perm.
      * apply sorted_distinct_is_strict; [| apply sorted_reverse_sorted].
        eapply NoDup_map_perm; [| exact Hnodup].
        rewrite Hperm. symmetry. apply sorted_reverse_perm.
      * rewrite !sorted_reverse_perm. exact Hperm.
Qed.

Lemma get_dialogs_ignores_row_order_witness :
  DialogApi.get_dialogs example_dialog_database 2 5 =
  DialogApi.get_dialogs
    {| RecordCrud.connect := true;
       RecordCrud.query_all := fun _ => Return (rev example_dialogs) |} 2 5.
Proof.
  apply (get_dialogs_ignores_row_order example_dialog_database _ 2 5
           example_dialogs (rev example_dialogs)).
  - reflexivity.
  - reflexivity.
  - reflexivity.
  - reflexivity.
  - apply Permutation_rev.
  - repeat constructor; cbn; intros H; repeat destruct H as [H | H];
      try discriminate H; exact H.
Defined.

(** X16: a failure of the database is answered like a user without dialogs: when
    the connection fails, the query raises or there is no row, the endpoint
    answers 404; in every other case it answers 200.  It never answers 500. *)
Theorem get_dialogs_404_or_200
  (d : RecordCrud.database) (user_id limit : Z) :
  (RecordCrud.connect d = false
   \/ (exists e, RecordCrud.query_all d user_id = Raise e)
   \/ RecordCrud.query_all d user_id = Return []
   -> DialogApi.get_dialogs d user_id limit =
        HTTPException 404 (lit "No records found for user ID: " ++ str_of_Z user_id))
  /\ ((exists l, DialogApi.get_dialogs d user_id limit = OK (VList l))
      \/ DialogApi.get_dialogs d user_id limit =
           HTTPException 404 (lit "No records found for user ID: " ++ str_of_Z user_id)).
Proof.
  split.
  - unfold DialogApi.get_dialogs, RecordCrud.get_records_by_userid.
    intros [-> | [[e ->] | Hempty]]; [reflexivity | |].
    + destruct (RecordCrud.connect d); reflexivity.
    + rewrite Hempty. destruct (RecordCrud.connect d); reflexivity.
  - destruct (RecordCrud.connect d) eqn:Hc.
    + destruct (RecordCrud.query_all d user_id) as [[|r records] | e] eqn:Hq.
      * right. unfold DialogApi.get_dialogs, RecordCrud.get_records_by_userid.
        rewrite Hc, Hq. reflexivity.
      * left. eexists. apply (get_dialogs_of_rows d user_id limit r records Hc Hq).
      * right. unfold DialogApi.get_dialogs, RecordCrud.get_records_by_userid.
        rewrite Hc, Hq. reflexivity.
    + right. unfold DialogApi.get_dialogs, RecordCrud.get_records_by_userid.
      rewrite Hc. reflexivity.
Qed.

Lemma get_dialogs_404_or_200_witness :
  DialogApi.get_dialogs unreachable_dialog_database 2 5 =
    HTTPException 404 (lit "No records found for user ID: 2").
Proof.
  destruct (get_dialogs_404_or_200 unreachable_dialog_database 2 5) as [H _].
  apply H. right. left. eexists. reflexivity.
Defined.

(** ** The Loki API *)

Lemma format_results_shape w results :
  forall acc formatted,
    (acc = [] \/ exists s0 v0, acc = [(lit "stream", s0); (lit "values", VList v0)]) ->
    LokiApi.format_results w results acc = Return formatted ->
    formatted = []
    \/ exists s v, formatted = [(lit "stream", s); (lit "values", VList v)].
Proof.
  induction results as [|result rest IH]; intros acc formatted Hacc.
  - cbn [LokiApi.format_results]. intros H. injection H as <-. exact Hacc.
  - cbn [LokiApi.format_results].
    destruct (LokiApi.format_result w result) as [[s v] |e] eqn:Hres;
      [| discriminate].
    cbn [bind fst snd]. apply IH. right.
    assert (exists l, v = VList l) as [l ->].
    { unfold LokiApi.format_result in Hres.
      destruct (py_get result (lit "stream") VNone); [| discriminate]. cbn [bind] in Hres.
      destruct (py_get result (lit "values") VNone); [| discriminate]. cbn [bind] in Hres.
      destruct (py_iter _); [| discriminate]. cbn [bind] in Hres.
      destruct (for_each _ _); [| discriminate]. cbn [bind] in Hres.
      injection Hres as _ <-. eauto. }
    destruct Hacc as [-> | [s0 [v0 ->]]]; exists s, l; reflexivity.
Qed.

Lemma format_results_last w front last s v :
  forall acc,
    (acc = [] \/ exists s0 v0, acc = [(lit "stream", s0); (lit "values", v0)]) ->
    Forall (fun r => exists sv, LokiApi.format_result w r = Return sv) front ->
    LokiApi.format_result w last = Return (s, v) ->
    LokiApi.format_results w (front ++ [last]) acc =
      Return [(lit "stream", s); (lit "values", v)].
Proof.
  induction front as [|r front IH]; intros acc Hacc Hfront Hlast.
  - cbn [app LokiApi.format_results]. rewrite Hlast. cbn [bind fst snd].
    destruct Hacc as [-> | [s0 [v0 ->]]]; reflexivity.
  - inversion Hfront as [|? ? [[s1 v1] Hr] Hrest]; subst.
    cbn [app LokiApi.format_results]. rewrite Hr. cbn [bind fst snd].
    apply IH; [| exact Hrest | exact Hlast].
    right. destruct Hacc as [-> | [s0 [v0 ->]]]; eexists _, _; reflexivity.
Qed.

(** X17: when Loki answers with several streams, [_query_loki_logs] returns the
    last one only: every stream overwrites the [stream] and the [values] of
    the one before. *)
Theorem _query_loki_logs_keeps_last_stream
  (settings : LokiApi.Settings) (w : LokiApi.world)
  (query start_time_str end_time_str : str) (limit : Z)
  (data inner : list (str * value)) (front : list value) (last stream values : value) :
  LokiApi.query_range settings w query start_time_str end_time_str limit
    = Return (VDict data) ->
  dict_get data (lit "status") VNone = VStr (lit "success") ->
  dict_get data (lit "data") (VStr []) = VDict inner ->
  dict_get inner (lit "resultType") (VStr []) = VStr (lit "streams") ->
  dict_get inner (lit "result") (VStr []) = VList (front ++ [last]) ->
  Forall (fun r => exists sv, LokiApi.format_result w r = Return sv) front ->
  LokiApi.format_result w last = Return (stream, values) ->
  LokiApi._query_loki_logs settings w query start_time_str end_time_str limit =
    (VDict [(lit "stream", stream); (lit "values", values)], VNone).
Proof.
  intros Hq Hstatus Hdata Htype Hresult Hfront Hlast.
  unfold LokiApi._query_loki_logs. rewrite Hq. cbn [bind py_get].
  rewrite Hstatus. change (py_eq_str (VStr (lit "success")) (lit "success")) with true.
  cbv iota. rewrite Hdata. cbn [bind py_get]. rewrite Htype.
  change (py_eq_str (VStr (lit "streams")) (lit "streams")) with true.
  cbv iota. rewrite Hresult. cbn [bind py_iter].
  rewrite (format_results_last w front last stream values []); auto.
Qed.

Lemma _query_loki_logs_keeps_last_stream_witness :
  LokiApi._query_loki_logs example_loki_settings (loki_answering two_streams)
    (lit "{app=x}") (lit "2025-07-15 13:20:00") (lit "2025-07-15 13:24:00") 1000
  = (VDict [(lit "stream", VDict [(lit "pod", VStr (lit "b"))]);
            (lit "values",
             VList [VDict [(lit "timestamp", VStr (lit "2"));
                           (lit "log", VStr (lit "first of b"))];
                    VDict [(lit "timestamp", VStr (lit "3"));
                           (lit "log", VStr (lit "second of b"))]])],
     VNone).
Proof.
  eapply (_query_loki_logs_keeps_last_stream example_loki_settings
            (loki_answering two_streams) _ _ _ _ _ _
            [VDict [(lit "stream", VDict [(lit "pod", VStr (lit "a"))]);
                    (lit "values", VList [VList [VInt 1; VStr (lit "first of a")]])]]).
  - reflexivity.
  - reflexivity.
  - reflexivity.
  - reflexivity.
  - reflexivity.
  - repeat constructor. eexists. reflexivity.
  - reflexivity.
Defined.

(** X18: [_query_loki_logs] never returns logs together with an error: either
    the error is [None] and the logs are empty or have exactly a [stream] and
    a list of [values], or the logs are empty and the error has exactly the
    keys [error] and [status]. *)
Theorem _query_loki_logs_logs_or_error
  (settings : LokiApi.Settings) (w : LokiApi.world)
  (query start_time_str end_time_str : str) (limit : Z) :
  let r := LokiApi._query_loki_logs settings w query start_time_str end_time_str limit in
  (snd r = VNone
   /\ (fst r = VDict []
       \/ exists stream values,
            fst r = VDict [(lit "stream", stream); (lit "values", VList values)]))
  \/ (fst r = VDict []
      /\ exists error status,
           snd r = VDict [(lit "error", error); (lit "status", status)]).
Proof.
  cbv zeta. unfold LokiApi._query_loki_logs.
  destruct (LokiApi.query_range settings w _ _ _ _) as [data | e]; cbn [bind].
  2: { right. split; [reflexivity | eexists _, _; reflexivity]. }
  destruct (py_get data (lit "status") VNone) as [status | e]; cbn [bind].
  2: { right. split; [reflexivity | eexists _, _; reflexivity]. }
  destruct (py_eq_str status (lit "success")).
  - destruct (py_get data (lit "data") (VStr [])) as [inner | e]; cbn [bind].
    2: { right. split; [reflexivity | eexists _, _; reflexivity]. }
    destruct (py_get inner (lit "resultType") (VStr [])) as [rt | e]; cbn [bind].
    2: { right. split; [reflexivity | eexists _, _; reflexivity]. }
    destruct (py_eq_str rt (lit "streams")); cbn [bind].
    2: { left. split; [reflexivity | left; reflexivity]. }
    destruct (py_get inner (lit "result") (VStr [])) as [results | e]; cbn [bind].
    2: { right. split; [reflexivity | eexists _, _; reflexivity]. }
    destruct (py_iter results) as [rs | e]; cbn [bind].
    2: { right. split; [reflexivity | eexists _, _; reflexivity]. }
    destruct (LokiApi.format_results w rs []) as [formatted | e] eqn:Hf; cbn [bind].
    2: { right. split; [reflexivity | eexists _, _; reflexivity]. }
    left. split; [reflexivity |]. cbn [fst].
    destruct (format_results_shape w rs [] formatted (or_introl eq_refl) Hf)
      as [-> | [s [v ->]]]; [left; reflexivity | right; eauto].
  - destruct (py_get data (lit "error") _) as [error | e]; cbn [bind].
    2: { right. split; [reflexivity | eexists _, _; reflexivity]. }
    destruct (py_getitem data (lit "status")) as [st | e]; cbn [bind].
    2: { right. split; [reflexivity | eexists _, _; reflexivity]. }
    right. split; [reflexivity | eexists _, _; reflexivity].
Qed.

Lemma _query_loki_logs_without_streams
  (settings : LokiApi.Settings) (w : LokiApi.world)
  (query start_time end_time : str) (limit : Z)
  (data inner : list (str * value)) :
  LokiApi.query_range settings w query start_time end_time limit = Return (VDict data) ->
  dict_get data (lit "status") VNone = VStr (lit "success") ->
  dict_get data (lit "data") (VStr []) = VDict inner ->
  (py_eq_str (dict_get inner (lit "resultType") (VStr [])) (lit "streams") = false
   \/ dict_get inner (lit "result") (VStr []) = VList []) ->
  LokiApi._query_loki_logs settings w query start_time end_time limit
  = (VDict [], VNone).
Proof.
  intros Hq Hstatus Hdata Hnone.
  unfold LokiApi._query_loki_logs. rewrite Hq. cbn [bind py_get].
  rewrite Hstatus.
  change (py_eq_str (VStr (lit "success")) (lit "success")) with true.
  cbv iota. rewrite Hdata. cbn [bind py_get].
  destruct (py_eq_str (dict_get inner (lit "resultType") (VStr [])) (lit "streams"));
    [| reflexivity].
  destruct Hnone as [Hnone | Hnone]; [discriminate Hnone |].
  rewrite Hnone. reflexivity.
Qed.

(** X19: when Loki has no stream for a query (the result type is not "streams",
    or the list of results is empty), [get_logs] answers 200 with an empty
    object, not with a [stream] and an empty list of [values]. *)
Theorem get_logs_without_streams
  (settings : LokiApi.Settings) (w : LokiApi.world)
  (query start_time end_time : str) (limit : Z)
  (data inner : list (str * value)) :
  LokiApi.query_range settings w query start_time end_time limit = Return (VDict data) ->
  dict_get data (lit "status") VNone = VStr (lit "success") ->
  dict_get data (lit "data") (VStr []) = VDict inner ->
  (py_eq_str (dict_get inner (lit "resultType") (VStr [])) (lit "streams") = false
   \/ dict_get inner (lit "result") (VStr []) = VList []) ->
  LokiApi.get_logs settings w query start_time end_time limit = LokiApi.Json (VDict []).
Proof.
  intros Hq Hstatus Hdata Hnone.
  unfold LokiApi.get_logs.
  rewrite (_query_loki_logs_without_streams settings w query start_time end_time
             limit data inner Hq Hstatus Hdata Hnone).
  reflexivity.
Qed.

Lemma get_logs_without_streams_witness :
  LokiApi.get_logs example_loki_settings (loki_answering no_stream)
    (lit "{app=x}") (lit "2025-07-15 13:20:00") (lit "2025-07-15 13:24:00") 1000
  = LokiApi.Json (VDict []).
Proof.
  eapply (get_logs_without_streams example_loki_settings (loki_answering no_stream)).
  - reflexivity.
  - reflexivity.
  - reflexivity.
  - right. reflexivity.
Defined.

(** X20: the API and the tool together: when Loki has no stream for the query
    and the request of the tool is answered with the body of [get_logs], the
    tool returns [None] without [debug], and with [debug] a success whose
    target is "unknown" and whose logs are empty. *)
Theorem LokiLogsQueryTool_on_query_without_logs
  (api_settings : LokiApi.Settings) (api : LokiApi.world)
  (settings : Tools.Settings) (db : unicode_db) (w : Tools.world)
  (query start_time end_time : str) (limit : Z)
  (data inner : list (str * value)) :
  LokiApi.query_range api_settings api query start_time end_time limit
    = Return (VDict data) ->
  dict_get data (lit "status") VNone = VStr (lit "success") ->
  dict_get data (lit "data") (VStr []) = VDict inner ->
  dict_get inner (lit "result") (VStr []) = VList [] ->
  (forall body,
     LokiApi.get_logs api_settings api query start_time end_time limit
       = LokiApi.Json body ->
     Tools.requests_get w (Tools.loki_logs_url settings)
       (Tools.loki_logs_params query start_time end_time limit)
     = Return {| Tools.raise_for_status := Return tt; Tools.json := Return body |}) ->
  Tools.LokiLogsQueryTool_run settings db w query start_time end_time limit false
    = Return VNone
  /\ Tools.LokiLogsQueryTool_run settings db w query start_time end_time limit true
     = Return (VDict [(lit "status", VStr (lit "success"));
                      (lit "target", VStr (lit "unknown"));
                      (lit "logs", VList [])]).
Proof.
  intros Hq Hstatus Hdata Hresult Hlink.
  assert (Hlogs : LokiApi.get_logs api_settings api query start_time end_time limit
                  = LokiApi.Json (VDict [])).
  { unfold LokiApi.get_logs.
    rewrite (_query_loki_logs_without_streams api_settings api query start_time
               end_time limit data inner Hq Hstatus Hdata (or_intror Hresult)).
    reflexivity. }
  specialize (Hlink _ Hlogs).
  unfold Tools.LokiLogsQueryTool_run. cbv zeta. rewrite Hlink. split; reflexivity.
Qed.

Lemma LokiLogsQueryTool_on_query_without_logs_witness :
  Tools.LokiLogsQueryTool_run example_settings caseless_db empty_loki_world
    (lit "{app=x}") (lit "2025-07-15 13:20:00") (lit "2025-07-15 13:24:00") 1000 false
    = Return VNone
  /\ Tools.LokiLogsQueryTool_run example_settings caseless_db empty_loki_world
       (lit "{app=x}") (lit "2025-07-15 13:20:00") (lit "2025-07-15 13:24:00") 1000 true
     = Return (VDict [(lit "status", VStr (lit "success"));
                      (lit "target", VStr (lit "unknown"));
                      (lit "logs", VList [])]).
Proof.
  eapply (LokiLogsQueryTool_on_query_without_logs example_loki_settings
            (loki_answering no_stream) example_settings caseless_db empty_loki_world).
  - reflexivity.
  - reflexivity.
  - reflexivity.
  - reflexivity.
  - intros body H. vm_compute in H. injection H as <-. reflexivity.
Defined.

(** ** The pod metrics *)

Lemma str_eqb_eq (a b : str) : str_eqb a b = true <-> a = b.
Proof.
  revert b. induction a as [|x a IH]; intros [|y b]; simpl; split; intros H;
    try reflexivity; try discriminate.
  - apply andb_true_iff in H as [Hx Hab]. apply N.eqb_eq in Hx.
    apply IH in Hab. congruence.
  - injection H as -> ->. rewrite N.eqb_refl. simpl. apply IH. reflexivity.
Qed.

Lemma str_eqb_refl (a : str) : str_eqb a a = true.
Proof. apply str_eqb_eq. reflexivity. Qed.

Lemma str_eqb_neq (a b : str) : str_eqb a b = false <-> a <> b.
Proof.
  split.
  - intros H ->. rewrite str_eqb_refl in H. discriminate.
  - intros H. destruct (str_eqb a b) eqn:E; [|reflexivity].
    apply str_eqb_eq in E. contradiction.
Qed.

Lemma for_each_map {A B} (f : A -> outcome B) (g : A -> B) (l : list A) :
  (forall x, In x l -> f x = Return (g x)) ->
  for_each f l = Return (map g l).
Proof.
  induction l as [|x l IH]; intros H; simpl; [reflexivity|].
  rewrite (H x (or_introl eq_refl)). cbn [bind].
  rewrite IH by (intros y Hy; apply H; right; exact Hy). reflexivity.
Qed.

Section Grouping.

Variable w : PrometheusApi.world.
Hypothesis Hkeys : string_keys w.

Lemma in_namespace_app (ns : str) (seen : list value) (pod : value) :
  List.filter (in_namespace ns) (seen ++ [pod])
  = List.filter (in_namespace ns) seen
    ++ (if str_eqb (namespace_of pod) ns then [pod] else []).
Proof. rewrite List.filter_app. reflexivity. Qed.

Lemma append_to_group_keys grouped ns pod k :
  In k (map fst (PrometheusApi.append_to_group w grouped (VStr ns) pod)) ->
  In k (map fst grouped) \/ k = VStr ns.
Proof.
  induction grouped as [|[key members] rest IH]; simpl.
  - intros [<-|[]]. right. reflexivity.
  - destruct (PrometheusApi.same_key w key (VStr ns)); simpl.
    + intros H. left. exact H.
    + intros [<-|H]; [left; left; reflexivity|].
      destruct (IH H) as [H'| ->]; [left; right; exact H' | right; reflexivity].
Qed.

Lemma append_to_group_keeps_keys grouped ns pod k :
  In k (map fst grouped) ->
  In k (map fst (PrometheusApi.append_to_group w grouped (VStr ns) pod)).
Proof.
  induction grouped as [|[key members] rest IH]; simpl; [intros []|].
  destruct (PrometheusApi.same_key w key (VStr ns)); simpl.
  - intros H. exact H.
  - intros [<-|H]; [left; reflexivity | right; apply IH; exact H].
Qed.

Lemma append_to_group_has_key grouped ns pod seen :
  List.Forall (group_of seen) grouped ->
  In (VStr ns) (map fst (PrometheusApi.append_to_group w grouped (VStr ns) pod)).
Proof.
  induction grouped as [|[key members] rest IH]; simpl; intros H.
  - left. reflexivity.
  - inversion H as [|g gs (k & Hk & _) Hrest]; subst. simpl in Hk. subst key.
    rewrite Hkeys. destruct (str_eqb k ns) eqn:E; simpl.
    + apply str_eqb_eq in E. subst k. left. reflexivity.
    + right. apply IH. exact Hrest.
Qed.

Lemma group_of_other seen pod group :
  group_of seen group ->
  fst group <> VStr (namespace_of pod) ->
  group_of (seen ++ [pod]) group.
Proof.
  intros (k & Hk & Hne & Hmem) Hother. exists k. repeat split; try assumption.
  rewrite in_namespace_app.
  destruct (str_eqb (namespace_of pod) k) eqn:E.
  - apply str_eqb_eq in E. subst k. rewrite Hk in Hother. contradiction.
  - rewrite app_nil_r. exact Hmem.
Qed.

Lemma append_to_group_members grouped seen pod :
  List.Forall (group_of seen) grouped ->
  List.NoDup (map fst grouped) ->
  (~ In (VStr (namespace_of pod)) (map fst grouped) ->
   List.filter (in_namespace (namespace_of pod)) seen = []) ->
  List.Forall (group_of (seen ++ [pod]))
    (PrometheusApi.append_to_group w grouped (VStr (namespace_of pod)) pod).
Proof.
  induction grouped as [|[key members] rest IH]; simpl; intros Hall Hnodup Hnew.
  - constructor; [|constructor]. exists (namespace_of pod). simpl.
    repeat split; [discriminate|].
    rewrite in_namespace_app, str_eqb_refl, Hnew by (intros []). reflexivity.
  - inversion Hall as [|g gs Hhead Hrest]; subst.
    inversion Hnodup as [|k ks Hnotin Hnodup']; subst.
    pose proof Hhead as (k & Hk & Hne & Hmem). simpl in Hk, Hne, Hmem. subst key.
    rewrite Hkeys. destruct (str_eqb k (namespace_of pod)) eqn:E.
    + apply str_eqb_eq in E. subst k. constructor.
      * exists (namespace_of pod). simpl. repeat split.
        -- intros H. apply app_eq_nil in H as [_ H]. discriminate.
        -- rewrite in_namespace_app, str_eqb_refl, Hmem. reflexivity.
      * apply List.Forall_forall. intros g Hg.
        apply group_of_other.
        -- eapply List.Forall_forall in Hrest; [exact Hrest | exact Hg].
        -- intros Heq. apply Hnotin. rewrite <- Heq. apply in_map. exact Hg.
    + constructor.
      * apply group_of_other; [exact Hhead|]. simpl. intros Heq.
        injection Heq as ->. rewrite str_eqb_refl in E. discriminate.
      * apply IH; [exact Hrest | exact Hnodup' |].
        intros Hnot. apply Hnew. simpl. intros [Heq|Hin]; [|contradiction].
        injection Heq as ->. rewrite str_eqb_refl in E. discriminate.
Qed.

Lemma append_to_group_nodup grouped ns pod seen :
  List.Forall (group_of seen) grouped ->
  List.NoDup (map fst grouped) ->
  List.NoDup (map fst (PrometheusApi.append_to_group w grouped (VStr ns) pod)).
Proof.
  induction grouped as [|[key members] rest IH]; simpl; intros Hall Hnodup.
  - constructor; [intros []|constructor].
  - inversion Hall as [|g gs (k & Hk & _) Hrest]; subst. simpl in Hk. subst key.
    inversion Hnodup as [|k' ks Hnotin Hnodup']; subst.
    rewrite Hkeys. destruct (str_eqb k ns) eqn:E; simpl.
    + constructor; assumption.
    + constructor; [|apply IH; assumption].
      intros Hin. apply append_to_group_keys in Hin.
      destruct Hin as [Hin|Heq]; [contradiction|].
      injection Heq as ->. rewrite str_eqb_refl in E. discriminate.
Qed.

Lemma grouping_step seen grouped pod :
  grouping seen grouped ->
  grouping (seen ++ [pod])
    (PrometheusApi.append_to_group w grouped (VStr (namespace_of pod)) pod).
Proof.
  intros (Hall & Hnodup & Hcover). repeat split.
  - apply append_to_group_members; [exact Hall | exact Hnodup |].
    intros Hnot. induction seen as [|p seen' IH'] in Hcover, Hnot |- *;
      [reflexivity|].
    simpl. unfold in_namespace at 1.
    destruct (str_eqb (namespace_of p) (namespace_of pod)) eqn:E.
    + apply str_eqb_eq in E. exfalso. apply Hnot. rewrite <- E.
      apply Hcover. left. reflexivity.
    + apply IH'; [|exact Hnot]. intros q Hq. apply Hcover. right. exact Hq.
  - eapply append_to_group_nodup; eassumption.
  - intros q Hq. apply in_app_or in Hq as [Hq|[<-|[]]].
    + apply append_to_group_keeps_keys. apply Hcover. exact Hq.
    + eapply append_to_group_has_key. exact Hall.
Qed.

Lemma group_by_namespace_grouping items seen grouped :
  List.Forall string_namespaced items ->
  grouping seen grouped ->
  exists grouped',
    PrometheusApi.group_by_namespace w items grouped = Return grouped'
    /\ grouping (seen ++ items) grouped'.
Proof.
  intros Hitems. revert seen grouped.
  induction Hitems as [|pod items (fields & ns & -> & Hns) _ IH];
    intros seen grouped Hinv.
  - exists grouped. rewrite app_nil_r. split; [reflexivity | exact Hinv].
  - simpl. rewrite Hns. cbn [bind py_hash].
    pose proof (grouping_step seen grouped (VDict fields) Hinv) as Hstep.
    assert (Hn : namespace_of (VDict fields) = ns)
      by (unfold namespace_of; rewrite Hns; reflexivity).
    rewrite Hn in Hstep.
    destruct (IH _ _ Hstep) as (grouped' & Hrun & Hinv').
    exists grouped'. split; [exact Hrun|].
    rewrite <- app_assoc in Hinv'. exact Hinv'.
Qed.

End Grouping.

(** X21: the endpoint of the pod metrics groups the pods by namespace: when the
    namespaces are strings and the metrics of every pod are collected, the
    answer has one entry for each namespace that occurs, and the entry of a
    namespace lists exactly the pods of that namespace, in the order of the
    series of [kube_pod_info], each with its metrics. *)
Theorem get_pods_metrics_groups_by_namespace
  (w : PrometheusApi.world) (series pods : list value) (annotated : value -> value) :
  PrometheusApi.custom_query_range w (lit "kube_pod_info") = Return (VList series) ->
  for_each PrometheusApi.pod_info_of series = Return pods ->
  List.Forall string_namespaced pods ->
  string_keys w ->
  (forall pod, In pod pods ->
     PrometheusApi.pod_metrics w pod = Return (annotated pod)) ->
  exists grouped,
    PrometheusApi.get_pods_metrics w = Return grouped
    /\ List.NoDup (map fst grouped)
    /\ (forall pod, In pod pods -> In (VStr (namespace_of pod)) (map fst grouped))
    /\ (forall key members, In (key, members) grouped ->
          exists ns,
            key = VStr ns
            /\ members <> []
            /\ members = map annotated (List.filter (in_namespace ns) pods)).
Proof.
  intros Hquery Hpods Hnamespaces Hkeys Hmetrics.
  assert (Hstart : grouping [] []).
  { repeat split; [constructor | constructor | intros pod []]. }
  destruct (group_by_namespace_grouping w Hkeys pods [] [] Hnamespaces Hstart)
    as (grouped & Hrun & Hall & Hnodup & Hcover).
  simpl in Hall, Hcover.
  exists (map (fun group => (fst group, map annotated (snd group))) grouped).
  split; [|split; [|split]].
  - unfold PrometheusApi.get_pods_metrics, PrometheusApi._query_metrics_timeframe.
    rewrite Hquery. cbn [py_iter bind]. rewrite Hpods. cbn [bind].
    rewrite Hrun. cbn [bind].
    apply for_each_map. intros group Hgroup.
    eapply List.Forall_forall in Hall; [|exact Hgroup].
    destruct Hall as (ns & _ & _ & Hmembers).
    rewrite (for_each_map _ annotated); [reflexivity|].
    intros pod Hpod. apply Hmetrics. rewrite Hmembers in Hpod.
    apply List.filter_In in Hpod as [Hpod _]. exact Hpod.
  - rewrite map_map. simpl. exact Hnodup.
  - intros pod Hpod. rewrite map_map. simpl. apply Hcover. exact Hpod.
  - intros key members Hin. apply in_map_iff in Hin as (group & Heq & Hgroup).
    injection Heq as <- <-.
    eapply List.Forall_forall in Hall; [|exact Hgroup].
    destruct Hall as (ns & Hkey & Hne & Hmembers).
    exists ns. split; [exact Hkey|]. split.
    + intros Hnil. apply Hne. destruct (snd group); [reflexivity|discriminate].
    + rewrite Hmembers. reflexivity.
Qed.

Lemma get_pods_metrics_groups_by_namespace_witness :
  exists grouped,
    PrometheusApi.get_pods_metrics (example_prometheus two_samples) = Return grouped
    /\ List.NoDup (map fst grouped)
    /\ (forall pod, In pod example_pods ->
          In (VStr (namespace_of pod)) (map fst grouped))
    /\ (forall key members, In (key, members) grouped ->
          exists ns,
            key = VStr ns
            /\ members <> []
            /\ members
               = map (with_metrics (example_prometheus two_samples))
                   (List.filter (in_namespace ns) example_pods)).
Proof.
  apply (get_pods_metrics_groups_by_namespace
           (example_prometheus two_samples) example_series example_pods).
  - reflexivity.
  - reflexivity.
  - repeat constructor; eexists; eexists; split; reflexivity.
  - intros s t. reflexivity.
  - intros pod [<-|[<-|[<-|[]]]]; vm_compute; reflexivity.
Defined.

(** The answer for the three pods of the example: two namespaces, in the
    order of their first pod. *)
Lemma get_pods_metrics_example :
  match PrometheusApi.get_pods_metrics (example_prometheus two_samples) with
  | Return grouped =>
      map (fun group => (fst group, map (fun pod => dict_get
                                           match pod with VDict f => f | _ => [] end
                                           (lit "pod") VNone) (snd group)))
          grouped
      = [(VStr (lit "default"), [VStr (lit "web-1"); VStr (lit "web-2")]);
         (VStr (lit "kube-system"), [VStr (lit "dns-1")])]
  | Raise _ => False
  end.
Proof. vm_compute. reflexivity. Qed.

Lemma metric_values_of_failed_query (w : PrometheusApi.world) (q : str) (e : exn) :
  PrometheusApi.custom_query_range w q = Raise e ->
  PrometheusApi.metric_values w (PrometheusApi._query_metrics_timeframe w q)
  = Raise (Exn OtherException (lit "0")).
Proof.
  intros H. unfold PrometheusApi._query_metrics_timeframe. rewrite H. reflexivity.
Qed.

Lemma group_by_namespace_head (w : PrometheusApi.world) (items : list value) :
  List.Forall string_namespaced items ->
  forall key first members rest,
  exists members' rest',
    PrometheusApi.group_by_namespace w items ((key, first :: members) :: rest)
    = Return ((key, first :: members') :: rest').
Proof.
  induction 1 as [|pod items (fields & ns & -> & Hns) _ IH];
    intros key first members rest.
  - exists members, rest. reflexivity.
  - simpl. rewrite Hns. cbn [bind py_hash].
    destruct (PrometheusApi.same_key w key (VStr ns)); apply IH.
Qed.

(** X22: a metric query that fails is not reported in the answer: when
    Prometheus answers [kube_pod_info] but fails on the CPU query of the
    first pod, the error dict of [_query_metrics_timeframe] is indexed with 0
    and the endpoint raises [KeyError(0)]. *)
Theorem get_pods_metrics_failed_metric_query
  (w : PrometheusApi.world) (series rest : list value)
  (fields : list (str * value)) (podname : str) (e : exn) :
  PrometheusApi.custom_query_range w (lit "kube_pod_info") = Return (VList series) ->
  for_each PrometheusApi.pod_info_of series = Return (VDict fields :: rest) ->
  List.Forall string_namespaced (VDict fields :: rest) ->
  dict_get fields (lit "pod") VNone = VStr podname ->
  PrometheusApi.custom_query_range w (cpu_query podname) = Raise e ->
  PrometheusApi.get_pods_metrics w = Raise (Exn OtherException (lit "0")).
Proof.
  intros Hquery Hpods Hnamespaces Hname Hcpu.
  unfold PrometheusApi.get_pods_metrics.
  unfold PrometheusApi._query_metrics_timeframe at 1.
  rewrite Hquery. cbn [py_iter bind]. rewrite Hpods. cbn [bind].
  inversion Hnamespaces as [|pod pods (fields' & ns & Heq & Hns) Hrest]; subst.
  injection Heq as <-.
  cbn [PrometheusApi.group_by_namespace py_get]. rewrite Hns.
  cbn [bind py_hash PrometheusApi.append_to_group].
  destruct (group_by_namespace_head w rest Hrest (VStr ns) (VDict fields) [] [])
    as (members & groups & ->).
  cbn [bind for_each snd fst].
  unfold PrometheusApi.pod_metrics at 1. cbn [py_get bind]. rewrite Hname.
  cbn [PrometheusApi.add_metrics PrometheusApi.query_conditions py_replace bind].
  change (replace (lit "***") podname
            (lit "sum(rate(container_cpu_usage_seconds_total{pod=" ++ [34]
             ++ lit "***" ++ [34] ++ lit "}[1m])) by (pod)"))
    with (cpu_query podname).
  rewrite (metric_values_of_failed_query w _ e Hcpu). reflexivity.
Qed.

Lemma get_pods_metrics_failed_metric_query_witness :
  PrometheusApi.get_pods_metrics
    (example_prometheus (fun _ => Raise (Exn RequestException (lit "timed out"))))
  = Raise (Exn OtherException (lit "0")).
Proof.
  apply (get_pods_metrics_failed_metric_query
           (example_prometheus (fun _ => Raise (Exn RequestException (lit "timed out"))))
           example_series (tl example_pods)
           (example_pod_fields "default" "web-1") (lit "web-1")
           (Exn RequestException (lit "timed out"))).
  - reflexivity.
  - reflexivity.
  - repeat constructor; eexists; eexists; split; reflexivity.
  - reflexivity.
  - reflexivity.
Defined.

(** X23: when the query [kube_pod_info] itself fails, the loop over the answer
    runs over the keys of the error dict, and the endpoint raises
    AttributeError on the string "error". *)
Theorem get_pods_metrics_failed_pod_query (w : PrometheusApi.world) (e : exn) :
  PrometheusApi.custom_query_range w (lit "kube_pod_info") = Raise e ->
  PrometheusApi.get_pods_metrics w
  = Raise (Exn AttributeError (lit "'str' object has no attribute 'get'")).
Proof.
  intros H. unfold PrometheusApi.get_pods_metrics,
    PrometheusApi._query_metrics_timeframe.
  rewrite H. reflexivity.
Qed.

Lemma get_pods_metrics_failed_pod_query_witness :
  PrometheusApi.get_pods_metrics unreachable_prometheus
  = Raise (Exn AttributeError (lit "'str' object has no attribute 'get'")).
Proof.
  apply (get_pods_metrics_failed_pod_query unreachable_prometheus
           (Exn RequestException (lit "connection refused"))).
  reflexivity.
Defined.

Lemma dict_get_set_same (items : list (str * value)) (key : str) (v default : value) :
  dict_get (Json.dict_set items key v) key default = v.
Proof.
  induction items as [|[k v0] rest IH]; simpl.
  - rewrite str_eqb_refl. reflexivity.
  - destruct (str_eqb k key) eqn:E; simpl; rewrite E; [reflexivity | exact IH].
Qed.

Lemma dict_get_set_other (items : list (str * value)) (key key' : str)
  (v default : value) :
  key <> key' ->
  dict_get (Json.dict_set items key v) key' default = dict_get items key' default.
Proof.
  intros Hne. induction items as [|[k v0] rest IH]; simpl.
  - apply str_eqb_neq in Hne. rewrite Hne. reflexivity.
  - destruct (str_eqb k key) eqn:E; simpl.
    + apply str_eqb_eq in E. subst k. apply str_eqb_neq in Hne. rewrite Hne.
      reflexivity.
    + destruct (str_eqb k key'); [reflexivity | exact IH].
Qed.

Lemma metric_values_is_list (w : PrometheusApi.world) (rslt v : value) :
  PrometheusApi.metric_values w rslt = Return v -> exists values, v = VList values.
Proof.
  unfold PrometheusApi.metric_values. intros H.
  match type of H with bind ?c _ = _ => destruct c as [[|]|]; cbn [bind] in H end.
  - repeat match type of H with
           | bind ?m _ = _ => destruct m; cbn [bind] in H; [|discriminate]
           end.
    injection H as <-. eauto.
  - injection H as <-. eauto.
  - discriminate.
Qed.

Lemma add_metrics_spec (w : PrometheusApi.world) (conditions : list (str * str))
  (podname : value) :
  forall fields result,
    PrometheusApi.add_metrics w conditions podname (VDict fields) = Return result ->
    exists fields',
      result = VDict fields'
      /\ (forall key, In key (map fst conditions) ->
            exists values, dict_get fields' key VNone = VList values)
      /\ (forall key default, ~ In key (map fst conditions) ->
            dict_get fields' key default = dict_get fields key default).
Proof.
  induction conditions as [|[key template] rest IH]; intros fields result H.
  - injection H as <-. exists fields. split; [reflexivity|]. split.
    + intros key [].
    + reflexivity.
  - cbn [PrometheusApi.add_metrics] in H.
    destruct (py_replace template (lit "***") podname) as [query_string|];
      cbn [bind] in H; [|discriminate].
    destruct (PrometheusApi.metric_values w _) as [value|] eqn:Hvalue;
      cbn [bind] in H; [|discriminate].
    apply metric_values_is_list in Hvalue as (values & ->).
    destruct (IH _ _ H) as (fields' & -> & Hlists & Hothers).
    exists fields'. split; [reflexivity|]. split.
    + intros k Hk.
      destruct (in_dec (List.list_eq_dec N.eq_dec) k (map fst rest)) as [Hin|Hout].
      * apply Hlists. exact Hin.
      * destruct Hk as [Hk|Hk]; [|contradiction]. simpl in Hk. subst k.
        rewrite Hothers by exact Hout. rewrite dict_get_set_same. eauto.
    + intros k default Hk. rewrite Hothers.
      * apply dict_get_set_other. intros ->. apply Hk. left. reflexivity.
      * intros Hin. apply Hk. right. exact Hin.
Qed.

(** X24: the metrics of a pod: when they are collected, the dict of the pod has
    a list under each of the five keys cpu, mem, net_in, net_out and
    pod_status, and every other key is as it was. *)
Theorem pod_metrics_adds_five_lists
  (w : PrometheusApi.world) (fields : list (str * value)) (result : value) :
  PrometheusApi.pod_metrics w (VDict fields) = Return result ->
  exists fields',
    result = VDict fields'
    /\ (forall key,
          In key [lit "cpu"; lit "mem"; lit "net_in"; lit "net_out"; lit "pod_status"] ->
          exists values, dict_get fields' key VNone = VList values)
    /\ (forall key default,
          ~ In key [lit "cpu"; lit "mem"; lit "net_in"; lit "net_out"; lit "pod_status"] ->
          dict_get fields' key default = dict_get fields key default).
Proof.
  unfold PrometheusApi.pod_metrics. cbn [py_get bind]. intros H.
  apply add_metrics_spec in H. exact H.
Qed.

Lemma pod_metrics_adds_five_lists_witness :
  exists fields',
    with_metrics (example_prometheus two_samples)
      (VDict (example_pod_fields "default" "web-1")) = VDict fields'
    /\ (forall key,
          In key [lit "cpu"; lit "mem"; lit "net_in"; lit "net_out"; lit "pod_status"] ->
          exists values, dict_get fields' key VNone = VList values)
    /\ (forall key default,
          ~ In key [lit "cpu"; lit "mem"; lit "net_in"; lit "net_out"; lit "pod_status"] ->
          dict_get fields' key default
          = dict_get (example_pod_fields "default" "web-1") key default).
Proof.
  apply (pod_metrics_adds_five_lists (example_prometheus two_samples)
           (example_pod_fields "default" "web-1")).
  vm_compute. reflexivity.
Defined.
